(** * FeedPet: the pet-adoption listing application

    A shallow embedding of the application code of [adocoes/] (models, forms,
    admin action, views and routes) and of the static build, and the
    properties its specification states about it.  Python objects become
    records, the relational store becomes an explicit [Database] value that
    every operation threads, and raising an exception becomes the [Raise]
    outcome. *)

From Stdlib Require Import List String Ascii ZArith Arith Bool Lia.
From Stdlib Require Import Permutation Sorting.Sorted FinFun.
From Stdlib Require Import Numbers.DecimalString Numbers.DecimalNat.
Import ListNotations.

Local Open Scope string_scope.
Local Open Scope list_scope.

(* ================================================================== *)
(** ** Python primitives used by the application                      *)
(* ================================================================== *)

Module Py.

(** [c.lower()] and [c.upper()] on one character.  Only the letters of the
    ASCII range are mapped; every other byte is left as it is. *)
Definition lower_char (c : ascii) : ascii :=
  let n := nat_of_ascii c in
  if (Nat.leb 65 n) && (Nat.leb n 90) then ascii_of_nat (n + 32) else c.

Definition upper_char (c : ascii) : ascii :=
  let n := nat_of_ascii c in
  if (Nat.leb 97 n) && (Nat.leb n 122) then ascii_of_nat (n - 32) else c.

Fixpoint map_chars (f : ascii -> ascii) (s : string) : string :=
  match s with
  | EmptyString => EmptyString
  | String c r => String (f c) (map_chars f r)
  end.

(** [s.lower()], [s.upper()] *)
Definition lower : string -> string := map_chars lower_char.
Definition upper : string -> string := map_chars upper_char.

(** [s.split(sep)] for a one-character separator: never the empty list. *)
Fixpoint split (sep : ascii) (s : string) : list string :=
  match s with
  | EmptyString => [EmptyString]
  | String c r =>
      if Ascii.eqb c sep then EmptyString :: split sep r
      else match split sep r with
           | [] => [String c EmptyString]
           | w :: ws => String c w :: ws
           end
  end.

(** [xs[-1]] on a list of strings that is known not to be empty. *)
Definition last_item (xs : list string) : string := List.last xs EmptyString.

(** [needle in hay] on strings: substring test. *)
Fixpoint contains (needle hay : string) : bool :=
  String.prefix needle hay
  || match hay with
     | EmptyString => false
     | String _ r => contains needle r
     end.

(** [c in s]: does the character occur in the string. *)
Fixpoint has_char (c : ascii) (s : string) : bool :=
  match s with
  | EmptyString => false
  | String d r => Ascii.eqb d c || has_char c r
  end.

(** [str(n)] for a natural number: its decimal numeral. *)
Definition str_of_nat (n : nat) : string :=
  NilEmpty.string_of_uint (Nat.to_uint n).

(** Truth value of a string: the empty string is false. *)
Definition truthy (s : string) : bool :=
  match s with EmptyString => false | _ => true end.

(** [x in xs] on a list of strings. *)
Definition str_in (x : string) (xs : list string) : bool :=
  existsb (String.eqb x) xs.

(** [c.isspace()] on one character of the ASCII range: the tabulation and
    the line separators (9 to 13), the four information separators (28 to
    31) and the space. *)
Definition is_space (c : ascii) : bool :=
  let n := nat_of_ascii c in
  (Nat.leb 9 n && Nat.leb n 13) || (Nat.leb 28 n && Nat.leb n 32).

(** [s.lstrip()], [s.rstrip()] and [s.strip()]. *)
Fixpoint lstrip (s : string) : string :=
  match s with
  | EmptyString => EmptyString
  | String c r => if is_space c then lstrip r else s
  end.

Fixpoint rstrip (s : string) : string :=
  match s with
  | EmptyString => EmptyString
  | String c r =>
      match rstrip r with
      | EmptyString => if is_space c then EmptyString else String c EmptyString
      | kept => String c kept
      end
  end.

Definition strip (s : string) : string := rstrip (lstrip s).

End Py.

(* ================================================================== *)
(** ** Outcomes: a value, a raised exception, or an exhausted loop     *)
(* ================================================================== *)

(** What a [ValidationError] of the form reports. *)
Inductive ValidationCode : Type :=
| TooManyPhotos (maximum : nat)
| InvalidFormat (extension : string)
| FileTooLarge (file_name : string) (max_size_mb : Z)
| GenericName.

Inductive Exception : Type :=
| ValidationError (code : ValidationCode)
| AttributeError
| ValueError
| IntegrityError.

Inductive outcome (A : Type) : Type :=
| Ok (a : A)
| Raise (e : Exception)
| OutOfFuel.

Arguments Ok {A} a.
Arguments Raise {A} e.
Arguments OutOfFuel {A}.

Definition bind {A B : Type} (m : outcome A) (k : A -> outcome B) : outcome B :=
  match m with
  | Ok a => k a
  | Raise e => Raise e
  | OutOfFuel => OutOfFuel
  end.

Notation "x <- m ;; k" := (bind m (fun x => k))
  (at level 61, m at next level, right associativity).
Notation "m ;;; k" := (bind m (fun _ => k))
  (at level 61, right associativity).

(* ================================================================== *)
(** ** models.py                                                       *)
(* ================================================================== *)

Inductive EspecieChoices : Type :=
| CACHORRO | GATO | COELHO | PEIXE | PASSARO | ROEDOR | REPTIL | OUTRO.

Inductive StatusChoices : Type :=
| PENDENTE | DISPONIVEL | EM_PROCESSO | ADOTADO.

(** The stored value of each choice (first component of the pair). *)
Definition especie_value (e : EspecieChoices) : string :=
  match e with
  | CACHORRO => "CACHORRO" | GATO => "GATO" | COELHO => "COELHO"
  | PEIXE => "PEIXE" | PASSARO => "PASSARO" | ROEDOR => "ROEDOR"
  | REPTIL => "REPTIL" | OUTRO => "OUTRO"
  end.

Definition status_value (s : StatusChoices) : string :=
  match s with
  | PENDENTE => "PENDENTE" | DISPONIVEL => "DISPONIVEL"
  | EM_PROCESSO => "EM_PROCESSO" | ADOTADO => "ADOTADO"
  end.

(** [StatusChoices.choices], in declaration order. *)
Definition StatusChoices_choices : list StatusChoices :=
  [PENDENTE; DISPONIVEL; EM_PROCESSO; ADOTADO].

Definition EspecieChoices_choices : list EspecieChoices :=
  [CACHORRO; GATO; COELHO; PEIXE; PASSARO; ROEDOR; REPTIL; OUTRO].

(** [StatusChoices(value)]: the member with that value; Python raises
    [ValueError] for a value that names no member. *)
Definition StatusChoices_of_value (v : string) : outcome StatusChoices :=
  match find (fun s => String.eqb (status_value s) v) StatusChoices_choices with
  | Some s => Ok s
  | None => Raise ValueError
  end.

Definition status_eqb (a b : StatusChoices) : bool :=
  String.eqb (status_value a) (status_value b).

Definition especie_eqb (a b : EspecieChoices) : bool :=
  String.eqb (especie_value a) (especie_value b).

Record User : Type := mkUser {
  user_pk : Z;
  is_staff : bool
}.

Record Pet : Type := mkPet {
  pk : option Z;
  solicitante : option Z;
  nome : string;
  slug : string;
  especie : EspecieChoices;
  raca : option string;
  idade : Z;
  descricao : string;
  foto_principal : option string;
  video : option string;
  status : StatusChoices;
  data_cadastro : Z;
  data_atualizacao : Z
}.

Record PetExtraPhoto : Type := mkFoto {
  foto_pk : Z;
  foto_pet : Z;
  imagem : string;
  ordem : nat;
  data_envio : Z
}.

(** One write issued to the store. *)
Inductive StoreWrite : Type :=
| WSavePet (pet_pk : Z)
| WDeleteFotos (foto_pks : list Z)
| WCreateFoto (pet_pk : Z) (file_name : string) (ordem_value : nat)
| WUpdateStatus (pet_pks : list Z) (new_status : StatusChoices).

(** The relational store: the two tables, the journal of the writes issued
    so far, oldest first, and, per table, the largest key the store ever
    gave.  The store is SQLite (settings.py, line 52), where the key of an
    [AutoField] is declared [AUTOINCREMENT]: the key of a deleted row is
    never given again. *)
Record Database : Type := mkDb {
  pets : list Pet;
  fotos : list PetExtraPhoto;
  journal : list StoreWrite;
  pet_sequence : Z;
  foto_sequence : Z
}.

(** Attribute assignments on a [Pet] object. *)
Definition set_pk (v : option Z) (p : Pet) : Pet :=
  mkPet v (solicitante p) (nome p) (slug p) (especie p) (raca p) (idade p)
        (descricao p) (foto_principal p) (video p) (status p)
        (data_cadastro p) (data_atualizacao p).

Definition set_solicitante (v : option Z) (p : Pet) : Pet :=
  mkPet (pk p) v (nome p) (slug p) (especie p) (raca p) (idade p)
        (descricao p) (foto_principal p) (video p) (status p)
        (data_cadastro p) (data_atualizacao p).

Definition set_slug (v : string) (p : Pet) : Pet :=
  mkPet (pk p) (solicitante p) (nome p) v (especie p) (raca p) (idade p)
        (descricao p) (foto_principal p) (video p) (status p)
        (data_cadastro p) (data_atualizacao p).

Definition set_status (v : StatusChoices) (p : Pet) : Pet :=
  mkPet (pk p) (solicitante p) (nome p) (slug p) (especie p) (raca p) (idade p)
        (descricao p) (foto_principal p) (video p) v
        (data_cadastro p) (data_atualizacao p).

Definition set_data_cadastro (v : Z) (p : Pet) : Pet :=
  mkPet (pk p) (solicitante p) (nome p) (slug p) (especie p) (raca p) (idade p)
        (descricao p) (foto_principal p) (video p) (status p)
        v (data_atualizacao p).

Definition set_data_atualizacao (v : Z) (p : Pet) : Pet :=
  mkPet (pk p) (solicitante p) (nome p) (slug p) (especie p) (raca p) (idade p)
        (descricao p) (foto_principal p) (video p) (status p)
        (data_cadastro p) v.

Definition has_pk (k : Z) (p : Pet) : bool :=
  match pk p with
  | Some j => Z.eqb j k
  | None => false
  end.

(** The next value of an auto-incremented key: one past the largest key
    that the table holds or ever gave. *)
Definition next_pet_pk (db : Database) : Z :=
  1 + Z.max (pet_sequence db)
            (fold_right (fun p acc => match pk p with
                                      | Some k => Z.max k acc
                                      | None => acc
                                      end) 0%Z (pets db)).

Definition next_foto_pk (db : Database) : Z :=
  1 + Z.max (foto_sequence db)
            (fold_right (fun f acc => Z.max (foto_pk f) acc) 0%Z (fotos db)).

(** [Pet.objects.filter(slug=s).exists()] *)
Definition slug_exists (db : Database) (s : string) : bool :=
  existsb (fun p => String.eqb (slug p) s) (pets db).

(** The [while] loop of [Pet.save], lines 129-131: [unique_slug] and [num]
    are the loop variables, [fuel] bounds the number of tests of the loop
    condition. *)
Fixpoint slug_loop (fuel : nat) (db : Database) (base_slug unique_slug : string)
                   (num : nat) : outcome string :=
  match fuel with
  | O => OutOfFuel
  | S fuel' =>
      if slug_exists db unique_slug
      then slug_loop fuel' db base_slug
                     (base_slug ++ "-" ++ Py.str_of_nat num) (S num)
      else Ok unique_slug
  end.

(** [models.Model.save]: the row is inserted when the object has no key (or
    no row carries its key) and updated otherwise; [auto_now_add] and
    [auto_now] stamp the two dates; the unique column [slug] and the
    constraint [unique_pet_nome_especie] are enforced against the other
    rows. *)
Definition same_row (p q : Pet) : bool :=
  match pk p, pk q with
  | Some a, Some b => Z.eqb a b
  | _, _ => false
  end.

Definition violates_unique (db : Database) (p : Pet) : bool :=
  existsb (fun q => negb (same_row p q)
                    && (String.eqb (slug q) (slug p)
                        || (String.eqb (nome q) (nome p)
                            && especie_eqb (especie q) (especie p))))
          (pets db).

Definition Model_save (now : Z) (db : Database) (p : Pet)
  : outcome (Database * Pet) :=
  if violates_unique db p then Raise IntegrityError
  else
    match pk p with
    | Some k =>
        let p' := set_data_atualizacao now p in
        if existsb (has_pk k) (pets db)
        then Ok (mkDb (map (fun q => if has_pk k q then p' else q) (pets db))
                      (fotos db) (journal db ++ [WSavePet k])
                      (pet_sequence db) (foto_sequence db), p')
        else Ok (mkDb (pets db ++ [p']) (fotos db)
                      (journal db ++ [WSavePet k])
                      (Z.max (pet_sequence db) k) (foto_sequence db), p')
    | None =>
        let k := next_pet_pk db in
        let p' := set_pk (Some k)
                    (set_data_cadastro now (set_data_atualizacao now p)) in
        Ok (mkDb (pets db ++ [p']) (fotos db) (journal db ++ [WSavePet k])
                 k (foto_sequence db), p')
    end.

Section PetModel.

(** [django.utils.text.slugify] belongs to the framework. *)
Variable slugify : string -> string.

(** [Pet.save], lines 123-133. *)
Definition Pet_save (fuel : nat) (now : Z) (db : Database) (self : Pet)
  : outcome (Database * Pet) :=
  self' <- (if negb (Py.truthy (slug self))
            then
              let base_slug := slugify (nome self) in
              unique_slug <- slug_loop fuel db base_slug base_slug 1 ;;
              Ok (set_slug unique_slug self)
            else Ok self) ;;
  Model_save now db self'.

End PetModel.

(* ================================================================== *)
(** ** constants.py                                                    *)
(* ================================================================== *)

(** The names that forms.py and models.py import from [.constants]. *)
Record Constants : Type := mkConstants {
  ALLOWED_IMAGE_EXTENSIONS : list string;
  ALLOWED_VIDEO_EXTENSIONS : list string;
  MAX_ADDITIONAL_PHOTOS : nat;
  MAX_ADDITIONAL_IMAGE_SIZE_MB : Z;
  MAX_VIDEO_SIZE_MB : Z
}.

(** Modelled from the spec: [adocoes/constants.py] is not among the sources.
    The maximum of 5 gallery photos is the one of the specification (section
    3 and the last scenario of section 8); the two extension lists are the
    ones the help texts of models.py announce.  The two size ceilings are
    stated nowhere: the values below only serve to run examples. *)
Definition site_constants : Constants :=
  mkConstants ["jpg"; "jpeg"; "png"; "webp"]
              ["mp4"; "mov"; "avi"; "mkv"; "webm"]
              5 5%Z 50%Z.

(* ================================================================== *)
(** ** forms.py                                                        *)
(* ================================================================== *)

(** An uploaded file: its name and its size in bytes.  The decoding of a
    [foto_principal] as an image is not modelled: an upload stands for a
    file that decodes. *)
Record UploadedFile : Type := mkFile {
  name : string;
  size : Z
}.

(** The bound data of a submission: [self.data] and [self.files].  The age,
    the species and the status are the values that their fields read: a
    submission where one of them cannot be read is not represented. *)
Record PostData : Type := mkPost {
  post_nome : string;
  post_especie : EspecieChoices;
  post_status : option StatusChoices;
  post_raca : string;
  post_idade : Z;
  post_descricao : string;
  post_foto_principal : option UploadedFile;
  post_video : option UploadedFile;
  post_fotos_adicionais : list UploadedFile;
  post_fotos_extras_remover : list Z
}.

(** A [PetForm] object.  [remover_queryset] is the queryset of the field
    [fotos_extras_remover] when [__init__] added that field. *)
Record PetForm : Type := mkForm {
  user : option User;
  instance : Pet;
  fields : list string;
  _existing_extra_photos : nat;
  remover_queryset : option (list Z);
  data : PostData
}.

(** [Meta.fields] followed by the declared field that is not a model field. *)
Definition Meta_fields : list string :=
  ["nome"; "especie"; "status"; "raca"; "idade"; "descricao";
   "foto_principal"; "video"].

Definition base_fields : list string := Meta_fields ++ ["fotos_adicionais"].

(** [self.fields.pop(key, None)] *)
Definition fields_pop (key : string) (fs : list string) : list string :=
  filter (fun f => negb (String.eqb f key)) fs.

(** [pet.fotos_extras]: the photos of the pet with key [k], as stored. *)
Definition fotos_extras (db : Database) (k : Z) : list PetExtraPhoto :=
  filter (fun f => Z.eqb (foto_pet f) k) (fotos db).

(** [PetForm.__init__], lines 50-86: the form object as it stands when the
    call of line 87 is reached or skipped (the widget attributes are left
    out). *)
Definition PetForm_init (db : Database) (user_kw : option User)
                        (instance_kw : Pet) (bound : PostData) : PetForm :=
  let fields0 :=
    match user_kw with
    | Some u => if negb (is_staff u) then fields_pop "status" base_fields
                else base_fields
    | None => base_fields
    end in
  let existing :=
    match pk instance_kw with
    | Some k => List.length (fotos_extras db k)
    | None => 0
    end in
  match pk instance_kw with
  | Some k =>
      match fotos_extras db k with
      | [] => mkForm user_kw instance_kw fields0 existing None bound
      | _ :: _ =>
          mkForm user_kw instance_kw (fields0 ++ ["fotos_extras_remover"])
                 existing (Some (map foto_pk (fotos_extras db k))) bound
      end
  | None => mkForm user_kw instance_kw fields0 existing None bound
  end.

(** [PetForm(user=..., instance=..., data=..., files=...)]: the whole of
    [__init__].  Line 87 calls [self.fields.move_to_end], and the fields of
    a form are a plain [dict], which has no such method: the call raises
    [AttributeError] whenever it is reached, that is whenever line 80 found
    a stored photo of the instance and lines 81-86 added the removal
    field. *)
Definition PetForm_new (db : Database) (user_kw : option User)
                       (instance_kw : Pet) (bound : PostData)
  : outcome PetForm :=
  let self := PetForm_init db user_kw instance_kw bound in
  match remover_queryset self with
  | Some _ => Raise AttributeError
  | None => Ok self
  end.

(** [PetForm._validate_file_extension], lines 90-95. *)
Definition file_extension (filename : string) : string :=
  Py.lower (Py.last_item (Py.split "." filename)).

Definition _validate_file_extension (filename : string)
                                    (allowed_extensions : list string)
  : outcome unit :=
  let extension := file_extension filename in
  if negb (Py.str_in extension allowed_extensions)
  then Raise (ValidationError (InvalidFormat extension))
  else Ok tt.

(** [PetForm._validate_file_size], lines 97-102. *)
Definition _validate_file_size (file_obj : UploadedFile) (max_size_mb : Z)
  : outcome unit :=
  let max_bytes := (max_size_mb * 1024 * 1024)%Z in
  if (size file_obj >? max_bytes)%Z
  then Raise (ValidationError (FileTooLarge (name file_obj) max_size_mb))
  else Ok tt.

(** The cleaning of a [forms.CharField], the form field of a [CharField] or
    [TextField] of the model: the submitted text is stripped of the white
    space around it; the field refuses an empty text when it is required, a
    text longer than [max_length], and a text that holds the null
    character.  [None] is a refusal. *)
Definition CharField_clean (required : bool) (max_length : option nat)
                           (value : string) : option string :=
  let value := Py.strip value in
  if (required && negb (Py.truthy value))
     || match max_length with
        | Some m => Nat.ltb m (String.length value)
        | None => false
        end
     || Py.has_char Ascii.zero value
  then None
  else Some value.

(** [cleaned_data["nome"]], [cleaned_data["raca"]] and
    [cleaned_data["descricao"]] of a form whose fields were accepted. *)
Definition cleaned_nome (self : PetForm) : string :=
  Py.strip (post_nome (data self)).

Definition cleaned_raca (self : PetForm) : string :=
  Py.strip (post_raca (data self)).

Definition cleaned_descricao (self : PetForm) : string :=
  Py.strip (post_descricao (data self)).

(** [PetForm.clean_nome], lines 104-111. *)
Definition nomes_proibidos : list string :=
  ["cachorro"; "gato"; "pet"; "animal"; "outro"].

Definition clean_nome (self : PetForm) : outcome string :=
  let nome_value := cleaned_nome self in
  if Py.truthy nome_value && Py.str_in (Py.lower nome_value) nomes_proibidos
  then Raise (ValidationError GenericName)
  else Ok nome_value.

(** [Path(name).suffix[1:]]: what follows the last dot of the last component
    of a path, and nothing when that component has no dot, starts with its
    only dot or ends with a dot. *)
Definition Path_suffix (filename : string) : string :=
  let component := Py.last_item (Py.split "/" filename) in
  match rev (Py.split "." component) with
  | last_part :: _ :: _ =>
      if Py.truthy last_part
         && Nat.ltb (S (String.length last_part)) (String.length component)
      then last_part else EmptyString
  | _ => EmptyString
  end.

(** [FileExtensionValidator(allowed_extensions)], the validator of the two
    file fields of the model (models.py, lines 93 and 102). *)
Definition FileExtensionValidator (allowed_extensions : list string)
                                  (filename : string) : bool :=
  Py.str_in (Py.lower (Path_suffix filename))
            (map Py.lower allowed_extensions).

(** What [_save_m2m_data] reads from [cleaned_data]; [None] for the removal
    selection when the form has no such field. *)
Record CleanedData : Type := mkCleaned {
  cd_fotos_adicionais : list UploadedFile;
  cd_fotos_extras_remover : option (list Z)
}.

Section Forms.

Variable K : Constants.

(** The [for] loop of [clean], lines 121-123. *)
Fixpoint validate_extra_files (extra_files : list UploadedFile)
  : outcome unit :=
  match extra_files with
  | [] => Ok tt
  | file_obj :: rest =>
      _validate_file_extension (name file_obj) (ALLOWED_IMAGE_EXTENSIONS K) ;;;
      _validate_file_size file_obj (MAX_ADDITIONAL_IMAGE_SIZE_MB K) ;;;
      validate_extra_files rest
  end.

(** [PetForm.clean], lines 113-136.  The result pairs the cleaned data with
    the fields that received an error through [add_error].  [video_file] is
    the uploaded video; the stored video of an instance, which stands in
    [cleaned_data] when none is uploaded, has no size here and is taken to
    pass the two checks again. *)
Definition clean (self : PetForm) : outcome (CleanedData * list string) :=
  let extra_files := post_fotos_adicionais (data self) in
  (match extra_files with
   | [] => Ok tt
   | _ :: _ =>
       let total := List.length extra_files + _existing_extra_photos self in
       if Nat.ltb (MAX_ADDITIONAL_PHOTOS K) total
       then Raise (ValidationError (TooManyPhotos (MAX_ADDITIONAL_PHOTOS K)))
       else validate_extra_files extra_files
   end) ;;;
  (match post_video (data self) with
   | Some video_file =>
       _validate_file_extension (name video_file) (ALLOWED_VIDEO_EXTENSIONS K) ;;;
       _validate_file_size video_file (MAX_VIDEO_SIZE_MB K)
   | None => Ok tt
   end) ;;;
  let added_errors :=
    if especie_eqb (post_especie (data self)) OUTRO
       && negb (Py.truthy (cleaned_raca self))
    then ["raca"] else [] in
  Ok (mkCleaned extra_files
                (match remover_queryset self with
                 | Some _ => Some (post_fotos_extras_remover (data self))
                 | None => None
                 end),
      added_errors).

(** The cleaning of the single fields: the three text fields ([nome] of at
    most 100 characters and [descricao] are required, [raca] of at most 50
    is not; models.py, lines 50-88), the two validators of [idade]
    (models.py, line 81), a status when the field is in the form, the
    gallery field, and a removal selection drawn from the field's queryset.
    [fotos_adicionais] is a plain [forms.FileField] (forms.py, lines 32-39),
    which cleans one file: the widget with [allow_multiple_selected] hands
    it the list of the files sent, and it accepts that list only when it is
    empty. *)
Definition fields_valid (self : PetForm) : bool :=
  match CharField_clean true (Some 100) (post_nome (data self)) with
  | Some _ => true | None => false end
  && match CharField_clean false (Some 50) (post_raca (data self)) with
     | Some _ => true | None => false end
  && match CharField_clean true None (post_descricao (data self)) with
     | Some _ => true | None => false end
  && (0 <=? post_idade (data self))%Z && (post_idade (data self) <=? 30)%Z
  && (if Py.str_in "status" (fields self)
      then match post_status (data self) with Some _ => true | None => false end
      else true)
  && match post_fotos_adicionais (data self) with
     | [] => true
     | _ :: _ => false
     end
  && match remover_queryset self with
     | Some choices =>
         forallb (fun k => existsb (Z.eqb k) choices)
                 (post_fotos_extras_remover (data self))
     | None => true
     end.

(** [construct_instance]: every model field of the form is assigned from
    the cleaned data (an upload that was not sent leaves the stored file;
    an empty [raca] is stored as [None]). *)
Definition construct_instance (self : PetForm) : Pet :=
  let d := data self in
  let p := instance self in
  mkPet (pk p) (solicitante p)
        (cleaned_nome self) (slug p) (post_especie d)
        (if Py.truthy (cleaned_raca self) then Some (cleaned_raca self)
         else None)
        (post_idade d) (cleaned_descricao self)
        (match post_foto_principal d with
         | Some f => Some (name f)
         | None => foto_principal p
         end)
        (match post_video d with
         | Some f => Some (name f)
         | None => video p
         end)
        (if Py.str_in "status" (fields self)
         then match post_status d with Some s => s | None => status p end
         else status p)
        (data_cadastro p) (data_atualizacao p).

(** The validation of the constructed instance ([_post_clean]): the
    validators of the two file fields of the model, and the constraint
    [unique_pet_nome_especie] (models.py, lines 145-149) against the other
    rows of the store. *)
Definition file_fields_valid (pet : Pet) : bool :=
  match foto_principal pet with
  | Some filename => FileExtensionValidator (ALLOWED_IMAGE_EXTENSIONS K) filename
  | None => true
  end
  && match video pet with
     | Some filename => FileExtensionValidator (ALLOWED_VIDEO_EXTENSIONS K) filename
     | None => true
     end.

Definition validate_unique (db : Database) (pet : Pet) : bool :=
  negb (existsb (fun q => negb (same_row pet q)
                          && String.eqb (nome q) (nome pet)
                          && especie_eqb (especie q) (especie pet))
                (pets db)).

(** [form.is_valid()]: no field error, [clean_nome] and [clean] return,
    [clean] added no error, and the constructed instance is accepted. *)
Definition is_valid (db : Database) (self : PetForm) : bool :=
  fields_valid self
  && match clean_nome self with Ok _ => true | _ => false end
  && match clean self with Ok (_, []) => true | _ => false end
  && file_fields_valid (construct_instance self)
  && validate_unique db (construct_instance self).

(** [self.cleaned_data] of a valid form. *)
Definition cleaned_data (self : PetForm) : CleanedData :=
  match clean self with
  | Ok (cd, _) => cd
  | _ => mkCleaned [] None
  end.

(** [ModelForm.save(commit=False)]: refuses a form with errors. *)
Definition ModelForm_save (db : Database) (self : PetForm) : outcome Pet :=
  if is_valid db self then Ok (construct_instance self) else Raise ValueError.

(** [to_remove.delete()] *)
Definition delete_fotos (db : Database) (to_remove : list Z) : Database :=
  mkDb (pets db)
       (filter (fun f => negb (existsb (Z.eqb (foto_pk f)) to_remove)) (fotos db))
       (journal db ++ [WDeleteFotos to_remove])
       (pet_sequence db) (foto_sequence db).

(** [PetExtraPhoto.objects.create(pet=..., imagem=..., ordem=...)] *)
Definition create_foto (now : Z) (db : Database) (pet_pk : Z)
                       (file_obj : UploadedFile) (index : nat) : Database :=
  mkDb (pets db)
       (fotos db ++ [mkFoto (next_foto_pk db) pet_pk (name file_obj) index now])
       (journal db ++ [WCreateFoto pet_pk (name file_obj) index])
       (pet_sequence db) (next_foto_pk db).

(** The loop over [enumerate(extra_files, start=...)], lines 164-169. *)
Fixpoint create_fotos (now : Z) (db : Database) (pet_pk : Z)
                      (extra_files : list UploadedFile) (index : nat)
  : Database :=
  match extra_files with
  | [] => db
  | file_obj :: rest =>
      create_fotos now (create_foto now db pet_pk file_obj index)
                   pet_pk rest (S index)
  end.

(** [PetForm._save_m2m_data], lines 155-169.  The related manager of an
    object without a key raises [ValueError]. *)
Definition _save_m2m_data (now : Z) (db : Database) (self : PetForm)
                          (pet_instance : Pet) : outcome Database :=
  let extra_files := cd_fotos_adicionais (cleaned_data self) in
  let to_remove := cd_fotos_extras_remover (cleaned_data self) in
  let db1 :=
    match to_remove with
    | Some (k :: ks) => delete_fotos db (k :: ks)
    | _ => db
    end in
  match extra_files with
  | [] => Ok db1
  | _ :: _ =>
      match pk pet_instance with
      | Some k =>
          let existing_count := List.length (fotos_extras db1 k) in
          Ok (create_fotos now db1 k extra_files (existing_count + 1))
      | None => Raise ValueError
      end
  end.

Variable slugify : string -> string.

(** [PetForm.save], lines 138-153. *)
Definition PetForm_save (fuel : nat) (now : Z) (db : Database)
                        (self : PetForm) (commit : bool)
  : outcome (Database * Pet) :=
  pet <- ModelForm_save db self ;;
  let pet :=
    match pk pet, user self with
    | None, Some u => set_solicitante (Some (user_pk u)) pet
    | _, _ => pet
    end in
  staff <- match user self with
           | Some u => Ok (is_staff u)
           | None => Raise AttributeError
           end ;;
  let pet :=
    if negb staff && (match pk pet with None => true | Some _ => false end)
    then set_status PENDENTE pet else pet in
  if commit
  then
    saved <- Pet_save slugify fuel now db pet ;;
    db2 <- _save_m2m_data now (fst saved) self (snd saved) ;;
    Ok (db2, snd saved)
  else Ok (db, pet).

End Forms.

(* ================================================================== *)
(** ** Querysets                                                       *)
(* ================================================================== *)

(** A queryset over the pets is its row condition; it is evaluated against
    the store when it is listed, counted or updated. *)
Definition QuerySet : Type := Pet -> bool.

Definition qs_filter (queryset : QuerySet) (condition : Pet -> bool) : QuerySet :=
  fun p => queryset p && condition p.

Definition qs_list (db : Database) (queryset : QuerySet) : list Pet :=
  filter queryset (pets db).

Definition qs_count (db : Database) (queryset : QuerySet) : nat :=
  List.length (qs_list db queryset).

Definition pks_of (rows : list Pet) : list Z :=
  flat_map (fun p => match pk p with Some k => [k] | None => [] end) rows.

(** [queryset.update(status=value)]: one statement on the matching rows, which
    returns how many rows matched; [save] is not called, so no date moves. *)
Definition qs_update_status (db : Database) (queryset : QuerySet)
                            (value : StatusChoices) : Database * nat :=
  (mkDb (map (fun p => if queryset p then set_status value p else p) (pets db))
        (fotos db)
        (journal db ++ [WUpdateStatus (pks_of (qs_list db queryset)) value])
        (pet_sequence db) (foto_sequence db),
   qs_count db queryset).

(** [order_by("-field")] on a list of rows: insertion from the right, a row
    going before the rows that are not newer than it. *)
Fixpoint insert_desc (key : Pet -> Z) (p : Pet) (l : list Pet) : list Pet :=
  match l with
  | [] => [p]
  | q :: r => if (key q <=? key p)%Z then p :: q :: r
              else q :: insert_desc key p r
  end.

Definition order_by_desc (key : Pet -> Z) (l : list Pet) : list Pet :=
  fold_right (insert_desc key) [] l.

(* ================================================================== *)
(** ** admin.py                                                        *)
(* ================================================================== *)

(** [PetAdmin.aprovar_pets], lines 23-34: the new store and the count that
    the message to the user reports. *)
Definition aprovar_pets (db : Database) (queryset : QuerySet) : Database * nat :=
  let pets_para_aprovar :=
    qs_filter queryset (fun p => status_eqb (status p) PENDENTE) in
  let updated := qs_update_status db pets_para_aprovar DISPONIVEL in
  let updated_count := snd updated in
  (fst updated, updated_count).

(* ================================================================== *)
(** ** views.py                                                        *)
(* ================================================================== *)

Inductive RequestUser : Type :=
| AnonymousUser
| LoggedIn (u : User).

Definition is_authenticated (ru : RequestUser) : bool :=
  match ru with AnonymousUser => false | LoggedIn _ => true end.

Definition user_is_staff (ru : RequestUser) : bool :=
  match ru with AnonymousUser => false | LoggedIn u => is_staff u end.

(** A request: the query string, the user, the visitor marker of the
    session, and the number that the [page] parameter of the query string
    denotes, 1 when the query string has none. *)
Record HttpRequest : Type := mkRequest {
  GET : list (string * string);
  request_user : RequestUser;
  session_is_visitor : bool;
  page_number : nat
}.

(** [QueryDict.get(key)]: the last value given for the key. *)
Fixpoint QueryDict_get (q : list (string * string)) (key : string)
  : option string :=
  match q with
  | [] => None
  | (k, v) :: r =>
      match QueryDict_get r key with
      | Some w => Some w
      | None => if String.eqb k key then Some v else None
      end
  end.

Definition opt_truthy (v : option string) : bool :=
  match v with Some s => Py.truthy s | None => false end.

(** What a view answers: the rendered context, the redirection to the landing
    page (with or without a notice), the refusal of [PermissionDenied], or
    the answer 404 to a page that does not exist. *)
Inductive Response (A : Type) : Type :=
| Rendered (context : A)
| RedirectToLanding (notice : bool)
| Forbidden
| PageNotFound.

Arguments Rendered {A} context.
Arguments RedirectToLanding {A} notice.
Arguments Forbidden {A}.
Arguments PageNotFound {A}.

(** [VisitorOrUserRequiredMixin.dispatch], lines 20-26. *)
Definition VisitorOrUserRequiredMixin_dispatch {A : Type}
    (request : HttpRequest) (view : HttpRequest -> outcome (Response A))
  : outcome (Response A) :=
  let is_visitor := session_is_visitor request in
  if negb (is_authenticated (request_user request)) && negb is_visitor
  then Ok (RedirectToLanding true)
  else view request.

(** [StaffRequiredMixin.test_func], lines 33-34, with the reaction of
    [UserPassesTestMixin] when the test fails. *)
Definition StaffRequiredMixin_test_func (request : HttpRequest) : bool :=
  is_authenticated (request_user request) && user_is_staff (request_user request).

Definition StaffRequiredMixin_dispatch {A : Type}
    (request : HttpRequest) (view : HttpRequest -> outcome (Response A))
  : outcome (Response A) :=
  if StaffRequiredMixin_test_func request then view request
  else if is_authenticated (request_user request) then Ok Forbidden
       else Ok (RedirectToLanding false).

(** [Paginator.num_pages]: the pages of [count] rows, [per_page] rows to a
    page; an empty list has its one, empty, page. *)
Definition num_pages (count per_page : nat) : nat :=
  Nat.max 1 ((count + per_page - 1) / per_page).

(** [MultipleObjectMixin.paginate_queryset]: the page of a list, the whole
    list without a page size.  [number] is the page that the request asks
    for, 1 when it names none; a number outside [1 .. num_pages] is
    [Http404], here [None]. *)
Definition paginate_queryset (l : list Pet) (page_size : option nat)
                             (number : nat) : option (list Pet) :=
  match page_size with
  | None | Some O => Some l
  | Some (S n) =>
      if Nat.leb 1 number && Nat.leb number (num_pages (List.length l) (S n))
      then Some (firstn (S n) (skipn ((number - 1) * S n) l))
      else None
  end.

(** *** PetListView *)

Definition PetListView_paginate_by : nat := 8.

(** [PetListView.get_paginate_by], lines 94-98; the argument is the result of
    [os.getenv("STATIC_BUILD")]. *)
Definition PetListView_get_paginate_by (static_build : option string)
  : option nat :=
  if opt_truthy static_build then None else Some PetListView_paginate_by.

(** The two conditions of lines 107 and 110, and those of lines 116 and 118.
    [icontains] compares without regard to the case of ASCII letters. *)
Definition owned_by (ru : RequestUser) (p : Pet) : bool :=
  match ru, solicitante p with
  | LoggedIn u, Some k => Z.eqb k (user_pk u)
  | _, _ => false
  end.

Definition is_disponivel (p : Pet) : bool := status_eqb (status p) DISPONIVEL.

Definition nome__icontains (needle : string) (p : Pet) : bool :=
  Py.contains (Py.lower needle) (Py.lower (nome p)).

Definition especie_is (value : string) (p : Pet) : bool :=
  String.eqb (especie_value (especie p)) value.

(** [PetListView.get_queryset], lines 100-120. *)
Definition PetListView_get_queryset (db : Database) (request : HttpRequest)
  : list Pet :=
  let filter_type := QueryDict_get (GET request) "filtro" in
  let queryset : QuerySet :=
    if (match filter_type with Some v => String.eqb v "meus" | None => false end)
       && is_authenticated (request_user request)
    then owned_by (request_user request)
    else is_disponivel in
  let nome_param := QueryDict_get (GET request) "nome" in
  let especie_param := QueryDict_get (GET request) "especie" in
  let queryset :=
    match nome_param with
    | Some v => if Py.truthy v then qs_filter queryset (nome__icontains v)
                else queryset
    | None => queryset
    end in
  let queryset :=
    match especie_param with
    | Some v => if Py.truthy v then qs_filter queryset (especie_is v)
                else queryset
    | None => queryset
    end in
  order_by_desc data_cadastro (qs_list db queryset).

(** The listing as the view serves it: the gate, the queryset, the page. *)
Definition PetListView_get (static_build : option string) (db : Database)
                           (request : HttpRequest)
  : outcome (Response (list Pet)) :=
  VisitorOrUserRequiredMixin_dispatch request (fun request =>
    match paginate_queryset (PetListView_get_queryset db request)
                            (PetListView_get_paginate_by static_build)
                            (page_number request) with
    | Some page => Ok (Rendered page)
    | None => Ok PageNotFound
    end).

(** *** RelatorioPetView *)

Definition status_param (request : HttpRequest) : string :=
  Py.upper (match QueryDict_get (GET request) "status" with
            | Some v => v
            | None => status_value PENDENTE
            end).

(** [RelatorioPetView.get_queryset], lines 209-214. *)
Definition RelatorioPetView_get_queryset (db : Database) (request : HttpRequest)
  : list Pet :=
  let status_filter := status_param request in
  let valid_statuses := map status_value StatusChoices_choices in
  let status_filter :=
    if negb (Py.str_in status_filter valid_statuses)
    then status_value PENDENTE else status_filter in
  order_by_desc data_atualizacao
    (qs_list db (fun p => String.eqb (status_value (status p)) status_filter)).

Record RelatorioContext : Type := mkRelatorio {
  object_list : list Pet;
  status_choices : list StatusChoices;
  current_status : string;
  page_title_status : StatusChoices;
  counts : list (string * nat)
}.

(** [RelatorioPetView.get_context_data], lines 216-225.  The page title is
    built from the label of [StatusChoices(current_status)]; the context keeps
    that member. *)
Definition RelatorioPetView_get_context_data
    (db : Database) (request : HttpRequest) (listed : list Pet)
  : outcome RelatorioContext :=
  let current := status_param request in
  member <- StatusChoices_of_value current ;;
  Ok (mkRelatorio listed StatusChoices_choices current member
        (map (fun s => (Py.lower (status_value s),
                        qs_count db (fun p => status_eqb (status p) s)))
             StatusChoices_choices)).

(** The report as the view serves it. *)
Definition RelatorioPetView_get (db : Database) (request : HttpRequest)
  : outcome (Response RelatorioContext) :=
  StaffRequiredMixin_dispatch request (fun request =>
    context <- RelatorioPetView_get_context_data db request
                 (RelatorioPetView_get_queryset db request) ;;
    Ok (Rendered context)).

(* ================================================================== *)
(** ** Notions of the specification                                    *)
(* ================================================================== *)

(** The candidates the specification lists for a base slug: the base itself,
    then the base followed by "-1", "-2", ... *)
Definition slug_candidate (base_slug : string) (k : nat) : string :=
  match k with
  | O => base_slug
  | S _ => base_slug ++ "-" ++ Py.str_of_nat k
  end.

(** Is the candidate of index [k] the slug of a stored record. *)
Definition candidate_taken (db : Database) (base_slug : string) (k : nat) : bool :=
  slug_exists db (slug_candidate base_slug k).

(** The gallery total as the specification counts it:
    existing - removed + new. *)
Definition spec_gallery_total (existing removed new_files : nat) : nat :=
  existing - removed + new_files.


(** Sorted by a key, largest first. *)
Definition sorted_desc (key : Pet -> Z) (l : list Pet) : Prop :=
  StronglySorted (fun p q => (key q <= key p)%Z) l.

(** The substring after the last occurrence of a character, the whole string
    when the character does not occur. *)
Fixpoint after_last (sep : ascii) (s : string) : string :=
  match s with
  | EmptyString => EmptyString
  | String c r =>
      if Py.has_char sep r then after_last sep r
      else if Ascii.eqb c sep then r
      else String c r
  end.

(** The writes that appending a batch of files issues, in order. *)
Fixpoint create_writes (pet_pk : Z) (extra_files : list UploadedFile)
                       (index : nat) : list StoreWrite :=
  match extra_files with
  | [] => []
  | file_obj :: rest =>
      WCreateFoto pet_pk (name file_obj) index
      :: create_writes pet_pk rest (S index)
  end.

(** The removal selection that a commit acts on: none without the field. *)
Definition removal_selection (self : PetForm) : list Z :=
  match remover_queryset self with
  | Some _ => post_fotos_extras_remover (data self)
  | None => []
  end.

Definition kept (to_remove : list Z) (f : PetExtraPhoto) : bool :=
  negb (existsb (Z.eqb (foto_pk f)) to_remove).

(** The object that [PetForm.save] hands to [Pet.save] when the form has a
    user (lines 139-147), and the status the specification gives it: pending
    for a creation by a user who is not staff, the status of the constructed
    instance otherwise. *)
Definition prepared_pet (self : PetForm) (u : User) : Pet :=
  let pet := construct_instance self in
  let pet := match pk pet with
             | None => set_solicitante (Some (user_pk u)) pet
             | Some _ => pet
             end in
  if negb (is_staff u) && (match pk pet with None => true | Some _ => false end)
  then set_status PENDENTE pet else pet.

Definition prepared_status (self : PetForm) (staff : bool) : StatusChoices :=
  if negb staff && (match pk (instance self) with None => true | Some _ => false end)
  then PENDENTE
  else status (construct_instance self).

(** The row condition of the gallery listing as the specification words it:
    the records of the acting owner when the mine filter is asked for by an
    authenticated user, the available records otherwise; then the optional
    name and species filters. *)
Definition mine_requested (request : HttpRequest) : bool :=
  match QueryDict_get (GET request) "filtro" with
  | Some v => String.eqb v "meus"
  | None => false
  end.

Definition gallery_condition (request : HttpRequest) (p : Pet) : bool :=
  (if mine_requested request && is_authenticated (request_user request)
   then owned_by (request_user request) p
   else status_eqb (status p) DISPONIVEL)
  && (match QueryDict_get (GET request) "nome" with
      | Some v => if Py.truthy v then nome__icontains v p else true
      | None => true
      end)
  && (match QueryDict_get (GET request) "especie" with
      | Some v => if Py.truthy v then especie_is v p else true
      | None => true
      end).

(** The same request without one query parameter. *)
Definition without_param (key : string) (request : HttpRequest) : HttpRequest :=
  mkRequest (filter (fun kv => negb (String.eqb (fst kv) key)) (GET request))
            (request_user request) (session_is_visitor request)
            (page_number request).

(** The status a report request selects, as the specification words it: the
    uppercased parameter when it names a status, pending otherwise. *)
Definition report_status (request : HttpRequest) : StatusChoices :=
  match find (fun s => String.eqb (status_value s) (status_param request))
             StatusChoices_choices with
  | Some s => s
  | None => PENDENTE
  end.

(** What bulk approval does to one row. *)
Definition approved_row (queryset : QuerySet) (p : Pet) : Pet :=
  if queryset p && status_eqb (status p) PENDENTE
  then set_status DISPONIVEL p else p.

(* ================================================================== *)
(** ** Sample data                                                     *)
(* ================================================================== *)

(** On a name made of ASCII letters [slugify] only lowercases. *)
Definition sample_slugify : string -> string := Py.lower.

Definition owner : User := mkUser 7 false.
Definition staff_member : User := mkUser 1 true.

(** [Pet()]: the defaults of the model. *)
Definition new_pet : Pet :=
  mkPet None None "" "" OUTRO None 0 "" None None PENDENTE 0 0.

Definition rex : Pet :=
  mkPet (Some 1%Z) (Some 7%Z) "Rex" "rex" CACHORRO (Some "Vira-lata") 5
        "Calmo" None None DISPONIVEL 10 10.

Definition luna : Pet :=
  mkPet (Some 2%Z) (Some 8%Z) "Luna" "luna" GATO None 2
        "Curiosa" None None PENDENTE 20 30.

Definition bob : Pet :=
  mkPet (Some 3%Z) (Some 7%Z) "Bob" "bob" CACHORRO None 3
        "Alegre" None None PENDENTE 30 20.

Definition gallery_foto (k : Z) (position : nat) : PetExtraPhoto :=
  mkFoto k 1 "foto.png" position 10.

Definition empty_db : Database := mkDb [] [] [] 0 0.

Definition three_pets_db : Database := mkDb [rex; luna; bob] [] [] 3 0.

(** Rex with a full gallery. *)
Definition full_gallery_db : Database :=
  mkDb [rex]
       [gallery_foto 1 1; gallery_foto 2 2; gallery_foto 3 3;
        gallery_foto 4 4; gallery_foto 5 5] [] 1 5.

(** An edit of Rex that removes the photo 1 and sends one new file. *)
Definition swap_post : PostData :=
  mkPost "Rex" CACHORRO None "Vira-lata" 5 "Calmo" None None
         [mkFile "nova.png" 1000] [1%Z].

(** A creation that asks for the status adopted. *)
Definition rex_post : PostData :=
  mkPost "Rex" CACHORRO (Some ADOTADO) "Vira-lata" 5 "Calmo" None None [] [].

(** Two more pets called Rex, not yet saved. *)
Definition rex_cat : Pet :=
  mkPet None (Some 8%Z) "Rex" "" GATO None 4 "Calmo" None None PENDENTE 0 0.

Definition rex_bird : Pet :=
  mkPet None (Some 8%Z) "Rex" "" PASSARO None 1 "Canta" None None PENDENTE 0 0.

Definition visitor_request (query : list (string * string)) : HttpRequest :=
  mkRequest query AnonymousUser true 1.

Definition staff_request (query : list (string * string)) : HttpRequest :=
  mkRequest query (LoggedIn staff_member) false 1.

(* ================================================================== *)
(** ** views.py: the views of one pet                                  *)
(* ================================================================== *)

(** *** urls.py *)

(** The names of the routes of [urlpatterns], lines 6-24. *)
Inductive Route : Type :=
| landing
| entrar_visitante
| signup
| logout
| galeria_pets
| adicionar_pet
| detalhe_pet (slug_kw : string)
| editar_pet (slug_kw : string)
| deletar_pet (slug_kw : string)
| relatorio_pets.

(** The path converter [slug]: one or more ASCII letters, digits, hyphens
    or underscores. *)
Definition slug_char (c : ascii) : bool :=
  let n := nat_of_ascii c in
  (Nat.leb 97 n && Nat.leb n 122) || (Nat.leb 65 n && Nat.leb n 90)
  || (Nat.leb 48 n && Nat.leb n 57) || Nat.eqb n 45 || Nat.eqb n 95.

Fixpoint all_chars (test : ascii -> bool) (s : string) : bool :=
  match s with
  | EmptyString => true
  | String c r => test c && all_chars test r
  end.

Definition slug_converter (s : string) : bool :=
  Py.truthy s && all_chars slug_char s.

(** The resolver on a path, given by its segments below the place where the
    project includes these patterns (the path [pet/rex/] is
    [["pet"; "rex"]]): the first pattern of [urlpatterns] that matches, in
    the order of the list, so that [pet/adicionar/] goes to the creation
    view and never to the detail view. *)
Definition resolve (path : list string) : option Route :=
  match path with
  | [] => Some landing
  | [a] =>
      if String.eqb a "entrar-visitante" then Some entrar_visitante
      else if String.eqb a "cadastro" then Some signup
      else if String.eqb a "logout" then Some logout
      else if String.eqb a "galeria" then Some galeria_pets
      else if String.eqb a "relatorios" then Some relatorio_pets
      else None
  | [a; b] =>
      if String.eqb a "pet"
      then if String.eqb b "adicionar" then Some adicionar_pet
           else if slug_converter b then Some (detalhe_pet b)
           else None
      else None
  | [a; b; c] =>
      if String.eqb a "pet" && slug_converter b
      then if String.eqb c "editar" then Some (editar_pet b)
           else if String.eqb c "deletar" then Some (deletar_pet b)
           else None
      else None
  | _ => None
  end.

(** [Pet.get_absolute_url], models.py lines 135-136:
    [reverse("detalhe_pet", kwargs={"slug": self.slug})], which raises
    [NoReverseMatch], here [None], for a slug that the converter does not
    accept. *)
Definition Pet_get_absolute_url (self : Pet) : option (list string) :=
  if slug_converter (slug self) then Some ["pet"; slug self] else None.

(** [SingleObjectMixin.get_object] with [slug_field = "slug"]: the one pet
    with the slug of the URL.  No row is [Http404]; [QuerySet.get] refuses
    several rows. *)
Inductive Lookup : Type :=
| Found (p : Pet)
| Http404
| MultipleObjectsReturned.

Definition get_object (db : Database) (slug_kw : string) : Lookup :=
  match filter (fun p => String.eqb (slug p) slug_kw) (pets db) with
  | [] => Http404
  | [p] => Found p
  | _ :: _ :: _ => MultipleObjectsReturned
  end.

(** Where a view redirects after a successful write. *)
Inductive Target : Type :=
| ToGallery
| ToDetail (slug_value : string).

(** What a view of one pet answers. *)
Inductive ObjectResponse (A : Type) : Type :=
| Page (context : A)
| RedirectTo (target : Target)
| ToLanding (notice : bool)
| Denied
| NotFound
| Failed.

Arguments Page {A} context.
Arguments RedirectTo {A} target.
Arguments ToLanding {A} notice.
Arguments Denied {A}.
Arguments NotFound {A}.
Arguments Failed {A}.

(** [PetOwnerOrStaffRequiredMixin.test_func], lines 41-44, on the object
    that [get_object] found. *)
Definition PetOwnerOrStaffRequiredMixin_test_func (request : HttpRequest)
                                                  (pet : Pet) : bool :=
  is_authenticated (request_user request)
  && (user_is_staff (request_user request) || owned_by (request_user request) pet).

(** The context of [PetDetailView.get_context_data], lines 146-150. *)
Record DetailContext : Type := mkDetail {
  detail_object : Pet;
  detail_is_visitor : bool;
  detail_page_title : string
}.

(** [PetDetailView] on a GET: the gate of lines 20-26, then the object. *)
Definition PetDetailView_get (db : Database) (request : HttpRequest)
                             (slug_kw : string) : ObjectResponse DetailContext :=
  let is_visitor := session_is_visitor request in
  if negb (is_authenticated (request_user request)) && negb is_visitor
  then ToLanding true
  else match get_object db slug_kw with
       | Found pet => Page (mkDetail pet (session_is_visitor request) (nome pet))
       | Http404 => NotFound
       | MultipleObjectsReturned => Failed
       end.

(** [pet.delete()]: the row of the pet goes, and with it the photos that
    point to it ([on_delete=models.CASCADE], models.py line 159); the journal
    notes the cascade.  Django refuses, with [ValueError], to delete an
    object that has no key: that is [None]. *)
Definition Pet_delete (db : Database) (pet : Pet) : option Database :=
  match pk pet with
  | Some k =>
      Some (mkDb (filter (fun q => negb (has_pk k q)) (pets db))
                 (filter (fun f => negb (Z.eqb (foto_pet f) k)) (fotos db))
                 (journal db ++ [WDeleteFotos (map foto_pk (fotos_extras db k))])
                 (pet_sequence db) (foto_sequence db))
  | None => None
  end.

(** [PetDeleteView] on a POST, lines 196-202: the test of the mixin on the
    object, the reaction of [UserPassesTestMixin] when it fails, the deletion
    and the redirection to the gallery. *)
Definition PetDeleteView_post (db : Database) (request : HttpRequest)
                              (slug_kw : string)
  : Database * ObjectResponse unit :=
  match get_object db slug_kw with
  | Http404 => (db, NotFound)
  | MultipleObjectsReturned => (db, Failed)
  | Found pet =>
      if PetOwnerOrStaffRequiredMixin_test_func request pet
      then match Pet_delete db pet with
           | Some db' => (db', RedirectTo ToGallery)
           | None => (db, Failed)
           end
      else if is_authenticated (request_user request) then (db, Denied)
           else (db, ToLanding false)
  end.

(** [self.instance = obj]: the same form on another object. *)
Definition with_instance (obj : Pet) (self : PetForm) : PetForm :=
  mkForm (user self) obj (fields self) (_existing_extra_photos self)
         (remover_queryset self) (data self).

Section ObjectViews.

Variable K : Constants.
Variable slugify : string -> string.

(** [PetUpdateView] on a POST, lines 175-194: the test of the mixin, the
    form on the object with the requesting user, and, when the form is
    valid, [form.save()] and the redirection to the page of the pet; a form
    with errors is rendered again.  An exception of the form's constructor
    or of the save leaves the view. *)
Definition PetUpdateView_post (fuel : nat) (now : Z) (db : Database)
                              (request : HttpRequest) (slug_kw : string)
                              (bound : PostData)
  : outcome (Database * ObjectResponse PetForm) :=
  match get_object db slug_kw with
  | Http404 => Ok (db, NotFound)
  | MultipleObjectsReturned => Ok (db, Failed)
  | Found pet =>
      if PetOwnerOrStaffRequiredMixin_test_func request pet
      then
        match request_user request with
        | LoggedIn u =>
            form <- PetForm_new db (Some u) pet bound ;;
            if is_valid K db form
            then
              saved <- PetForm_save K slugify fuel now db form true ;;
              Ok (fst saved, RedirectTo (ToDetail (slug (snd saved))))
            else Ok (db, Page form)
        | AnonymousUser => Ok (db, ToLanding false)
        end
      else if is_authenticated (request_user request) then Ok (db, Denied)
           else Ok (db, ToLanding false)
  end.

(** [PetCreateView.form_valid], lines 166-168: [form.save()], then
    [super().form_valid(form)], where [ModelFormMixin.form_valid] calls
    [form.save()] once more; by then the instance of the form is the object
    that the first call saved. *)
Definition PetCreateView_form_valid (fuel : nat) (now later : Z)
                                    (db : Database) (form : PetForm)
  : outcome (Database * Pet) :=
  first <- PetForm_save K slugify fuel now db form true ;;
  PetForm_save K slugify fuel later (fst first)
               (with_instance (snd first) form) true.

(** [PetCreateView] on a POST, lines 152-173: [LoginRequiredMixin] sends a
    requester who is not authenticated to the landing page; the form is
    built on a new [Pet()] with the requesting user. *)
Definition PetCreateView_post (fuel : nat) (now later : Z) (db : Database)
                              (request : HttpRequest) (bound : PostData)
  : outcome (Database * ObjectResponse PetForm) :=
  match request_user request with
  | AnonymousUser => Ok (db, ToLanding false)
  | LoggedIn u =>
      form <- PetForm_new db (Some u) new_pet bound ;;
      if is_valid K db form
      then
        saved <- PetCreateView_form_valid fuel now later db form ;;
        Ok (fst saved, RedirectTo ToGallery)
      else Ok (db, Page form)
  end.

End ObjectViews.

(** The context of [PetListView.get_context_data], lines 122-138. *)
Record ListContext : Type := mkListContext {
  filter_mode : string;
  list_is_visitor : bool;
  especies : list EspecieChoices;
  list_page_title : string
}.

Definition PetListView_get_context_data (request : HttpRequest) : ListContext :=
  let filter_type := QueryDict_get (GET request) "filtro" in
  let mode :=
    match filter_type with
    | Some v => if String.eqb v "meus" then v else "public"
    | None => "public"
    end in
  mkListContext mode (session_is_visitor request) EspecieChoices_choices
                (if String.eqb mode "meus" then "Meus Pets Cadastrados"
                 else "Galeria de Pets").

(* ================================================================== *)
(** ** build_static.py                                                 *)
(* ================================================================== *)

(** [os.environ.setdefault("STATIC_BUILD", "1")], line 8: a value that the
    process inherited stays, also an empty one. *)
Definition static_build_env (inherited : option string) : option string :=
  match inherited with
  | Some v => Some v
  | None => Some "1"
  end.

(** The requests of the test client of [main], lines 44-47: no login, the
    visitor marker in the session, no query string. *)
Definition client_request : HttpRequest := mkRequest [] AnonymousUser true 1.

(** The gallery page that [main] writes, lines 50-52: [save_response] raises
    unless the answer is a page, hence the option. *)
Definition static_gallery (inherited : option string) (db : Database)
  : option (list Pet) :=
  match PetListView_get (static_build_env inherited) db client_request with
  | Ok (Rendered page) => Some page
  | _ => None
  end.

(** The answer to [client.get(pet.get_absolute_url())], line 57: the path
    is reversed from the slug, resolved again, and the view that the
    resolver names answers.  Only [PetDetailView] can answer the client with
    a page: [PetCreateView] sends a client that is not logged in to the
    login page, and [save_response] raises for any answer but a page. *)
Definition static_detail (db : Database) (pet : Pet) : option DetailContext :=
  match Pet_get_absolute_url pet with
  | None => None
  | Some path =>
      match resolve path with
      | Some (detalhe_pet slug_kw) =>
          match PetDetailView_get db client_request slug_kw with
          | Page context => Some context
          | _ => None
          end
      | _ => None
      end
  end.

(** The loop of [main], lines 54-56, over a list of pets: one detail page
    per pet, under the path made of its slug; the first answer that is not a
    page stops the build. *)
Fixpoint static_details (db : Database) (rows : list Pet)
  : option (list (string * DetailContext)) :=
  match rows with
  | [] => Some []
  | pet :: rest =>
      match static_detail db pet with
      | Some context =>
          match static_details db rest with
          | Some pages => Some ((slug pet, context) :: pages)
          | None => None
          end
      | None => None
      end
  end.

(** [Pet.objects.all()] lists the pets in the order of the model,
    [-data_cadastro] (models.py, line 142). *)
Definition static_build_details (db : Database)
  : option (list (string * DetailContext)) :=
  static_details db (order_by_desc data_cadastro (pets db)).

(* ================================================================== *)
(** ** Well-formed stores                                              *)
(* ================================================================== *)

(** What the schema guarantees of the table of pets: every row has a key,
    and keys, slugs and (name, species) pairs are pairwise different. *)
Definition store_ok (db : Database) : Prop :=
  Forall (fun p => pk p <> None) (pets db)
  /\ NoDup (map pk (pets db))
  /\ NoDup (map slug (pets db))
  /\ NoDup (map (fun p => (nome p, especie p)) (pets db)).

(** The photos of a table that belong to the pet with key [k]. *)
Definition of_pet (k : Z) (f : PetExtraPhoto) : bool := Z.eqb (foto_pet f) k.

(** A file passes the two checks of the gallery loop. *)
Definition extra_file_ok (K : Constants) (file_obj : UploadedFile) : Prop :=
  In (file_extension (name file_obj)) (ALLOWED_IMAGE_EXTENSIONS K)
  /\ (size file_obj <= MAX_ADDITIONAL_IMAGE_SIZE_MB K * 1024 * 1024)%Z.

(** The requester is the user with this key. *)
Definition requester_is (request : HttpRequest) (k : Z) : Prop :=
  exists u, request_user request = LoggedIn u /\ user_pk u = k.

(** More sample data: a store whose rows satisfy the schema, and requests. *)
Definition owner_request (query : list (string * string)) : HttpRequest :=
  mkRequest query (LoggedIn owner) false 1.

Definition stranger : User := mkUser 9 false.

Definition stranger_request (query : list (string * string)) : HttpRequest :=
  mkRequest query (LoggedIn stranger) false 1.

Definition anonymous_request (query : list (string * string)) : HttpRequest :=
  mkRequest query AnonymousUser false 1.

Definition plain_edit_post : PostData :=
  mkPost "Rex" CACHORRO None "Vira-lata" 6 "Calmo" None None [] [].

(** A store where Luna has two gallery photos, added through the admin
    site; Rex and Bob have none. *)
Definition luna_gallery_db : Database :=
  mkDb [rex; luna; bob]
       [mkFoto 1 2 "luna1.png" 1 10; mkFoto 2 2 "luna2.png" 2 10] [] 3 2.

(** Nine available pets, the pet of number [i] created at time [i]. *)
Definition numbered_pet (i : nat) : Pet :=
  mkPet (Some (Z.of_nat i)) (Some 7%Z)
        ("Pet " ++ Py.str_of_nat i)%string ("pet-" ++ Py.str_of_nat i)%string
        GATO None 1 "Manso" None None DISPONIVEL (Z.of_nat i) (Z.of_nat i).

Definition nine_pets_db : Database :=
  mkDb (map numbered_pet (seq 1 9)) [] [] 9 0.

(** An edit of Rex that renames him; the name comes with white space. *)
Definition max_post : PostData :=
  mkPost "  Max " CACHORRO (Some ADOTADO) "Vira-lata" 6 "Calmo" None None [] [].

(** The creation of a second dog called Rex; the name comes with a space. *)
Definition rex_again_post : PostData :=
  mkPost " Rex" CACHORRO None "Boxer" 2 "Outro Rex" None None [] [].

(** A dog whose name gives the slug of the creation path. *)
Definition adicionar : Pet :=
  mkPet (Some 4%Z) (Some 7%Z) "Adicionar" "adicionar" CACHORRO None 1
        "Manso" None None DISPONIVEL 40 40.

Definition adicionar_db : Database := mkDb [rex; luna; bob; adicionar] [] [] 4 0.

(** The creation of the cat Mel, without files. *)
Definition mel_post : PostData :=
  mkPost "Mel" GATO None "Siames" 2 "Doce" None None [] [].

(** An edit of Bob, by a staff member, that makes him available. *)
Definition bob_approval_post : PostData :=
  mkPost "Bob" CACHORRO (Some DISPONIVEL) "" 3 "Alegre" None None [] [].

(** A creation that sends one gallery file. *)
Definition one_file_post : PostData :=
  mkPost "Mel" GATO None "Siames" 2 "Doce" None None
         [mkFile "nova.png" 1000] [].

(* ================================================================== *)
(** ** Strings                                                         *)
(* ================================================================== *)

Lemma append_length (a b : string) :
  String.length (a ++ b)%string = String.length a + String.length b.
Proof.
  induction a as [|c a IH]; simpl; [reflexivity | now rewrite IH].
Qed.

Lemma append_cancel_l (s a b : string) : (s ++ a = s ++ b)%string -> a = b.
Proof.
  induction s as [|c s IH]; simpl; intros H; [exact H | ].
  injection H as H. now apply IH.
Qed.

Lemma str_of_nat_inj (i j : nat) : Py.str_of_nat i = Py.str_of_nat j -> i = j.
Proof.
  unfold Py.str_of_nat. intros H.
  apply DecimalNat.Unsigned.to_uint_inj.
  assert (E : NilEmpty.uint_of_string (NilEmpty.string_of_uint (Nat.to_uint i))
              = NilEmpty.uint_of_string (NilEmpty.string_of_uint (Nat.to_uint j)))
    by now rewrite H.
  rewrite !NilEmpty.usu in E. now injection E.
Qed.

Lemma slug_candidate_inj (base_slug : string) (i j : nat) :
  slug_candidate base_slug i = slug_candidate base_slug j -> i = j.
Proof.
  destruct i as [|i], j as [|j]; simpl; intros H.
  - reflexivity.
  - exfalso. apply (f_equal String.length) in H.
    rewrite append_length in H. simpl in H. lia.
  - exfalso. apply (f_equal String.length) in H.
    rewrite append_length in H. simpl in H. lia.
  - apply append_cancel_l in H. injection H as H.
    now apply str_of_nat_inj.
Qed.

Lemma truthy_false (s : string) : Py.truthy s = false <-> s = "".
Proof. destruct s; simpl; split; congruence. Qed.

Lemma str_in_In (x : string) (xs : list string) :
  Py.str_in x xs = true <-> In x xs.
Proof.
  unfold Py.str_in. rewrite existsb_exists. split.
  - intros [y [Hy E]]. apply String.eqb_eq in E. now subst.
  - intros H. exists x. split; [exact H | apply String.eqb_refl].
Qed.

(* ================================================================== *)
(** ** The slug of a pet                                               *)
(* ================================================================== *)

Section SlugLoop.

Variable db : Database.
Variable base_slug : string.


Lemma slug_exists_In (s : string) :
  slug_exists db s = true <-> In s (map slug (pets db)).
Proof.
  unfold slug_exists. rewrite existsb_exists, in_map_iff. split.
  - intros [p [Hp E]]. apply String.eqb_eq in E. now exists p.
  - intros [p [E Hp]]. exists p. split; [exact Hp | now apply String.eqb_eq].
Qed.

(** Either some candidate up to [n] is free, or all of them are taken. *)
Lemma free_candidate_dec (n : nat) :
  (exists k, k <= n /\ candidate_taken db base_slug k = false)
  \/ (forall k, k <= n -> candidate_taken db base_slug k = true).
Proof.
  induction n as [|n [[k [Hk F]] | All]].
  - destruct (candidate_taken db base_slug 0) eqn:E.
    + right. intros k Hk. now replace k with 0 by lia.
    + left. now exists 0.
  - left. exists k. split; [lia | exact F].
  - destruct (candidate_taken db base_slug (S n)) eqn:E.
    + right. intros k Hk. destruct (Nat.eq_dec k (S n)) as [-> | Hne];
        [exact E | apply All; lia].
    + left. now exists (S n).
Qed.

(** Among the first [length (pets db) + 1] candidates one is free: they are
    pairwise different and the table has only [length (pets db)] slugs. *)
Lemma free_candidate_exists :
  exists k, k <= List.length (pets db) /\ candidate_taken db base_slug k = false.
Proof.
  destruct (free_candidate_dec (List.length (pets db))) as [H | All];
    [exact H | exfalso].
  set (n := List.length (pets db)) in *.
  assert (ND : NoDup (map (slug_candidate base_slug) (seq 0 (S n)))).
  { apply Injective_map_NoDup; [ | apply seq_NoDup].
    intros i j. apply slug_candidate_inj. }
  assert (Inc : incl (map (slug_candidate base_slug) (seq 0 (S n)))
                     (map slug (pets db))).
  { intros s Hs. apply in_map_iff in Hs. destruct Hs as [k [<- Hk]].
    apply in_seq in Hk. apply slug_exists_In. apply All. lia. }
  pose proof (NoDup_incl_length ND Inc) as L.
  rewrite !length_map, length_seq in L. unfold n in L. lia.
Qed.

(** The loop, entered with the candidate of index [j], stops at the first
    free candidate from [j] on, once the fuel reaches it. *)
Lemma slug_loop_first_free (fuel j k : nat) :
  j <= k -> k < j + fuel ->
  candidate_taken db base_slug k = false ->
  (forall i, j <= i -> i < k -> candidate_taken db base_slug i = true) ->
  slug_loop fuel db base_slug (slug_candidate base_slug j) (S j)
  = Ok (slug_candidate base_slug k).
Proof.
  revert j. induction fuel as [|fuel IH]; intros j Hjk Hfuel Free Taken.
  - lia.
  - simpl. destruct (Nat.eq_dec j k) as [-> | Hne].
    + unfold candidate_taken in Free. now rewrite Free.
    + assert (T : candidate_taken db base_slug j = true) by (apply Taken; lia).
      unfold candidate_taken in T. rewrite T.
      apply (IH (S j)); [lia | lia | exact Free | ].
      intros i Hi Hik. apply Taken; lia.
Qed.

(** The least free index. *)
Lemma least_free_candidate :
  exists k, k <= List.length (pets db) /\ candidate_taken db base_slug k = false
            /\ forall i, i < k -> candidate_taken db base_slug i = true.
Proof.
  destruct free_candidate_exists as [k0 [Hk0 F0]].
  revert Hk0 F0. generalize (List.length (pets db)). intros n.
  induction k0 as [k0 IH] using lt_wf_ind. intros Hk0 F0.
  destruct k0 as [|k0].
  - exists 0. repeat split; [lia | exact F0 | intros i Hi; lia].
  - destruct (free_candidate_dec k0) as [[k [Hk F]] | All].
    + apply (IH k); [lia | lia | exact F].
    + exists (S k0). repeat split; [exact Hk0 | exact F0 | ].
      intros i Hi. apply All. lia.
Qed.

End SlugLoop.

(** A result of the loop is the first free candidate from its entry on. *)
Lemma slug_loop_Ok_inv (db : Database) (base_slug : string) (fuel j : nat)
      (s : string) :
  slug_loop fuel db base_slug (slug_candidate base_slug j) (S j) = Ok s ->
  exists k, j <= k /\ s = slug_candidate base_slug k
            /\ slug_exists db (slug_candidate base_slug k) = false
            /\ forall i, j <= i -> i < k ->
                 slug_exists db (slug_candidate base_slug i) = true.
Proof.
  revert j. induction fuel as [|fuel IH]; intros j H; simpl in H.
  - discriminate.
  - destruct (slug_exists db (slug_candidate base_slug j)) eqn:E.
    + apply (IH (S j)) in H. destruct H as [k [Hk [-> [F T]]]].
      exists k. repeat split; [lia | exact F | ].
      intros i Hi Hik. destruct (Nat.eq_dec i j) as [-> | Hne];
        [exact E | apply T; lia].
    + injection H as <-. exists j. repeat split; [lia | exact E | ].
      intros i Hi Hij. lia.
Qed.

Lemma Model_save_Ok (now : Z) (db db' : Database) (p p' : Pet) :
  Model_save now db p = Ok (db', p') ->
  slug p' = slug p /\ In p' (pets db')
  /\ (pk p = None -> pets db' = pets db ++ [p']).
Proof.
  unfold Model_save. destruct (violates_unique db p); [discriminate | ].
  destruct (pk p) as [k|] eqn:Hpk.
  - destruct (existsb (has_pk k) (pets db)) eqn:Ex; intros H;
      injection H as <- <-; simpl; repeat split; try discriminate.
    + apply existsb_exists in Ex. destruct Ex as [q [Hq Hk]].
      apply in_map_iff. exists q. now rewrite Hk.
    + apply in_or_app. right. now left.
  - intros H. injection H as <- <-. simpl. repeat split.
    apply in_or_app. right. now left.
Qed.

Lemma Pet_save_keeps_slug (slugify : string -> string) (fuel : nat) (now : Z)
      (db : Database) (self : Pet) :
  slug self <> "" ->
  Pet_save slugify fuel now db self = Model_save now db self.
Proof.
  intros H. unfold Pet_save. destruct (slug self); [congruence | reflexivity].
Qed.

Lemma Pet_save_empty_slug (slugify : string -> string) (fuel : nat) (now : Z)
      (db : Database) (self : Pet) :
  slug self = "" ->
  Pet_save slugify fuel now db self
  = (unique_slug <- slug_loop fuel db (slugify (nome self))
                      (slug_candidate (slugify (nome self)) 0) 1 ;;
     Model_save now db (set_slug unique_slug self)).
Proof.
  intros H. unfold Pet_save. rewrite H. simpl.
  destruct (slug_loop fuel db (slugify (nome self)) (slugify (nome self)) 1);
    reflexivity.
Qed.

(** C6 (slug assignment in [Pet.save]).  A pet saved with a non-empty slug is
    stored under that slug.  A pet saved with an empty slug gets the first
    candidate, in the order base, base-1, base-2, ..., that no stored record
    carries: every earlier candidate is in use, the loop reaches it once the
    fuel exceeds the size of the table, and the record is stored under it.
    Consequently, when two new pets with the same base slug are saved one
    after the other, the second is stored under a later candidate than the
    first, hence under a numerically suffixed slug different from the
    first one's. *)
Theorem C6_slug_assignment
    (slugify : string -> string) (now : Z) (db : Database) (self : Pet)
    (fuel : nat) (Hfuel : List.length (pets db) < fuel) :
  (slug self <> "" ->
     Pet_save slugify fuel now db self = Model_save now db self
     /\ forall db' saved, Pet_save slugify fuel now db self = Ok (db', saved) ->
                          slug saved = slug self)
  /\ (slug self = "" ->
      exists k,
        k <= List.length (pets db)
        /\ slug_exists db (slug_candidate (slugify (nome self)) k) = false
        /\ (forall i, i < k ->
              slug_exists db (slug_candidate (slugify (nome self)) i) = true)
        /\ Pet_save slugify fuel now db self
           = Model_save now db
               (set_slug (slug_candidate (slugify (nome self)) k) self)
        /\ forall db' saved,
             Pet_save slugify fuel now db self = Ok (db', saved) ->
             slug saved = slug_candidate (slugify (nome self)) k)
  /\ (forall (now2 : Z) (fuel2 : nat) (other : Pet)
             (db1 db2 : Database) (first second : Pet),
        pk self = None -> slug self = "" -> slug other = "" ->
        slugify (nome other) = slugify (nome self) ->
        Pet_save slugify fuel now db self = Ok (db1, first) ->
        Pet_save slugify fuel2 now2 db1 other = Ok (db2, second) ->
        exists k1 k2,
          k1 < k2
          /\ slug first = slug_candidate (slugify (nome self)) k1
          /\ slug second
             = (slugify (nome self) ++ "-" ++ Py.str_of_nat k2)%string
          /\ slug second <> slug first).
Proof.
  split; [ | split].
  - intros Hs. split; [now apply Pet_save_keeps_slug | ].
    intros db' saved H. rewrite Pet_save_keeps_slug in H by exact Hs.
    now apply Model_save_Ok in H.
  - intros Hs.
    destruct (least_free_candidate db (slugify (nome self)))
      as [k [Hk [F T]]].
    exists k. split; [exact Hk | ]. split; [exact F | ]. split; [exact T | ].
    assert (E : Pet_save slugify fuel now db self
                = Model_save now db
                    (set_slug (slug_candidate (slugify (nome self)) k) self)).
    { rewrite Pet_save_empty_slug by exact Hs.
      rewrite (slug_loop_first_free db (slugify (nome self)) fuel 0 k);
        [reflexivity | lia | lia | exact F | ].
      intros i _ Hi. now apply T. }
    split; [exact E | ].
    intros db' saved H. rewrite E in H. now apply Model_save_Ok in H.
  - intros now2 fuel2 other db1 db2 first second Hpk Hs Ho Hbase H1 H2.
    rewrite Pet_save_empty_slug in H1 by exact Hs.
    rewrite Pet_save_empty_slug in H2 by exact Ho.
    rewrite Hbase in H2.
    set (base := slugify (nome self)) in *.
    destruct (slug_loop fuel db base (slug_candidate base 0) 1) as [s1| |] eqn:L1;
      simpl in H1; try discriminate.
    destruct (slug_loop fuel2 db1 base (slug_candidate base 0) 1) as [s2| |] eqn:L2;
      simpl in H2; try discriminate.
    apply slug_loop_Ok_inv in L1. destruct L1 as [k1 [_ [-> [F1 T1]]]].
    apply slug_loop_Ok_inv in L2. destruct L2 as [k2 [_ [-> [F2 T2]]]].
    apply Model_save_Ok in H1. destruct H1 as [S1 [In1 App1]].
    apply Model_save_Ok in H2. destruct H2 as [S2 _].
    simpl in S1, S2. specialize (App1 Hpk).
    assert (Sub : forall s, slug_exists db s = true -> slug_exists db1 s = true).
    { intros s. rewrite !slug_exists_In, App1, map_app, in_app_iff. tauto. }
    assert (Lt : k1 < k2).
    { destruct (Nat.lt_ge_cases k1 k2) as [Hlt | Hge]; [exact Hlt | exfalso].
      destruct (Nat.eq_dec k2 k1) as [-> | Hne].
      - assert (X : slug_exists db1 (slug_candidate base k1) = true).
        { apply slug_exists_In. apply in_map_iff. exists first. now split. }
        congruence.
      - assert (X : slug_exists db (slug_candidate base k2) = true)
          by (apply T1; lia).
        apply Sub in X. congruence. }
    exists k1, k2. split; [exact Lt | ]. split; [exact S1 | ]. split.
    + rewrite S2. destruct k2; [lia | reflexivity].
    + rewrite S1, S2. intros C. apply slug_candidate_inj in C. lia.
Qed.

Lemma C6_slug_assignment_witness :
  List.length (pets three_pets_db) < 4
  /\ (exists k,
        k <= List.length (pets three_pets_db)
        /\ slug_exists three_pets_db
             (slug_candidate (sample_slugify (nome rex_cat)) k) = false
        /\ (forall i, i < k ->
              slug_exists three_pets_db
                (slug_candidate (sample_slugify (nome rex_cat)) i) = true)
        /\ Pet_save sample_slugify 4 40 three_pets_db rex_cat
           = Model_save 40 three_pets_db
               (set_slug (slug_candidate (sample_slugify (nome rex_cat)) k)
                         rex_cat)
        /\ forall db' saved,
             Pet_save sample_slugify 4 40 three_pets_db rex_cat = Ok (db', saved) ->
             slug saved = slug_candidate (sample_slugify (nome rex_cat)) k)
  /\ (exists db1 first db2 second,
        Pet_save sample_slugify 4 40 three_pets_db rex_cat = Ok (db1, first)
        /\ Pet_save sample_slugify 5 50 db1 rex_bird = Ok (db2, second)
        /\ slug first = "rex-1" /\ slug second = "rex-2"
        /\ exists k1 k2,
             k1 < k2
             /\ slug first = slug_candidate (sample_slugify (nome rex_cat)) k1
             /\ slug second
                = (sample_slugify (nome rex_cat) ++ "-" ++ Py.str_of_nat k2)%string
             /\ slug second <> slug first).
Proof.
  assert (H : List.length (pets three_pets_db) < 4) by (vm_compute; lia).
  pose proof (C6_slug_assignment sample_slugify 40 three_pets_db rex_cat 4 H)
    as [_ [Empty Two]].
  split; [exact H | ]. split; [exact (Empty eq_refl) | ].
  eexists. eexists. eexists. eexists.
  split; [vm_compute; reflexivity | ].
  split; [vm_compute; reflexivity | ].
  split; [reflexivity | ]. split; [reflexivity | ].
  eapply (Two 50%Z 5 rex_bird); reflexivity.
Defined.

(* ================================================================== *)
(** ** The extension of a file name                                    *)
(* ================================================================== *)

Lemma after_last_no_sep (sep : ascii) (s : string) :
  Py.has_char sep s = false -> after_last sep s = s.
Proof.
  destruct s as [|c r]; simpl; [reflexivity | ].
  intros H. apply orb_false_iff in H. destruct H as [Hc Hr].
  now rewrite Hr, Hc.
Qed.

Lemma split_no_sep (sep : ascii) (s : string) :
  Py.has_char sep s = false -> Py.split sep s = [s].
Proof.
  induction s as [|c r IH]; simpl; [reflexivity | ].
  intros H. apply orb_false_iff in H. destruct H as [Hc Hr].
  now rewrite Hc, (IH Hr).
Qed.

Lemma split_has_sep (sep : ascii) (s : string) :
  Py.has_char sep s = true ->
  exists w x xs, Py.split sep s = w :: x :: xs.
Proof.
  induction s as [|c r IH]; simpl; [discriminate | ].
  destruct (Ascii.eqb c sep) eqn:Hc; simpl.
  - intros _. destruct (Py.has_char sep r) eqn:Hr.
    + destruct (IH eq_refl) as [w [x [xs E]]]. rewrite E. eauto.
    + rewrite (split_no_sep sep r Hr). eauto.
  - intros Hr. destruct (IH Hr) as [w [x [xs E]]]. rewrite E. eauto.
Qed.

(** [filename.split(sep)[-1]] is the substring after the last separator. *)
Lemma last_split_after_last (sep : ascii) (s : string) :
  Py.last_item (Py.split sep s) = after_last sep s.
Proof.
  unfold Py.last_item. induction s as [|c r IH]; [reflexivity | ].
  cbn [Py.split after_last].
  destruct (Py.has_char sep r) eqn:Hr.
  - destruct (split_has_sep sep r Hr) as [w [x [xs E]]].
    rewrite E in IH |- *. destruct (Ascii.eqb c sep); exact IH.
  - rewrite (split_no_sep sep r Hr).
    destruct (Ascii.eqb c sep); reflexivity.
Qed.

Lemma has_char_append_sep (sep : ascii) (s : string) :
  Py.has_char sep (s ++ String sep "")%string = true.
Proof.
  induction s as [|c r IH]; simpl.
  - now rewrite Ascii.eqb_refl.
  - rewrite IH. apply orb_true_r.
Qed.

Lemma after_last_trailing_sep (sep : ascii) (s : string) :
  after_last sep (s ++ String sep "")%string = "".
Proof.
  induction s as [|c r IH]; simpl.
  - now rewrite Ascii.eqb_refl.
  - now rewrite has_char_append_sep.
Qed.

Lemma validate_file_extension_Ok (filename : string) (allowed : list string) :
  _validate_file_extension filename allowed = Ok tt
  <-> In (file_extension filename) allowed.
Proof.
  unfold _validate_file_extension. rewrite <- str_in_In.
  destruct (Py.str_in (file_extension filename) allowed); simpl;
    split; congruence.
Qed.

Lemma validate_file_extension_Raise (filename : string) (allowed : list string) :
  ~ In (file_extension filename) allowed ->
  _validate_file_extension filename allowed
  = Raise (ValidationError (InvalidFormat (file_extension filename))).
Proof.
  unfold _validate_file_extension. rewrite <- str_in_In.
  destruct (Py.str_in (file_extension filename) allowed); simpl;
    congruence.
Qed.

(** C9 (the extension check of [_validate_file_extension]).  The extension
    is the lowercased substring after the last '.' of the file name, and the
    name is accepted exactly when that extension is in the allowed list.  A
    name without a dot is compared whole, lowercased (so the bare name PNG
    passes when png is allowed); a name that ends in '.' has the empty
    extension and is rejected by any list that does not hold the empty
    string. *)
Theorem C9_extension_check (filename : string) (allowed : list string) :
  file_extension filename = Py.lower (after_last "." filename)
  /\ (_validate_file_extension filename allowed = Ok tt
      <-> In (Py.lower (after_last "." filename)) allowed)
  /\ (Py.has_char "." filename = false ->
      file_extension filename = Py.lower filename
      /\ (_validate_file_extension filename allowed = Ok tt
          <-> In (Py.lower filename) allowed))
  /\ (In "png" allowed -> _validate_file_extension "PNG" allowed = Ok tt)
  /\ file_extension (filename ++ ".") = ""
  /\ (~ In "" allowed ->
      _validate_file_extension (filename ++ ".") allowed
      = Raise (ValidationError (InvalidFormat ""))).
Proof.
  assert (E : file_extension filename = Py.lower (after_last "." filename)).
  { unfold file_extension. now rewrite last_split_after_last. }
  assert (T : file_extension (filename ++ ".") = "").
  { unfold file_extension.
    now rewrite last_split_after_last, after_last_trailing_sep. }
  split; [exact E | ].
  split; [rewrite <- E; apply validate_file_extension_Ok | ].
  split.
  { intros H. rewrite validate_file_extension_Ok, E.
    rewrite (after_last_no_sep _ _ H). split; [reflexivity | tauto]. }
  split; [intros H; now apply validate_file_extension_Ok | ].
  split; [exact T | ].
  intros H. rewrite <- T at 2. apply validate_file_extension_Raise.
  now rewrite T.
Qed.

Lemma C9_extension_check_witness :
  Py.has_char "." "PNG" = false
  /\ In "png" (ALLOWED_IMAGE_EXTENSIONS site_constants)
  /\ ~ In "" (ALLOWED_IMAGE_EXTENSIONS site_constants)
  /\ _validate_file_extension "PNG" (ALLOWED_IMAGE_EXTENSIONS site_constants)
     = Ok tt
  /\ file_extension "PNG" = "png"
  /\ _validate_file_extension "foto." (ALLOWED_IMAGE_EXTENSIONS site_constants)
     = Raise (ValidationError (InvalidFormat "")).
Proof.
  assert (Hdot : Py.has_char "." "PNG" = false) by reflexivity.
  assert (Hpng : In "png" (ALLOWED_IMAGE_EXTENSIONS site_constants))
    by (simpl; tauto).
  assert (Hempty : ~ In "" (ALLOWED_IMAGE_EXTENSIONS site_constants)).
  { simpl. intros [H | [H | [H | [H | H]]]]; try discriminate H. exact H. }
  pose proof (C9_extension_check "PNG" (ALLOWED_IMAGE_EXTENSIONS site_constants))
    as [_ [_ [Whole [Png _]]]].
  pose proof (C9_extension_check "foto" (ALLOWED_IMAGE_EXTENSIONS site_constants))
    as [_ [_ [_ [_ [_ Dot]]]]].
  split; [exact Hdot | ]. split; [exact Hpng | ]. split; [exact Hempty | ].
  split; [exact (Png Hpng) | ].
  split; [exact (proj1 (Whole Hdot)) | exact (Dot Hempty)].
Defined.

(* ================================================================== *)
(** ** The count check of the form                                     *)
(* ================================================================== *)

Section FormFacts.

Variable K : Constants.

Lemma validate_extra_files_not_count (extra_files : list UploadedFile) (m : nat) :
  validate_extra_files K extra_files <> Raise (ValidationError (TooManyPhotos m)).
Proof.
  induction extra_files as [|f r IH]; simpl; [discriminate | ].
  unfold _validate_file_extension, _validate_file_size.
  destruct (negb _); simpl; [discriminate | ].
  destruct (_ >? _)%Z; simpl; [discriminate | exact IH].
Qed.

(** [clean] raises the count error exactly when new files were sent and
    their number plus the number of stored photos exceeds the maximum. *)
Lemma clean_count_rejection (self : PetForm) (m : nat) :
  clean K self = Raise (ValidationError (TooManyPhotos m))
  <-> post_fotos_adicionais (data self) <> []
      /\ MAX_ADDITIONAL_PHOTOS K
         < List.length (post_fotos_adicionais (data self))
           + _existing_extra_photos self
      /\ m = MAX_ADDITIONAL_PHOTOS K.
Proof.
  unfold clean.
  set (video_step := match post_video (data self) with
                     | Some v => _ | None => _ end).
  assert (V : forall n, video_step <> Raise (ValidationError (TooManyPhotos n))).
  { intros n. unfold video_step, _validate_file_extension, _validate_file_size.
    destruct (post_video (data self)); [ | discriminate].
    destruct (negb _); simpl; [discriminate | ].
    destruct (_ >? _)%Z; discriminate. }
  destruct (post_fotos_adicionais (data self)) as [|f r] eqn:Files.
  - simpl. split.
    + intros H. exfalso. destruct video_step eqn:E; simpl in H;
        try discriminate. apply (V m). congruence.
    + intros [H _]. congruence.
  - destruct (Nat.ltb_spec (MAX_ADDITIONAL_PHOTOS K)
                (List.length (f :: r) + _existing_extra_photos self))
      as [Lt | Ge].
    + simpl. split.
      * intros H. injection H as <-. repeat split; [discriminate | exact Lt].
      * intros [_ [_ ->]]. reflexivity.
    + split.
      * intros H. exfalso.
        destruct (validate_extra_files K (f :: r)) eqn:E; simpl in H.
        -- destruct video_step eqn:E'; simpl in H; try discriminate.
           apply (V m). congruence.
        -- apply (validate_extra_files_not_count (f :: r) m). congruence.
        -- discriminate.
      * intros [_ [Lt _]]. lia.
Qed.

(** The cleaned data of a form that [clean] accepts. *)
Lemma clean_Ok (self : PetForm) (cd : CleanedData) (errs : list string) :
  clean K self = Ok (cd, errs) ->
  cd = mkCleaned (post_fotos_adicionais (data self))
                 (match remover_queryset self with
                  | Some _ => Some (post_fotos_extras_remover (data self))
                  | None => None
                  end).
Proof.
  unfold clean.
  destruct (match post_fotos_adicionais (data self) with
            | [] => Ok tt | _ :: _ => _ end); simpl; try discriminate.
  destruct (match post_video (data self) with
            | Some v => _ | None => Ok tt end); simpl; try discriminate.
  intros H. now injection H as <- _.
Qed.

(** What a valid form went through. *)
Lemma is_valid_inv (db : Database) (self : PetForm) :
  is_valid K db self = true ->
  fields_valid self = true
  /\ (exists n, clean_nome self = Ok n)
  /\ (exists cd, clean K self = Ok (cd, []))
  /\ file_fields_valid K (construct_instance self) = true
  /\ validate_unique db (construct_instance self) = true.
Proof.
  unfold is_valid. intros H.
  apply andb_prop in H. destruct H as [H U].
  apply andb_prop in H. destruct H as [H F].
  apply andb_prop in H. destruct H as [H C].
  apply andb_prop in H. destruct H as [Fl N].
  split; [exact Fl | ].
  split; [destruct (clean_nome self) as [n| |]; try discriminate; now exists n | ].
  split; [ | split; assumption].
  destruct (clean K self) as [[cd [|e errs]]| |]; try discriminate.
  now exists cd.
Qed.

(** The single checks of the fields of a form without field error. *)
Lemma fields_valid_inv (self : PetForm) :
  fields_valid self = true ->
  CharField_clean true (Some 100) (post_nome (data self)) = Some (cleaned_nome self)
  /\ CharField_clean false (Some 50) (post_raca (data self)) = Some (cleaned_raca self)
  /\ CharField_clean true None (post_descricao (data self))
     = Some (cleaned_descricao self)
  /\ (0 <= post_idade (data self) <= 30)%Z
  /\ (Py.str_in "status" (fields self) = true -> post_status (data self) <> None)
  /\ post_fotos_adicionais (data self) = [].
Proof.
  unfold fields_valid. intros H.
  apply andb_prop in H. destruct H as [H _].
  apply andb_prop in H. destruct H as [H Files].
  apply andb_prop in H. destruct H as [H St].
  apply andb_prop in H. destruct H as [H Hi].
  apply andb_prop in H. destruct H as [H Lo].
  apply andb_prop in H. destruct H as [H D].
  apply andb_prop in H. destruct H as [N R].
  assert (Same : forall req len v w,
             CharField_clean req len v = Some w -> w = Py.strip v).
  { intros req len v w. unfold CharField_clean.
    destruct (_ || _); [discriminate | ]. intros E. now injection E. }
  split; [ | split; [ | split; [ | split; [ | split]]]].
  - destruct (CharField_clean true (Some 100) (post_nome (data self))) as [w|] eqn:E;
      [ | discriminate]. now rewrite (Same _ _ _ _ E).
  - destruct (CharField_clean false (Some 50) (post_raca (data self))) as [w|] eqn:E;
      [ | discriminate]. now rewrite (Same _ _ _ _ E).
  - destruct (CharField_clean true None (post_descricao (data self))) as [w|] eqn:E;
      [ | discriminate]. now rewrite (Same _ _ _ _ E).
  - apply Z.leb_le in Lo. apply Z.leb_le in Hi. lia.
  - intros F. rewrite F in St. destruct (post_status (data self)); congruence.
  - destruct (post_fotos_adicionais (data self)); [reflexivity | discriminate].
Qed.

(** A form that carries a gallery file is never valid. *)
Lemma gallery_file_invalid (db : Database) (self : PetForm) :
  post_fotos_adicionais (data self) <> [] -> is_valid K db self = false.
Proof.
  intros Hne. destruct (is_valid K db self) eqn:V; [ | reflexivity].
  apply is_valid_inv in V. destruct V as [Fl _].
  apply fields_valid_inv in Fl. tauto.
Qed.

Lemma cleaned_data_valid (db : Database) (self : PetForm) :
  is_valid K db self = true ->
  cd_fotos_adicionais (cleaned_data K self) = post_fotos_adicionais (data self)
  /\ cd_fotos_extras_remover (cleaned_data K self)
     = match remover_queryset self with
       | Some _ => Some (post_fotos_extras_remover (data self))
       | None => None
       end.
Proof.
  intros H. apply is_valid_inv in H. destruct H as [_ [_ [[cd E] _]]].
  unfold cleaned_data. rewrite E.
  apply clean_Ok in E. subst cd. split; reflexivity.
Qed.

End FormFacts.

Lemma fields_of_non_staff (db : Database) (u : User) (inst : Pet)
      (bound : PostData) :
  is_staff u = false ->
  Py.str_in "status" (fields (PetForm_init db (Some u) inst bound)) = false.
Proof.
  intros H. unfold PetForm_init. rewrite H.
  destruct (pk inst) as [k|]; [destruct (fotos_extras db k) | ]; reflexivity.
Qed.

Lemma fields_of_staff (db : Database) (u : User) (inst : Pet)
      (bound : PostData) :
  is_staff u = true ->
  Py.str_in "status" (fields (PetForm_init db (Some u) inst bound)) = true.
Proof.
  intros H. unfold PetForm_init. rewrite H.
  destruct (pk inst) as [k|]; [destruct (fotos_extras db k) | ]; reflexivity.
Qed.

Lemma form_of_init (db : Database) (uo : option User) (inst : Pet)
      (bound : PostData) :
  user (PetForm_init db uo inst bound) = uo
  /\ instance (PetForm_init db uo inst bound) = inst
  /\ data (PetForm_init db uo inst bound) = bound.
Proof.
  unfold PetForm_init.
  destruct (pk inst) as [k|]; [destruct (fotos_extras db k) | ];
    repeat split.
Qed.

(** The constructor of the form: it returns the form of lines 50-86 unless
    the instance has a stored photo. *)
Lemma PetForm_new_Ok (db : Database) (uo : option User) (inst : Pet)
      (bound : PostData) (form : PetForm) :
  PetForm_new db uo inst bound = Ok form ->
  form = PetForm_init db uo inst bound
  /\ remover_queryset form = None
  /\ _existing_extra_photos form = 0
  /\ (forall k, pk inst = Some k -> fotos_extras db k = []).
Proof.
  unfold PetForm_new.
  destruct (remover_queryset (PetForm_init db uo inst bound)) eqn:R;
    [discriminate | ].
  intros H. injection H as <-. split; [reflexivity | ]. split; [exact R | ].
  revert R. unfold PetForm_init. destruct (pk inst) as [k|].
  - destruct (fotos_extras db k) eqn:E; simpl; [ | discriminate].
    intros _. split; [reflexivity | ]. intros j Hj. injection Hj as <-. exact E.
  - intros _. split; [reflexivity | discriminate].
Qed.

Lemma PetForm_new_Raise (db : Database) (uo : option User) (inst : Pet)
      (bound : PostData) (k : Z) :
  pk inst = Some k -> fotos_extras db k <> [] ->
  PetForm_new db uo inst bound = Raise AttributeError.
Proof.
  intros Hpk Hne. unfold PetForm_new, PetForm_init. rewrite Hpk.
  destruct (fotos_extras db k); [congruence | reflexivity].
Qed.

Lemma PetForm_new_without_key (db : Database) (uo : option User) (inst : Pet)
      (bound : PostData) :
  pk inst = None ->
  PetForm_new db uo inst bound = Ok (PetForm_init db uo inst bound).
Proof.
  intros Hpk. unfold PetForm_new, PetForm_init. now rewrite Hpk.
Qed.

(** C1 (the count check of [PetForm.clean]).  The submission that the claim
    singles out, one that removes stored photos to make room for new files,
    is never accepted: for a pet with a stored photo the constructor of the
    form raises [AttributeError] at line 87, before any check.  On every
    form that the constructor returns nothing is stored and nothing can be
    selected for removal, so that the total of the specification is the
    number of new files, and [clean] raises the count error exactly when
    that total exceeds the maximum; but a submission that carries a gallery
    file is rejected whatever its count, because the field
    [fotos_adicionais] accepts no list of files: the form is not valid and
    [save] raises [ValueError]. *)
Theorem C1_gallery_submission
    (K : Constants) (slugify : string -> string) (fuel : nat) (now : Z)
    (db : Database) (uo : option User) (inst : Pet) (bound : PostData) :
  (forall k, pk inst = Some k -> fotos_extras db k <> [] ->
     PetForm_new db uo inst bound = Raise AttributeError)
  /\ (forall form, PetForm_new db uo inst bound = Ok form ->
        _existing_extra_photos form = 0
        /\ removal_selection form = []
        /\ (forall m,
              clean K form = Raise (ValidationError (TooManyPhotos m))
              <-> post_fotos_adicionais bound <> []
                  /\ MAX_ADDITIONAL_PHOTOS K
                     < spec_gallery_total 0 0
                         (List.length (post_fotos_adicionais bound))
                  /\ m = MAX_ADDITIONAL_PHOTOS K)
        /\ (post_fotos_adicionais bound <> [] ->
            forall (db1 : Database) (commit : bool),
              is_valid K db1 form = false
              /\ PetForm_save K slugify fuel now db1 form commit
                 = Raise ValueError)).
Proof.
  split; [intros k; apply PetForm_new_Raise | ].
  intros form Hnew. apply PetForm_new_Ok in Hnew.
  destruct Hnew as [-> [R [Z0 _]]].
  destruct (form_of_init db uo inst bound) as [_ [_ Hd]].
  split; [exact Z0 | ].
  split; [unfold removal_selection; now rewrite R | ].
  split.
  - intros m. rewrite clean_count_rejection, Z0, Hd.
    unfold spec_gallery_total. rewrite Nat.add_0_r. reflexivity.
  - intros Hne db1 commit.
    assert (V : is_valid K db1 (PetForm_init db uo inst bound) = false)
      by (apply gallery_file_invalid; now rewrite Hd).
    split; [exact V | ].
    unfold PetForm_save, ModelForm_save. now rewrite V.
Qed.

Lemma C1_gallery_submission_witness :
  (spec_gallery_total 5 1 1 <= MAX_ADDITIONAL_PHOTOS site_constants
   /\ PetForm_new full_gallery_db (Some owner) rex swap_post
      = Raise AttributeError
   /\ PetUpdateView_post site_constants sample_slugify 2 40 full_gallery_db
        (mkRequest [] (LoggedIn owner) false 1) "rex" swap_post
      = Raise AttributeError)
  /\ (spec_gallery_total 0 0 1 <= MAX_ADDITIONAL_PHOTOS site_constants
      /\ exists form,
           PetForm_new empty_db (Some owner) new_pet one_file_post = Ok form
           /\ clean site_constants form
              = Ok (mkCleaned [mkFile "nova.png" 1000] None, [])
           /\ is_valid site_constants empty_db form = false
           /\ PetForm_save site_constants sample_slugify 1 40 empty_db form true
              = Raise ValueError
           /\ PetCreateView_post site_constants sample_slugify 1 40 41 empty_db
                (mkRequest [] (LoggedIn owner) false 1) one_file_post
              = Ok (empty_db, Page form)).
Proof.
  split.
  - split; [vm_compute; lia | ].
    split; [ | reflexivity].
    assert (Hne : fotos_extras full_gallery_db 1 <> []) by discriminate.
    exact (proj1 (C1_gallery_submission site_constants sample_slugify 1 40
                    full_gallery_db (Some owner) rex swap_post)
                 1%Z eq_refl Hne).
  - split; [vm_compute; lia | ].
    exists (PetForm_init empty_db (Some owner) new_pet one_file_post).
    assert (Hnew : PetForm_new empty_db (Some owner) new_pet one_file_post
                   = Ok (PetForm_init empty_db (Some owner) new_pet one_file_post))
      by reflexivity.
    assert (Hne : post_fotos_adicionais one_file_post <> []) by discriminate.
    destruct (proj2 (C1_gallery_submission site_constants sample_slugify 1 40
                       empty_db (Some owner) new_pet one_file_post)
                    _ Hnew) as [_ [_ [_ Rejected]]].
    destruct (Rejected Hne empty_db true) as [V S].
    split; [exact Hnew | ]. split; [reflexivity | ].
    split; [exact V | ]. split; [exact S | reflexivity].
Defined.

(* ================================================================== *)
(** ** Saving a form                                                   *)
(* ================================================================== *)

Lemma Model_save_effects (now : Z) (db db1 : Database) (p saved : Pet) :
  Model_save now db p = Ok (db1, saved) ->
  status saved = status p
  /\ In saved (pets db1)
  /\ fotos db1 = fotos db
  /\ exists k, pk saved = Some k /\ journal db1 = journal db ++ [WSavePet k].
Proof.
  intros H. pose proof (Model_save_Ok _ _ _ _ _ H) as [_ [Hin _]].
  unfold Model_save in H. destruct (violates_unique db p); [discriminate | ].
  destruct (pk p) as [k|] eqn:Hpk.
  - destruct (existsb (has_pk k) (pets db)); injection H as <- <-;
      (split; [reflexivity | split; [exact Hin | split; [reflexivity | ]]]);
      exists k; split; try reflexivity; exact Hpk.
  - injection H as <- <-.
    split; [reflexivity | split; [exact Hin | split; [reflexivity | ]]].
    exists (next_pet_pk db). split; reflexivity.
Qed.

Lemma Pet_save_effects (slugify : string -> string) (fuel : nat) (now : Z)
      (db db1 : Database) (p saved : Pet) :
  Pet_save slugify fuel now db p = Ok (db1, saved) ->
  status saved = status p
  /\ In saved (pets db1)
  /\ fotos db1 = fotos db
  /\ exists k, pk saved = Some k /\ journal db1 = journal db ++ [WSavePet k].
Proof.
  unfold Pet_save. destruct (negb (Py.truthy (slug p))).
  - destruct (slug_loop fuel db (slugify (nome p)) (slugify (nome p)) 1);
      simpl; try discriminate.
    intros H. apply Model_save_effects in H. exact H.
  - simpl. apply Model_save_effects.
Qed.

Section SaveFacts.

Variable K : Constants.
Variable slugify : string -> string.

(** C8 (a form without a user cannot be saved).  [PetForm.save] on a form
    that was built without a user always raises: [ValueError] from the
    framework when the form has errors, and [AttributeError] from reading
    the staff flag of the missing user when the form is valid.  Building
    the form without a user succeeds and leaves the status field in it. *)
Theorem C8_save_without_user
    (fuel : nat) (now : Z) (db : Database) (self : PetForm) (commit : bool)
    (Huser : user self = None) :
  PetForm_save K slugify fuel now db self commit
  = Raise (if is_valid K db self then AttributeError else ValueError)
  /\ forall (db0 : Database) (inst : Pet) (bound : PostData),
       user (PetForm_init db0 None inst bound) = None
       /\ In "status" (fields (PetForm_init db0 None inst bound)).
Proof.
  split.
  - unfold PetForm_save, ModelForm_save. rewrite Huser.
    destruct (is_valid K db self); reflexivity.
  - intros db0 inst bound. unfold PetForm_init.
    destruct (pk inst) as [k|]; [destruct (fotos_extras db0 k) | ];
      simpl; tauto.
Qed.

Lemma PetForm_save_with_user (fuel : nat) (now : Z) (db : Database)
      (self : PetForm) (u : User) (commit : bool) :
  user self = Some u ->
  PetForm_save K slugify fuel now db self commit
  = if is_valid K db self
    then if commit
         then saved <- Pet_save slugify fuel now db (prepared_pet self u) ;;
              db2 <- _save_m2m_data K now (fst saved) self (snd saved) ;;
              Ok (db2, snd saved)
         else Ok (db, prepared_pet self u)
    else Raise ValueError.
Proof.
  intros Hu. unfold PetForm_save, ModelForm_save, prepared_pet. rewrite Hu.
  destruct (is_valid K db self); [ | reflexivity].
  cbn [bind]. destruct (pk (construct_instance self)); reflexivity.
Qed.

Lemma prepared_pet_status (self : PetForm) (u : User) :
  status (prepared_pet self u) = prepared_status self (is_staff u).
Proof.
  unfold prepared_pet, prepared_status.
  assert (E : pk (construct_instance self) = pk (instance self))
    by reflexivity.
  rewrite !E.
  destruct (pk (instance self)) eqn:P, (is_staff u); cbn;
    rewrite ?P; reflexivity.
Qed.

Lemma save_m2m_data_pets (now : Z) (db db2 : Database) (self : PetForm)
      (q : Pet) :
  _save_m2m_data K now db self q = Ok db2 -> pets db2 = pets db.
Proof.
  assert (C : forall files d k i,
             pets (create_fotos now d k files i) = pets d).
  { induction files as [|f r IH]; intros d k i; simpl;
      [reflexivity | now rewrite IH]. }
  unfold _save_m2m_data.
  destruct (cd_fotos_extras_remover (cleaned_data K self)) as [[|x xs]|];
    destruct (cd_fotos_adicionais (cleaned_data K self));
    try (intros H; injection H as <-; reflexivity);
    destruct (pk q); try discriminate;
    intros H; injection H as <-; now rewrite C.
Qed.

Lemma PetForm_save_Ok_valid (fuel : nat) (now : Z) (db db' : Database)
      (self : PetForm) (commit : bool) (saved : Pet) :
  PetForm_save K slugify fuel now db self commit = Ok (db', saved) ->
  is_valid K db self = true /\ exists u, user self = Some u.
Proof.
  intros H. unfold PetForm_save, ModelForm_save in H.
  destruct (is_valid K db self); [ | discriminate].
  split; [reflexivity | ].
  destruct (user self) as [u|]; [now exists u | ].
  cbn [bind] in H. destruct (pk (construct_instance self)); discriminate.
Qed.

Lemma PetForm_save_status (fuel : nat) (now : Z) (db db' : Database)
      (self : PetForm) (u : User) (commit : bool) (saved : Pet) :
  user self = Some u ->
  PetForm_save K slugify fuel now db self commit = Ok (db', saved) ->
  is_valid K db self = true
  /\ status saved = prepared_status self (is_staff u)
  /\ (commit = true -> In saved (pets db')).
Proof.
  intros Hu. rewrite (PetForm_save_with_user _ _ _ _ _ _ Hu).
  destruct (is_valid K db self); [ | discriminate].
  destruct commit.
  - destruct (Pet_save slugify fuel now db (prepared_pet self u))
      as [[db1 q]| |] eqn:E; simpl; try discriminate.
    destruct (_save_m2m_data K now db1 self q) as [db2| |] eqn:E2;
      simpl; try discriminate.
    intros H. injection H as <- <-.
    apply Pet_save_effects in E. destruct E as [S1 [In1 _]].
    split; [reflexivity | ].
    split; [now rewrite S1, prepared_pet_status | ].
    intros _. now rewrite (save_m2m_data_pets _ _ _ _ _ E2).
  - intros H. injection H as <- <-.
    split; [reflexivity | ].
    split; [apply prepared_pet_status | discriminate].
Qed.

End SaveFacts.

Lemma C8_save_without_user_witness :
  user (PetForm_init empty_db None new_pet rex_post) = None
  /\ is_valid site_constants empty_db
       (PetForm_init empty_db None new_pet rex_post) = true
  /\ PetForm_save site_constants sample_slugify 1 40 empty_db
       (PetForm_init empty_db None new_pet rex_post) true
     = Raise AttributeError.
Proof.
  assert (Hu : user (PetForm_init empty_db None new_pet rex_post) = None)
    by reflexivity.
  split; [exact Hu | ]. split; [reflexivity | ].
  exact (proj1 (C8_save_without_user site_constants sample_slugify 1 40
                  empty_db (PetForm_init empty_db None new_pet rex_post)
                  true Hu)).
Defined.

(** C5 (who may set the status).  Let a form built for a user be saved
    successfully.  When the user is not staff, the status field is not among
    the fields of the form, a creation yields the status pending whatever
    status the submission asks for, and an edit yields the status the
    instance had.  When the user is staff, the saved status is the submitted
    one.  With [commit] the saved object is a row of the store. *)
Theorem C5_status_gate
    (K : Constants) (slugify : string -> string) (fuel : nat) (now : Z)
    (db db' : Database) (u : User) (inst : Pet) (bound : PostData)
    (commit : bool) (saved : Pet)
    (Hsave : PetForm_save K slugify fuel now db
               (PetForm_init db (Some u) inst bound) commit = Ok (db', saved)) :
  (is_staff u = false ->
     ~ In "status" (fields (PetForm_init db (Some u) inst bound))
     /\ (pk inst = None -> status saved = PENDENTE)
     /\ (pk inst <> None -> status saved = status inst))
  /\ (is_staff u = true -> post_status bound = Some (status saved))
  /\ (commit = true -> In saved (pets db')).
Proof.
  destruct (form_of_init db (Some u) inst bound) as [Hu [Hi Hd]].
  apply (PetForm_save_status _ _ _ _ _ _ _ u _ _ Hu) in Hsave.
  destruct Hsave as [Valid [St Stored]].
  unfold prepared_status, construct_instance in St. rewrite Hi, Hd in St.
  cbn [status] in St.
  split; [ | split; [ | exact Stored]].
  - intros Hs. pose proof (fields_of_non_staff db u inst bound Hs) as F.
    rewrite Hs, F in St. simpl in St.
    split; [ | split].
    + rewrite <- str_in_In. congruence.
    + intros Hpk. now rewrite Hpk in St.
    + intros Hpk. destruct (pk inst); [exact St | congruence].
  - intros Hs. pose proof (fields_of_staff db u inst bound Hs) as F.
    rewrite Hs, F in St. simpl in St.
    apply is_valid_inv in Valid. destruct Valid as [Valid _].
    apply fields_valid_inv in Valid.
    destruct Valid as [_ [_ [_ [_ [Given _]]]]]. specialize (Given F).
    rewrite Hd in Given.
    destruct (post_status bound) as [s|]; [now rewrite St | congruence].
Qed.

Lemma C5_status_gate_witness :
  (exists db' saved,
     PetForm_save site_constants sample_slugify 1 40 empty_db
       (PetForm_init empty_db (Some owner) new_pet rex_post) true
     = Ok (db', saved)
     /\ post_status rex_post = Some ADOTADO
     /\ is_staff owner = false /\ pk new_pet = None
     /\ status saved = PENDENTE /\ In saved (pets db'))
  /\ (exists db' saved,
        PetForm_save site_constants sample_slugify 2 40 three_pets_db
          (PetForm_init three_pets_db (Some owner) rex plain_edit_post) true
        = Ok (db', saved)
        /\ pk rex <> None /\ status saved = status rex)
  /\ (exists db' saved,
        PetForm_save site_constants sample_slugify 1 40 empty_db
          (PetForm_init empty_db (Some staff_member) new_pet rex_post) true
        = Ok (db', saved)
        /\ is_staff staff_member = true
        /\ post_status rex_post = Some (status saved)).
Proof.
  split; [ | split].
  - eexists. eexists. split; [vm_compute; reflexivity | ].
    split; [reflexivity | ]. split; [reflexivity | ]. split; [reflexivity | ].
    match goal with
    | |- status ?s = _ /\ In ?s (pets ?d) =>
        pose proof (C5_status_gate site_constants sample_slugify 1 40 empty_db
                      d owner new_pet rex_post true s eq_refl)
          as [NonStaff [_ Stored]]
    end.
    split; [exact (proj1 (proj2 (NonStaff eq_refl)) eq_refl)
           | exact (Stored eq_refl)].
  - eexists. eexists. split; [vm_compute; reflexivity | ].
    assert (Hpk : pk rex <> None) by discriminate.
    split; [exact Hpk | ].
    match goal with
    | |- status ?s = _ =>
        pose proof (C5_status_gate site_constants sample_slugify 2 40
                      three_pets_db _ owner rex plain_edit_post true s eq_refl)
          as [NonStaff _]
    end.
    exact (proj2 (proj2 (NonStaff eq_refl)) Hpk).
  - eexists. eexists. split; [vm_compute; reflexivity | ].
    split; [reflexivity | ].
    match goal with
    | |- _ = Some (status ?s) =>
        pose proof (C5_status_gate site_constants sample_slugify 1 40 empty_db
                      _ staff_member new_pet rex_post true s eq_refl)
          as [_ [Staff _]]
    end.
    exact (Staff eq_refl).
Defined.

(* ================================================================== *)
(** ** The gallery writes of a commit                                  *)
(* ================================================================== *)

Lemma filter_kept_nil (l : list PetExtraPhoto) : filter (kept []) l = l.
Proof.
  induction l as [|f r IH]; simpl; [reflexivity | now rewrite IH].
Qed.

(** What the appending loop leaves in the store. *)
Lemma create_fotos_effects (now : Z) (k : Z) (extra_files : list UploadedFile) :
  forall (db : Database) (index : nat),
    pets (create_fotos now db k extra_files index) = pets db
    /\ journal (create_fotos now db k extra_files index)
       = journal db ++ create_writes k extra_files index
    /\ exists added,
         fotos (create_fotos now db k extra_files index) = fotos db ++ added
         /\ map ordem added = seq index (List.length extra_files)
         /\ map imagem added = map name extra_files
         /\ Forall (fun f => foto_pet f = k) added.
Proof.
  induction extra_files as [|file_obj rest IH]; intros db index; simpl.
  - split; [reflexivity | ]. split; [now rewrite app_nil_r | ].
    exists []. rewrite app_nil_r. repeat split. constructor.
  - destruct (IH (create_foto now db k file_obj index) (S index))
      as [P [J [added [F [O [I A]]]]]].
    split; [exact P | ]. split.
    + rewrite J. simpl. now rewrite <- app_assoc.
    + exists (mkFoto (next_foto_pk db) k (name file_obj) index now :: added).
      split; [rewrite F; simpl; now rewrite <- app_assoc | ].
      split; [simpl; now rewrite O | ].
      split; [simpl; now rewrite I | ].
      constructor; [reflexivity | exact A].
Qed.

Section CommitFacts.

Variable K : Constants.
Variable slugify : string -> string.



End CommitFacts.


(* ================================================================== *)
(** ** Bulk approval                                                   *)
(* ================================================================== *)

Lemma status_eqb_eq (a b : StatusChoices) : status_eqb a b = true <-> a = b.
Proof. destruct a, b; simpl; split; intros H; try reflexivity; discriminate. Qed.

Lemma status_eqb_neq (a b : StatusChoices) : status_eqb a b = false <-> a <> b.
Proof.
  rewrite <- status_eqb_eq. destruct (status_eqb a b); split; congruence.
Qed.

Lemma approved_row_idempotent (queryset : QuerySet) (p : Pet) :
  queryset (approved_row queryset p)
  && status_eqb (status (approved_row queryset p)) PENDENTE = false.
Proof.
  unfold approved_row.
  destruct (queryset p && status_eqb (status p) PENDENTE) eqn:E.
  - simpl. apply andb_false_r.
  - exact E.
Qed.

Lemma aprovar_pets_rows (db : Database) (queryset : QuerySet) :
  pets (fst (aprovar_pets db queryset)) = map (approved_row queryset) (pets db).
Proof. reflexivity. Qed.

Lemma aprovar_pets_count (db : Database) (queryset : QuerySet) :
  snd (aprovar_pets db queryset)
  = List.length (filter (fun p => queryset p && status_eqb (status p) PENDENTE)
                        (pets db)).
Proof. reflexivity. Qed.

(** C4 (bulk approval).  Row by row, [aprovar_pets] turns a selected pending
    record into the same record with the status available and leaves every
    record that is not pending, or not selected, as it is; no photo is
    touched; the count it reports is the number of selected pending records;
    and running it again on the result changes no record and reports 0. *)
Theorem C4_bulk_approve (db : Database) (queryset : QuerySet) :
  Forall2 (fun before after =>
             (queryset before = true -> status before = PENDENTE ->
              after = set_status DISPONIVEL before
              /\ status after = DISPONIVEL)
             /\ (status before <> PENDENTE -> after = before)
             /\ (queryset before = false -> after = before))
          (pets db) (pets (fst (aprovar_pets db queryset)))
  /\ fotos (fst (aprovar_pets db queryset)) = fotos db
  /\ snd (aprovar_pets db queryset)
     = List.length (filter (fun p => queryset p && status_eqb (status p) PENDENTE)
                           (pets db))
  /\ pets (fst (aprovar_pets (fst (aprovar_pets db queryset)) queryset))
     = pets (fst (aprovar_pets db queryset))
  /\ snd (aprovar_pets (fst (aprovar_pets db queryset)) queryset) = 0.
Proof.
  split; [ | split; [reflexivity | split; [reflexivity | split]]].
  - rewrite aprovar_pets_rows.
    induction (pets db) as [|p l IH]; simpl; constructor; [ | exact IH].
    unfold approved_row. split; [ | split].
    + intros Hq Hp. apply status_eqb_eq in Hp. rewrite Hq, Hp. now split.
    + intros Hne. apply status_eqb_neq in Hne. rewrite Hne.
      now rewrite andb_false_r.
    + intros Hq. now rewrite Hq.
  - rewrite !aprovar_pets_rows.
    rewrite map_map. apply map_ext. intros p.
    unfold approved_row at 1. now rewrite approved_row_idempotent.
  - rewrite aprovar_pets_count, aprovar_pets_rows.
    induction (pets db) as [|p l IH]; simpl; [reflexivity | ].
    now rewrite approved_row_idempotent.
Qed.

Lemma C4_bulk_approve_witness :
  pets (fst (aprovar_pets three_pets_db (fun _ => true)))
  = [rex; set_status DISPONIVEL luna; set_status DISPONIVEL bob]
  /\ snd (aprovar_pets three_pets_db (fun _ => true)) = 2
  /\ snd (aprovar_pets (fst (aprovar_pets three_pets_db (fun _ => true)))
                       (fun _ => true)) = 0
  /\ Forall2 (fun before after =>
                (status before = PENDENTE ->
                 after = set_status DISPONIVEL before)
                /\ (status before <> PENDENTE -> after = before))
             (pets three_pets_db)
             (pets (fst (aprovar_pets three_pets_db (fun _ => true)))).
Proof.
  pose proof (C4_bulk_approve three_pets_db (fun _ => true))
    as [Rows [_ [Count [_ Again]]]].
  split; [reflexivity | ]. split; [exact Count | ]. split; [exact Again | ].
  eapply Forall2_impl; [ | exact Rows].
  intros before after [Sel [Other _]]. split; [ | exact Other].
  intros Hp. exact (proj1 (Sel eq_refl Hp)).
Defined.

(* ================================================================== *)
(** ** Ordering and query parameters                                   *)
(* ================================================================== *)

Section Ordering.

Variable key : Pet -> Z.

Lemma insert_desc_perm (p : Pet) (l : list Pet) :
  Permutation (insert_desc key p l) (p :: l).
Proof.
  induction l as [|q r IH]; simpl; [reflexivity | ].
  destruct (key q <=? key p)%Z; [reflexivity | ].
  rewrite IH. apply perm_swap.
Qed.

Lemma order_by_desc_perm (l : list Pet) : Permutation (order_by_desc key l) l.
Proof.
  induction l as [|p r IH]; simpl; [reflexivity | ].
  rewrite insert_desc_perm. now constructor.
Qed.

Lemma insert_desc_sorted (p : Pet) (l : list Pet) :
  sorted_desc key l -> sorted_desc key (insert_desc key p l).
Proof.
  unfold sorted_desc.
  induction l as [|q r IH]; simpl; intros H.
  - constructor; constructor.
  - inversion H as [|? ? Hr Hq]; subst.
    destruct (Z.leb_spec (key q) (key p)) as [Le | Gt].
    + constructor; [exact H | ]. constructor; [exact Le | ].
      eapply Forall_impl; [ | exact Hq]. intros x Hx. simpl in Hx. lia.
    + constructor; [now apply IH | ].
      apply (Permutation_Forall (Permutation_sym (insert_desc_perm p r))).
      constructor; [lia | exact Hq].
Qed.

Lemma order_by_desc_sorted (l : list Pet) : sorted_desc key (order_by_desc key l).
Proof.
  induction l as [|p r IH]; simpl; [constructor | ].
  now apply insert_desc_sorted.
Qed.

End Ordering.

Lemma QueryDict_get_without_same (q : list (string * string)) (key : string) :
  QueryDict_get (filter (fun kv => negb (String.eqb (fst kv) key)) q) key = None.
Proof.
  induction q as [|[k v] r IH]; simpl; [reflexivity | ].
  destruct (String.eqb k key) eqn:E; simpl; [exact IH | ].
  now rewrite IH, E.
Qed.

Lemma QueryDict_get_without_other (q : list (string * string))
      (key other : string) :
  other <> key ->
  QueryDict_get (filter (fun kv => negb (String.eqb (fst kv) key)) q) other
  = QueryDict_get q other.
Proof.
  intros Hne. induction q as [|[k v] r IH]; simpl; [reflexivity | ].
  destruct (String.eqb k key) eqn:E; simpl.
  - rewrite IH. apply String.eqb_eq in E. subst k.
    apply String.eqb_neq in Hne. rewrite String.eqb_sym in Hne.
    rewrite Hne. now destruct (QueryDict_get r other).
  - now rewrite IH.
Qed.

(* ================================================================== *)
(** ** The gallery listing                                             *)
(* ================================================================== *)

(** The chained filters of [get_queryset] amount to the one row condition. *)
Lemma PetListView_get_queryset_condition (db : Database) (request : HttpRequest) :
  PetListView_get_queryset db request
  = order_by_desc data_cadastro (filter (gallery_condition request) (pets db)).
Proof.
  unfold PetListView_get_queryset, qs_list. f_equal.
  apply filter_ext. intros p.
  unfold gallery_condition, mine_requested, is_disponivel.
  destruct (QueryDict_get (GET request) "filtro") as [f|];
    [destruct (String.eqb f "meus") | ];
    destruct (is_authenticated (request_user request)); cbn [andb];
    destruct (QueryDict_get (GET request) "nome") as [n|];
    destruct (QueryDict_get (GET request) "especie") as [e|];
    try destruct (Py.truthy n); try destruct (Py.truthy e);
    unfold qs_filter; rewrite ?andb_true_r; reflexivity.
Qed.

Lemma PetListView_get_queryset_perm (db : Database) (request : HttpRequest) :
  Permutation (PetListView_get_queryset db request)
              (filter (gallery_condition request) (pets db)).
Proof.
  rewrite PetListView_get_queryset_condition. apply order_by_desc_perm.
Qed.

Lemma PetListView_get_queryset_In (db : Database) (request : HttpRequest)
      (p : Pet) :
  In p (PetListView_get_queryset db request)
  <-> In p (pets db) /\ gallery_condition request p = true.
Proof.
  rewrite <- filter_In.
  split; apply Permutation_in;
    [ | apply Permutation_sym]; apply PetListView_get_queryset_perm.
Qed.

(** The two string tests of the name filter. *)
Lemma prefix_spec (a b : string) :
  String.prefix a b = true <-> exists rest, b = (a ++ rest)%string.
Proof.
  revert b. induction a as [|c a IH]; intros b.
  - split; [intros _; now exists b | intros _; destruct b; reflexivity].
  - destruct b as [|d b]; simpl;
      [split; [discriminate | intros [r H]; discriminate] | ].
    destruct (Ascii.ascii_dec c d) as [<- | Hne].
    + rewrite IH. split; intros [r H]; exists r; congruence.
    + split; [discriminate | intros [r H]; congruence].
Qed.

Lemma contains_spec (needle hay : string) :
  Py.contains needle hay = true
  <-> exists before rest, hay = (before ++ needle ++ rest)%string.
Proof.
  induction hay as [|c hay IH]; cbn [Py.contains].
  - rewrite orb_false_r, prefix_spec. split.
    + intros [r H]. now exists EmptyString, r.
    + intros [[|d b] [r H]]; [now exists r | discriminate].
  - rewrite orb_true_iff, prefix_spec, IH. split.
    + intros [[r H] | [b [r H]]].
      * now exists EmptyString, r.
      * exists (String c b), r. simpl. now rewrite H.
    + intros [[|d b] [r H]].
      * left. now exists r.
      * right. simpl in H. injection H as _ H. now exists b, r.
Qed.

(** The row condition, spelled out: who owns or what status, which name,
    which species. *)
Lemma gallery_condition_spec (request : HttpRequest) (p : Pet) :
  gallery_condition request p = true
  <-> ((QueryDict_get (GET request) "filtro" = Some "meus"
        /\ exists u, request_user request = LoggedIn u
                     /\ solicitante p = Some (user_pk u))
       \/ ((QueryDict_get (GET request) "filtro" <> Some "meus"
            \/ request_user request = AnonymousUser)
           /\ status p = DISPONIVEL))
      /\ (forall v, QueryDict_get (GET request) "nome" = Some v -> v <> "" ->
            exists before rest,
              Py.lower (nome p) = (before ++ Py.lower v ++ rest)%string)
      /\ (forall v, QueryDict_get (GET request) "especie" = Some v -> v <> "" ->
            especie_value (especie p) = v).
Proof.
  unfold gallery_condition. rewrite !andb_true_iff.
  assert (Mode :
    (if mine_requested request && is_authenticated (request_user request)
     then owned_by (request_user request) p
     else status_eqb (status p) DISPONIVEL) = true
    <-> ((QueryDict_get (GET request) "filtro" = Some "meus"
          /\ exists u, request_user request = LoggedIn u
                       /\ solicitante p = Some (user_pk u))
         \/ ((QueryDict_get (GET request) "filtro" <> Some "meus"
              \/ request_user request = AnonymousUser)
             /\ status p = DISPONIVEL))).
  { unfold mine_requested, owned_by.
    destruct (QueryDict_get (GET request) "filtro") as [f|].
    - destruct (String.eqb_spec f "meus") as [-> | Hne].
      + destruct (request_user request) as [|u]; cbn [is_authenticated andb].
        * rewrite status_eqb_eq. split.
          -- intros H. right. split; [now right | exact H].
          -- intros [[_ [u [H _]]] | [_ H]]; [discriminate | exact H].
        * destruct (solicitante p) as [k|].
          -- rewrite Z.eqb_eq. split.
             ++ intros ->. left. split; [reflexivity | now exists u].
             ++ intros [[_ [w [Hw Hk]]] | [[H | H] _]];
                  [congruence | congruence | discriminate].
          -- split; [discriminate | ].
             intros [[_ [w [_ Hk]]] | [[H | H] _]];
               [discriminate | congruence | discriminate].
      + cbn [andb]. rewrite status_eqb_eq. split.
        * intros H. right. split; [left; congruence | exact H].
        * intros [[H _] | [_ H]]; [congruence | exact H].
    - cbn [andb]. rewrite status_eqb_eq. split.
      + intros H. right. split; [left; discriminate | exact H].
      + intros [[H _] | [_ H]]; [discriminate | exact H]. }
  assert (Name :
    match QueryDict_get (GET request) "nome" with
    | Some v => if Py.truthy v then nome__icontains v p else true
    | None => true
    end = true
    <-> (forall v, QueryDict_get (GET request) "nome" = Some v -> v <> "" ->
           exists before rest,
             Py.lower (nome p) = (before ++ Py.lower v ++ rest)%string)).
  { destruct (QueryDict_get (GET request) "nome") as [n|].
    - destruct (Py.truthy n) eqn:T.
      + unfold nome__icontains. rewrite contains_spec. split.
        * intros H v Hv _. now injection Hv as <-.
        * intros H. apply (H n eq_refl). intros ->. discriminate.
      + apply truthy_false in T. subst n. split; [ | reflexivity].
        intros _ v Hv Hne. congruence.
    - split; [intros _ v Hv; discriminate | reflexivity]. }
  assert (Species :
    match QueryDict_get (GET request) "especie" with
    | Some v => if Py.truthy v then especie_is v p else true
    | None => true
    end = true
    <-> (forall v, QueryDict_get (GET request) "especie" = Some v -> v <> "" ->
           especie_value (especie p) = v)).
  { destruct (QueryDict_get (GET request) "especie") as [e|].
    - destruct (Py.truthy e) eqn:T.
      + unfold especie_is. rewrite String.eqb_eq. split.
        * intros H v Hv _. now injection Hv as <-.
        * intros H. apply (H e eq_refl). intros ->. discriminate.
      + apply truthy_false in T. subst e. split; [ | reflexivity].
        intros _ v Hv Hne. congruence.
    - split; [intros _ v Hv; discriminate | reflexivity]. }
  rewrite Mode, Name, Species. tauto.
Qed.

(** Pages. *)
Lemma firstn_add {A : Type} (a b : nat) (l : list A) :
  firstn (a + b) l = firstn a l ++ firstn b (skipn a l).
Proof.
  revert l. induction a as [|a IH]; intros l; [reflexivity | ].
  destruct l as [|x l]; simpl; [now rewrite firstn_nil | now rewrite IH].
Qed.

Lemma pages_concat {A : Type} (per n : nat) (l : list A) :
  List.concat (map (fun number => firstn per (skipn ((number - 1) * per) l))
              (seq 1 n))
  = firstn (n * per) l.
Proof.
  induction n as [|n IH]; [reflexivity | ].
  rewrite seq_S, map_app, concat_app, IH. simpl.
  rewrite app_nil_r, Nat.sub_0_r.
  replace (per + n * per) with (n * per + per) by lia.
  now rewrite firstn_add.
Qed.

Lemma num_pages_covers (count per : nat) :
  0 < per -> count <= num_pages count per * per.
Proof.
  intros Hper. unfold num_pages.
  pose proof (Nat.div_mod (count + per - 1) per ltac:(lia)) as D.
  pose proof (Nat.mod_upper_bound (count + per - 1) per ltac:(lia)) as M.
  nia.
Qed.

Lemma paginate_queryset_page (l : list Pet) (n number : nat) :
  paginate_queryset l (Some (S n)) number
  = if Nat.leb 1 number && Nat.leb number (num_pages (List.length l) (S n))
    then Some (firstn (S n) (skipn ((number - 1) * S n) l))
    else None.
Proof. reflexivity. Qed.

Lemma paginate_first_page (l : list Pet) (n : nat) :
  paginate_queryset l (Some (S n)) 1 = Some (firstn (S n) l).
Proof.
  rewrite paginate_queryset_page.
  assert (P : 1 <= num_pages (List.length l) (S n)) by (unfold num_pages; lia).
  apply Nat.leb_le in P. now rewrite P.
Qed.

(** C7 (the gallery listing).  A stored record is listed exactly when it
    belongs to the mode of the request, and passes the name and the species
    filters when these are given and not empty.  The mode is the records of
    the requesting user, in any status, when the parameter [filtro] is
    [meus] and the user is authenticated, and the available records
    otherwise.  The name filter keeps the names that contain the given text,
    the case of ASCII letters ignored; the species filter keeps the records
    whose stored species value is the given text.  No record is repeated or
    lost, and the records are in descending order of creation time.  With
    the static build on, the page is the whole listing; otherwise the pages
    1 to [num_pages] exist, hold eight records each except the last, and
    make up the listing when put one after the other, and any other page
    number is answered with 404. *)
Theorem C7_gallery_listing
    (static_build : option string) (db : Database) (request : HttpRequest) :
  let listing := PetListView_get_queryset db request in
  let pages := num_pages (List.length listing) 8 in
  let page := paginate_queryset listing
                (PetListView_get_paginate_by static_build) in
  (forall p,
     In p listing
     <-> In p (pets db)
         /\ ((QueryDict_get (GET request) "filtro" = Some "meus"
              /\ exists u, request_user request = LoggedIn u
                           /\ solicitante p = Some (user_pk u))
             \/ ((QueryDict_get (GET request) "filtro" <> Some "meus"
                  \/ request_user request = AnonymousUser)
                 /\ status p = DISPONIVEL))
         /\ (forall v, QueryDict_get (GET request) "nome" = Some v -> v <> "" ->
               exists before rest,
                 Py.lower (nome p) = (before ++ Py.lower v ++ rest)%string)
         /\ (forall v, QueryDict_get (GET request) "especie" = Some v ->
               v <> "" -> especie_value (especie p) = v))
  /\ Permutation listing (filter (gallery_condition request) (pets db))
  /\ sorted_desc data_cadastro listing
  /\ (opt_truthy static_build = true -> forall number, page number = Some listing)
  /\ (opt_truthy static_build = false ->
      (forall number, 1 <= number <= pages ->
         page number = Some (firstn 8 (skipn ((number - 1) * 8) listing)))
      /\ (forall number, number = 0 \/ pages < number -> page number = None)
      /\ (forall number shown, page number = Some shown ->
            List.length shown <= 8
            /\ (number < pages -> List.length shown = 8))
      /\ List.concat (map (fun number =>
                        firstn 8 (skipn ((number - 1) * 8) listing))
                     (seq 1 pages))
         = listing)
  /\ (is_authenticated (request_user request) = true
      \/ session_is_visitor request = true ->
      PetListView_get static_build db request
      = match page (page_number request) with
        | Some shown => Ok (Rendered shown)
        | None => Ok PageNotFound
        end).
Proof.
  cbv zeta.
  split.
  { intros p. rewrite PetListView_get_queryset_In, gallery_condition_spec.
    reflexivity. }
  split; [apply PetListView_get_queryset_perm | ]. split.
  { rewrite PetListView_get_queryset_condition. apply order_by_desc_sorted. }
  set (listing := PetListView_get_queryset db request).
  split; [ | split].
  - intros Hs number. unfold PetListView_get_paginate_by. now rewrite Hs.
  - intros Hs. unfold PetListView_get_paginate_by. rewrite Hs.
    unfold PetListView_paginate_by.
    pose proof (num_pages_covers (List.length listing) 8 ltac:(lia)) as Cover.
    split; [ | split; [ | split]].
    + intros number [Lo Hi]. rewrite paginate_queryset_page.
      apply Nat.leb_le in Lo. apply Nat.leb_le in Hi. now rewrite Lo, Hi.
    + intros number Out. rewrite paginate_queryset_page.
      destruct Out as [-> | Out]; [reflexivity | ].
      apply Nat.leb_gt in Out. now rewrite Out, andb_false_r.
    + intros number shown. rewrite paginate_queryset_page.
      destruct (Nat.leb 1 number) eqn:Lo; [ | discriminate].
      destruct (Nat.leb number (num_pages (List.length listing) 8)) eqn:Hi;
        [ | discriminate].
      cbn [andb]. intros H.
      assert (E : shown = firstn 8 (skipn ((number - 1) * 8) listing))
        by congruence.
      rewrite E, length_firstn, length_skipn.
      split; [lia | ]. intros Lt. apply Nat.leb_le in Lo.
      assert (number * 8 <= List.length listing).
      { unfold num_pages in Lt.
        pose proof (Nat.div_mod (List.length listing + 8 - 1) 8 ltac:(lia)) as D.
        pose proof (Nat.mod_upper_bound (List.length listing + 8 - 1) 8
                      ltac:(lia)) as M.
        lia. }
      lia.
    + rewrite pages_concat. apply firstn_all2. exact Cover.
  - intros Gate. unfold PetListView_get, VisitorOrUserRequiredMixin_dispatch.
    destruct Gate as [G | G]; rewrite G; cbn [negb andb];
      rewrite ?andb_false_r; reflexivity.
Qed.

Lemma C7_gallery_listing_witness :
  (PetListView_get_queryset three_pets_db
     (mkRequest [("filtro", "meus")] (LoggedIn owner) false 1) = [bob; rex]
   /\ PetListView_get_queryset three_pets_db
        (mkRequest [("filtro", "meus"); ("nome", "EX")] (LoggedIn owner) false 1)
      = [rex]
   /\ PetListView_get_queryset three_pets_db
        (mkRequest [("filtro", "meus"); ("especie", "GATO")] (LoggedIn owner)
                   false 1)
      = []
   /\ PetListView_get_queryset three_pets_db
        (mkRequest [("especie", "CACHORRO")] (LoggedIn owner) false 1)
      = [rex])
  /\ (forall p,
        In p (PetListView_get_queryset three_pets_db
                (mkRequest [("filtro", "meus"); ("nome", "EX")]
                           (LoggedIn owner) false 1)) ->
        solicitante p = Some 7%Z
        /\ exists before rest,
             Py.lower (nome p) = (before ++ "ex" ++ rest)%string)
  /\ (PetListView_get None nine_pets_db (visitor_request [])
      = Ok (Rendered (map numbered_pet [9; 8; 7; 6; 5; 4; 3; 2]))
      /\ PetListView_get None nine_pets_db (mkRequest [] AnonymousUser true 2)
         = Ok (Rendered [numbered_pet 1])
      /\ PetListView_get None nine_pets_db (mkRequest [] AnonymousUser true 3)
         = Ok PageNotFound
      /\ PetListView_get None nine_pets_db (mkRequest [] AnonymousUser true 0)
         = Ok PageNotFound
      /\ PetListView_get (Some "1") nine_pets_db (visitor_request [])
         = Ok (Rendered (map numbered_pet [9; 8; 7; 6; 5; 4; 3; 2; 1]))).
Proof.
  split; [repeat split; reflexivity | ]. split.
  - intros p Hp.
    pose proof (C7_gallery_listing None three_pets_db
                  (mkRequest [("filtro", "meus"); ("nome", "EX")]
                             (LoggedIn owner) false 1))
      as [Rows _].
    cbv zeta in Rows. apply Rows in Hp.
    destruct Hp as [_ [Mode [Name _]]]. split.
    + destruct Mode as [[_ [u [Hu Hk]]] | [[Hf | Hf] _]].
      * injection Hu as <-. exact Hk.
      * exfalso. apply Hf. reflexivity.
      * discriminate Hf.
    + apply (Name "EX"); [reflexivity | discriminate].
  - pose proof (C7_gallery_listing None nine_pets_db (visitor_request []))
      as [_ [_ [_ [_ [_ First]]]]].
    cbv zeta in First.
    split; [rewrite (First (or_intror eq_refl)); reflexivity | ].
    repeat split; reflexivity.
Defined.

(** C10 (the mine filter without a login).  For a requester who is not
    authenticated, the listing is the one of the same request without the
    filter parameter, whatever that parameter says: the available records
    that pass the name and species filters, and only those.  With a visitor
    session the view answers as it answers the request without the
    parameter: with the page asked for, and with 404 when the listing has no
    such page; the first page always exists.  It answers neither with a
    redirection nor with a refusal nor with an exception. *)
Theorem C10_mine_filter_anonymous
    (static_build : option string) (db : Database) (request : HttpRequest)
    (Hanon : is_authenticated (request_user request) = false) :
  let listing := PetListView_get_queryset db request in
  let page := paginate_queryset listing
                (PetListView_get_paginate_by static_build) in
  listing = PetListView_get_queryset db (without_param "filtro" request)
  /\ (forall p,
        In p listing
        <-> In p (pets db) /\ status p = DISPONIVEL
            /\ (forall v, QueryDict_get (GET request) "nome" = Some v ->
                  v <> "" ->
                  exists before rest,
                    Py.lower (nome p) = (before ++ Py.lower v ++ rest)%string)
            /\ (forall v, QueryDict_get (GET request) "especie" = Some v ->
                  v <> "" -> especie_value (especie p) = v))
  /\ (session_is_visitor request = true ->
      PetListView_get static_build db request
      = PetListView_get static_build db (without_param "filtro" request)
      /\ PetListView_get static_build db request
         = match page (page_number request) with
           | Some shown => Ok (Rendered shown)
           | None => Ok PageNotFound
           end
      /\ page 1
         = Some (if opt_truthy static_build then listing else firstn 8 listing)).
Proof.
  cbv zeta.
  assert (Anon : request_user request = AnonymousUser)
    by (destruct (request_user request); [reflexivity | discriminate]).
  assert (C : forall p, gallery_condition request p
                        = gallery_condition (without_param "filtro" request) p).
  { intros p. unfold gallery_condition, mine_requested. simpl.
    rewrite Hanon, !andb_false_r.
    rewrite !QueryDict_get_without_other by discriminate. reflexivity. }
  assert (E : PetListView_get_queryset db request
              = PetListView_get_queryset db (without_param "filtro" request)).
  { rewrite !PetListView_get_queryset_condition. f_equal.
    apply filter_ext. exact C. }
  split; [exact E | ]. split.
  - intros p. rewrite PetListView_get_queryset_In, gallery_condition_spec.
    split.
    + intros [Hin [[[_ [u [Hu _]]] | [_ St]] [N S]]]; [congruence | ].
      repeat split; assumption.
    + intros [Hin [St [N S]]]. split; [exact Hin | ].
      split; [right; split; [now right | exact St] | split; assumption].
  - intros Hv. unfold PetListView_get, VisitorOrUserRequiredMixin_dispatch.
    simpl. rewrite Hv, Hanon, <- E. simpl.
    split; [reflexivity | ]. split; [reflexivity | ].
    unfold PetListView_get_paginate_by.
    destruct (opt_truthy static_build); [reflexivity | ].
    unfold PetListView_paginate_by. rewrite paginate_queryset_page.
    assert (P : 1 <= num_pages
                       (List.length (PetListView_get_queryset db request)) 8)
      by (unfold num_pages; lia).
    apply Nat.leb_le in P. rewrite P. simpl. reflexivity.
Qed.

Lemma C10_mine_filter_anonymous_witness :
  is_authenticated (request_user (visitor_request [("filtro", "meus")])) = false
  /\ PetListView_get_queryset three_pets_db (visitor_request [("filtro", "meus")])
     = [rex]
  /\ PetListView_get None three_pets_db (visitor_request [("filtro", "meus")])
     = PetListView_get None three_pets_db (visitor_request [])
  /\ PetListView_get None three_pets_db (visitor_request [("filtro", "meus")])
     = Ok (Rendered [rex])
  /\ PetListView_get None three_pets_db
       (mkRequest [("filtro", "meus")] AnonymousUser true 2)
     = Ok PageNotFound.
Proof.
  assert (Hanon : is_authenticated
                    (request_user (visitor_request [("filtro", "meus")])) = false)
    by reflexivity.
  pose proof (C10_mine_filter_anonymous None three_pets_db
                (visitor_request [("filtro", "meus")]) Hanon)
    as [_ [_ Visitor]].
  cbv zeta in Visitor.
  split; [exact Hanon | ]. split; [reflexivity | ].
  split; [exact (proj1 (Visitor eq_refl)) | ].
  split; [rewrite (proj1 (proj2 (Visitor eq_refl))); reflexivity | reflexivity].
Defined.

(* ================================================================== *)
(** ** The report                                                      *)
(* ================================================================== *)

Lemma find_status_none (v : string) (l : list StatusChoices) :
  Py.str_in v (map status_value l) = false ->
  find (fun s => String.eqb (status_value s) v) l = None.
Proof.
  unfold Py.str_in. induction l as [|s r IH]; cbn [map existsb find];
    [reflexivity | ].
  rewrite (String.eqb_sym v). intros H. apply orb_false_iff in H.
  destruct H as [H1 H2]. rewrite H1. now apply IH.
Qed.

Lemma find_status_some (v : string) (l : list StatusChoices) :
  Py.str_in v (map status_value l) = true ->
  exists s, find (fun s => String.eqb (status_value s) v) l = Some s
            /\ status_value s = v.
Proof.
  unfold Py.str_in. induction l as [|s r IH]; cbn [map existsb find];
    [discriminate | ].
  rewrite (String.eqb_sym v).
  destruct (String.eqb_spec (status_value s) v) as [Heq | Hne].
  - intros _. now exists s.
  - cbn [orb]. exact IH.
Qed.

Lemma StatusChoices_of_value_invalid (v : string) :
  Py.str_in v (map status_value StatusChoices_choices) = false ->
  StatusChoices_of_value v = Raise ValueError.
Proof.
  intros H. unfold StatusChoices_of_value. now rewrite (find_status_none _ _ H).
Qed.

Lemma StatusChoices_of_value_valid (v : string) :
  Py.str_in v (map status_value StatusChoices_choices) = true ->
  exists s, StatusChoices_of_value v = Ok s /\ status_value s = v.
Proof.
  intros H. destruct (find_status_some _ _ H) as [s [F E]].
  exists s. unfold StatusChoices_of_value. now rewrite F.
Qed.

(** The listing of the report filters by one status: the one the parameter
    names, pending when it names none or is absent, newest update first. *)
Lemma RelatorioPetView_get_queryset_by_status (db : Database)
      (request : HttpRequest) :
  RelatorioPetView_get_queryset db request
  = order_by_desc data_atualizacao
      (filter (fun p => status_eqb (status p) (report_status request)) (pets db))
  /\ sorted_desc data_atualizacao (RelatorioPetView_get_queryset db request)
  /\ forall p, In p (RelatorioPetView_get_queryset db request)
               <-> In p (pets db) /\ status p = report_status request.
Proof.
  assert (E : RelatorioPetView_get_queryset db request
              = order_by_desc data_atualizacao
                  (filter (fun p => status_eqb (status p) (report_status request))
                          (pets db))).
  { unfold RelatorioPetView_get_queryset, qs_list. f_equal.
    apply filter_ext. intros p. unfold status_eqb, report_status. f_equal.
    destruct (Py.str_in (status_param request)
                (map status_value StatusChoices_choices)) eqn:V; cbn [negb].
    - destruct (find_status_some _ _ V) as [s [F Hv]]. now rewrite F.
    - now rewrite (find_status_none _ _ V). }
  split; [exact E | ]. split.
  - rewrite E. apply order_by_desc_sorted.
  - intros p. rewrite E. rewrite <- status_eqb_eq.
    rewrite <- (filter_In (fun p => status_eqb (status p) (report_status request))).
    split; apply Permutation_in;
      [ | apply Permutation_sym]; apply order_by_desc_perm.
Qed.

(** When the parameter is absent or names a status, the page is rendered
    with the listing and with one count per status. *)
Lemma RelatorioPetView_get_valid (db : Database) (request : HttpRequest) :
  StaffRequiredMixin_test_func request = true ->
  Py.str_in (status_param request) (map status_value StatusChoices_choices) = true ->
  exists context,
    RelatorioPetView_get db request = Ok (Rendered context)
    /\ object_list context = RelatorioPetView_get_queryset db request
    /\ page_title_status context = report_status request
    /\ map fst (counts context)
       = map (fun s => Py.lower (status_value s)) StatusChoices_choices
    /\ forall s, In s StatusChoices_choices ->
         In (Py.lower (status_value s),
             List.length (filter (fun p => status_eqb (status p) s) (pets db)))
            (counts context).
Proof.
  intros Hstaff V.
  unfold RelatorioPetView_get, StaffRequiredMixin_dispatch,
         RelatorioPetView_get_context_data.
  rewrite Hstaff.
  destruct (StatusChoices_of_value_valid _ V) as [s [Hs Hv]].
  rewrite Hs. simpl. eexists. split; [reflexivity | ].
  split; [reflexivity | ]. split.
  - cbn [page_title_status]. unfold report_status.
    destruct (find_status_some _ _ V) as [s0 [F _]].
    unfold StatusChoices_of_value in Hs. rewrite F in Hs |- *.
    now injection Hs.
  - split; [reflexivity | ].
    intros s' Hs'. simpl in Hs'. simpl.
    destruct Hs' as [<- | [<- | [<- | [<- | []]]]]; tauto.
Qed.

(** C3 (the status parameter of the report).  For a staff request whose
    status parameter, uppercased, names no status, [get_queryset] falls back
    to the listing of the request without the parameter, but the view as a
    whole raises [ValueError] while building the context, whereas the request
    without the parameter is rendered. *)
Theorem C3_invalid_status_raises
    (db : Database) (request : HttpRequest) (v : string)
    (Hstaff : StaffRequiredMixin_test_func request = true)
    (Hparam : QueryDict_get (GET request) "status" = Some v)
    (Hinvalid : Py.str_in (Py.upper v) (map status_value StatusChoices_choices)
                = false) :
  RelatorioPetView_get_queryset db request
  = RelatorioPetView_get_queryset db (without_param "status" request)
  /\ RelatorioPetView_get db request = Raise ValueError
  /\ exists context,
       RelatorioPetView_get db (without_param "status" request)
       = Ok (Rendered context)
       /\ object_list context = RelatorioPetView_get_queryset db request.
Proof.
  assert (P : status_param request = Py.upper v)
    by (unfold status_param; now rewrite Hparam).
  assert (P' : status_param (without_param "status" request) = "PENDENTE").
  { unfold status_param, without_param. simpl.
    now rewrite QueryDict_get_without_same. }
  assert (E : RelatorioPetView_get_queryset db request
              = RelatorioPetView_get_queryset db (without_param "status" request)).
  { unfold RelatorioPetView_get_queryset. rewrite P, P', Hinvalid. reflexivity. }
  split; [exact E | ]. split.
  - unfold RelatorioPetView_get, StaffRequiredMixin_dispatch,
           RelatorioPetView_get_context_data.
    rewrite Hstaff, P, (StatusChoices_of_value_invalid _ Hinvalid). reflexivity.
  - destruct (RelatorioPetView_get_valid db (without_param "status" request))
      as [context [R [O _]]].
    + exact Hstaff.
    + now rewrite P'.
    + exists context. split; [exact R | now rewrite O, E].
Qed.

Lemma C3_invalid_status_raises_witness :
  StaffRequiredMixin_test_func (staff_request [("status", "foo")]) = true
  /\ QueryDict_get (GET (staff_request [("status", "foo")])) "status" = Some "foo"
  /\ Py.str_in (Py.upper "foo") (map status_value StatusChoices_choices) = false
  /\ RelatorioPetView_get_queryset three_pets_db (staff_request [("status", "foo")])
     = [luna; bob]
  /\ RelatorioPetView_get three_pets_db (staff_request [("status", "foo")])
     = Raise ValueError
  /\ exists context,
       RelatorioPetView_get three_pets_db (staff_request [])
       = Ok (Rendered context)
       /\ object_list context = [luna; bob].
Proof.
  pose proof (C3_invalid_status_raises three_pets_db
                (staff_request [("status", "foo")]) "foo"
                eq_refl eq_refl eq_refl)
    as [_ [Raises Default]].
  split; [reflexivity | ]. split; [reflexivity | ]. split; [reflexivity | ].
  split; [reflexivity | ]. split; [exact Raises | exact Default].
Defined.

(* ================================================================== *)
(** ** The store under [Pet.save]                                      *)
(* ================================================================== *)

Lemma NoDup_snoc {B : Type} (l : list B) (x : B) :
  NoDup l -> ~ In x l -> NoDup (l ++ [x]).
Proof.
  intros ND Hx. apply (Permutation_NoDup (Permutation_cons_append l x)).
  now constructor.
Qed.

Lemma especie_eqb_eq (a b : EspecieChoices) : especie_eqb a b = true <-> a = b.
Proof. destruct a, b; simpl; split; intros H; try reflexivity; discriminate. Qed.

Lemma next_pet_pk_above (db : Database) (q : Pet) (j : Z) :
  In q (pets db) -> pk q = Some j -> (j < next_pet_pk db)%Z.
Proof.
  unfold next_pet_pk. induction (pets db) as [|p l IH]; cbn [fold_right In];
    [tauto | ].
  intros [-> | Hin] Hj.
  - rewrite Hj. lia.
  - specialize (IH Hin Hj). destruct (pk p); lia.
Qed.

(** What the uniqueness test of the store grants when it passes. *)
Lemma violates_unique_false (db : Database) (p q : Pet) :
  violates_unique db p = false -> In q (pets db) -> same_row p q = false ->
  slug q <> slug p /\ (nome q, especie q) <> (nome p, especie p).
Proof.
  unfold violates_unique. intros H Hin Hrow.
  assert (Hq : negb (same_row p q)
               && (String.eqb (slug q) (slug p)
                   || (String.eqb (nome q) (nome p)
                       && especie_eqb (especie q) (especie p))) = false).
  { destruct (negb (same_row p q) && _) eqn:E; [ | reflexivity].
    assert (X : existsb (fun q => negb (same_row p q)
                  && (String.eqb (slug q) (slug p)
                      || (String.eqb (nome q) (nome p)
                          && especie_eqb (especie q) (especie p))))
                  (pets db) = true)
      by (apply existsb_exists; now exists q).
    congruence. }
  rewrite Hrow in Hq. cbn [negb andb] in Hq.
  apply orb_false_iff in Hq. destruct Hq as [Hs Hn]. split.
  - now apply String.eqb_neq.
  - intros E. injection E as En Ee.
    apply String.eqb_eq in En. apply especie_eqb_eq in Ee.
    rewrite En, Ee in Hn. discriminate.
Qed.

(** Replacing the one selected row of a table keeps a key column free of
    duplicates, when no other row has the key of the new row. *)
Lemma replace_row_NoDup {B C : Type} (f : Pet -> B) (g : Pet -> C) (c : C)
      (sel : Pet -> bool) (x : Pet) (l : list Pet) :
  NoDup (map g l) -> (forall q, sel q = true -> g q = c) ->
  NoDup (map f l) ->
  (forall q, In q l -> sel q = false -> f q <> f x) ->
  NoDup (map f (map (fun q => if sel q then x else q) l)).
Proof.
  intros NDg Hsel. induction l as [|q r IH]; intros NDf Hx; simpl;
    [constructor | ].
  inversion NDg as [|? ? Hgq NDg']; subst.
  inversion NDf as [|? ? Hfq NDf']; subst.
  assert (IHr : NoDup (map f (map (fun q => if sel q then x else q) r)))
    by (apply IH; [exact NDg' | exact NDf' | intros q' Hq'; apply Hx; now right]).
  destruct (sel q) eqn:Sq.
  - assert (Same : map (fun q => if sel q then x else q) r = r).
    { rewrite <- (map_id r) at 2. apply map_ext_in. intros q' Hq'.
      destruct (sel q') eqn:Sq'; [exfalso | reflexivity].
      apply Hgq. rewrite (Hsel q Sq), <- (Hsel q' Sq'). now apply in_map. }
    rewrite Same. constructor; [ | exact NDf'].
    intros Hin. apply in_map_iff in Hin. destruct Hin as [q' [E Hq']].
    destruct (sel q') eqn:Sq'.
    + apply Hgq. rewrite (Hsel q Sq), <- (Hsel q' Sq'). now apply in_map.
    + apply (Hx q'); [now right | exact Sq' | exact E].
  - constructor; [ | exact IHr].
    intros Hin. apply in_map_iff in Hin. destruct Hin as [y [E Hy]].
    apply in_map_iff in Hy. destruct Hy as [q' [Ey Hq']].
    destruct (sel q'); subst y.
    + apply (Hx q); [now left | exact Sq | now symmetry].
    + apply Hfq. rewrite <- E. now apply in_map.
Qed.

Lemma has_pk_true (k : Z) (q : Pet) : has_pk k q = true <-> pk q = Some k.
Proof.
  unfold has_pk. destruct (pk q) as [j|]; [ | split; discriminate].
  rewrite Z.eqb_eq. split; congruence.
Qed.

Lemma same_row_has_pk (p q : Pet) (k : Z) :
  pk p = Some k -> same_row p q = has_pk k q.
Proof.
  intros H. unfold same_row, has_pk. rewrite H.
  destruct (pk q); [apply Z.eqb_sym | reflexivity].
Qed.

(** [Model.save] keeps the schema guarantees: the rows of the result have
    keys, and keys, slugs and (name, species) pairs stay pairwise
    different. *)
Lemma Model_save_store_ok (now : Z) (db db1 : Database) (p saved : Pet) :
  store_ok db -> Model_save now db p = Ok (db1, saved) -> store_ok db1.
Proof.
  intros [Keys [NDk [NDs NDn]]]. unfold Model_save.
  destruct (violates_unique db p) eqn:V; [discriminate | ].
  pose proof (violates_unique_false db p) as U. specialize (U).
  destruct (pk p) as [k|] eqn:Hpk.
  - destruct (existsb (has_pk k) (pets db)) eqn:Ex; intros H;
      injection H as <- <-; unfold store_ok; cbn [pets].
    + assert (Other : forall q, In q (pets db) -> has_pk k q = false ->
                slug q <> slug p /\ (nome q, especie q) <> (nome p, especie p)).
      { intros q Hq Hk. apply (U q V Hq).
        now rewrite (same_row_has_pk p q k Hpk). }
      assert (Sel : forall q, has_pk k q = true -> pk q = Some k)
        by (intros q; apply has_pk_true).
      split; [ | split; [ | split]].
      * apply Forall_forall. intros y Hy. apply in_map_iff in Hy.
        destruct Hy as [q [<- Hq]]. destruct (has_pk k q).
        -- simpl. rewrite Hpk. discriminate.
        -- rewrite Forall_forall in Keys. now apply Keys.
      * apply (replace_row_NoDup pk pk (Some k)); try assumption.
        intros q _ Hk E. simpl in E. rewrite Hpk in E.
        apply has_pk_true in E. congruence.
      * apply (replace_row_NoDup slug pk (Some k)); try assumption.
        intros q Hq Hk. exact (proj1 (Other q Hq Hk)).
      * apply (replace_row_NoDup (fun p => (nome p, especie p)) pk (Some k));
          try assumption.
        intros q Hq Hk. exact (proj2 (Other q Hq Hk)).
    + assert (NoRow : forall q, In q (pets db) -> has_pk k q = false).
      { intros q Hq. destruct (has_pk k q) eqn:E; [ | reflexivity].
        assert (X : existsb (has_pk k) (pets db) = true)
          by (apply existsb_exists; now exists q).
        congruence. }
      assert (Other : forall q, In q (pets db) ->
                slug q <> slug p /\ (nome q, especie q) <> (nome p, especie p)).
      { intros q Hq. apply (U q V Hq).
        rewrite (same_row_has_pk p q k Hpk). now apply NoRow. }
      rewrite !map_app. cbn [map].
      split; [ | split; [ | split]].
      * apply Forall_app. split; [exact Keys | ].
        constructor; [ | constructor]. simpl. rewrite Hpk. discriminate.
      * apply NoDup_snoc; [exact NDk | ]. simpl. rewrite Hpk.
        intros Hin. apply in_map_iff in Hin. destruct Hin as [q [E Hq]].
        apply has_pk_true in E. rewrite (NoRow q Hq) in E. discriminate.
      * apply NoDup_snoc; [exact NDs | ].
        intros Hin. apply in_map_iff in Hin. destruct Hin as [q [E Hq]].
        now apply (proj1 (Other q Hq)).
      * apply NoDup_snoc; [exact NDn | ].
        intros Hin. apply in_map_iff in Hin. destruct Hin as [q [E Hq]].
        now apply (proj2 (Other q Hq)).
  - intros H. injection H as <- <-. unfold store_ok. cbn [pets].
    assert (Other : forall q, In q (pets db) ->
              slug q <> slug p /\ (nome q, especie q) <> (nome p, especie p)).
    { intros q Hq. apply (U q V Hq). unfold same_row. now rewrite Hpk. }
    rewrite !map_app. cbn [map].
    split; [ | split; [ | split]].
    + apply Forall_app. split; [exact Keys | ].
      constructor; [discriminate | constructor].
    + apply NoDup_snoc; [exact NDk | ]. cbn [pk set_pk].
      intros Hin. apply in_map_iff in Hin. destruct Hin as [q [E Hq]].
      pose proof (next_pet_pk_above db q _ Hq E). lia.
    + apply NoDup_snoc; [exact NDs | ].
      intros Hin. apply in_map_iff in Hin. destruct Hin as [q [E Hq]].
      now apply (proj1 (Other q Hq)).
    + apply NoDup_snoc; [exact NDn | ].
      intros Hin. apply in_map_iff in Hin. destruct Hin as [q [E Hq]].
      now apply (proj2 (Other q Hq)).
Qed.

Lemma Pet_save_is_Model_save (slugify : string -> string) (fuel : nat) (now : Z)
      (db db1 : Database) (p saved : Pet) :
  Pet_save slugify fuel now db p = Ok (db1, saved) ->
  exists s, Model_save now db (set_slug s p) = Ok (db1, saved)
            /\ (slug p <> "" -> s = slug p).
Proof.
  unfold Pet_save. destruct (slug p) as [|c r] eqn:Hs; cbn [Py.truthy negb].
  - destruct (slug_loop fuel db (slugify (nome p)) (slugify (nome p)) 1)
      as [s| |]; cbn [bind]; try discriminate.
    intros H. exists s. split; [exact H | congruence].
  - cbn [bind]. intros H. exists (String c r). split; [ | reflexivity].
    rewrite <- H. f_equal. destruct p; simpl in *. now subst.
Qed.

Lemma Pet_save_store_ok (slugify : string -> string) (fuel : nat) (now : Z)
      (db db1 : Database) (p saved : Pet) :
  store_ok db -> Pet_save slugify fuel now db p = Ok (db1, saved) ->
  store_ok db1.
Proof.
  intros Hok H. apply Pet_save_is_Model_save in H. destruct H as [s [H _]].
  exact (Model_save_store_ok _ _ _ _ _ Hok H).
Qed.

Lemma filter_absent_slug (l : list Pet) (s : string) :
  ~ In s (map slug l) -> filter (fun p => String.eqb (slug p) s) l = [].
Proof.
  induction l as [|a r IH]; simpl; [reflexivity | ].
  intros H. destruct (String.eqb_spec (slug a) s) as [E | _].
  - exfalso. apply H. now left.
  - apply IH. intros Hin. apply H. now right.
Qed.

(** In a column without duplicates, filtering on the key of a row of the
    table gives that row alone. *)
Lemma filter_unique_slug (l : list Pet) (x : Pet) :
  NoDup (map slug l) -> In x l ->
  filter (fun p => String.eqb (slug p) (slug x)) l = [x].
Proof.
  induction l as [|q r IH]; simpl; [tauto | ].
  intros ND Hin. inversion ND as [|? ? Hq ND']; subst.
  destruct Hin as [-> | Hin].
  - rewrite String.eqb_refl. now rewrite (filter_absent_slug r (slug x) Hq).
  - destruct (String.eqb_spec (slug q) (slug x)) as [E | _].
    + exfalso. apply Hq. rewrite E. now apply in_map.
    + now apply IH.
Qed.


Lemma three_pets_db_ok : store_ok three_pets_db.
Proof.
  unfold store_ok, three_pets_db. cbn [pets map].
  split; [ | split; [ | split]].
  - repeat constructor; discriminate.
  - repeat constructor; simpl; intuition discriminate.
  - repeat constructor; simpl; intuition discriminate.
  - repeat constructor; simpl; intuition discriminate.
Qed.

Lemma luna_gallery_db_ok : store_ok luna_gallery_db.
Proof. exact three_pets_db_ok. Qed.

Lemma adicionar_db_ok : store_ok adicionar_db.
Proof.
  unfold store_ok, adicionar_db. cbn [pets map].
  split; [ | split; [ | split]].
  - repeat constructor; discriminate.
  - repeat constructor; simpl; intuition discriminate.
  - repeat constructor; simpl; intuition discriminate.
  - repeat constructor; simpl; intuition discriminate.
Qed.

(** X1 ([Pet.save] keeps the table of pets well formed).  When every stored
    pet has a key and keys, slugs and (name, species) pairs are pairwise
    different, a successful [Pet.save], be it an insertion or an update,
    leaves a table with the same guarantees, and the saved object is one of
    its rows. *)
Theorem X1_save_keeps_store_ok
    (slugify : string -> string) (fuel : nat) (now : Z)
    (db db1 : Database) (p saved : Pet)
    (Hok : store_ok db)
    (Hsave : Pet_save slugify fuel now db p = Ok (db1, saved)) :
  store_ok db1 /\ In saved (pets db1).
Proof.
  split; [exact (Pet_save_store_ok _ _ _ _ _ _ _ Hok Hsave) | ].
  now apply Pet_save_effects in Hsave.
Qed.

Lemma X1_save_keeps_store_ok_witness :
  exists db1 saved,
    Pet_save sample_slugify 4 40 three_pets_db rex_cat = Ok (db1, saved)
    /\ store_ok db1 /\ In saved (pets db1).
Proof.
  eexists. eexists. split; [vm_compute; reflexivity | ].
  match goal with
  | |- store_ok ?d /\ In ?s _ =>
      exact (X1_save_keeps_store_ok sample_slugify 4 40 three_pets_db d
               rex_cat s three_pets_db_ok eq_refl)
  end.
Defined.



(** X3 (a saved pet is found under its slug).  After a successful
    [Pet.save] into a well-formed table, looking the saved slug up gives the
    saved object and nothing else, and the detail view renders it, titled
    with its name, for every requester that passes the gate. *)
Theorem X3_saved_pet_found_by_slug
    (slugify : string -> string) (fuel : nat) (now : Z)
    (db db1 : Database) (p saved : Pet) (request : HttpRequest)
    (Hok : store_ok db)
    (Hsave : Pet_save slugify fuel now db p = Ok (db1, saved))
    (Hgate : is_authenticated (request_user request)
             || session_is_visitor request = true) :
  get_object db1 (slug saved) = Found saved
  /\ PetDetailView_get db1 request (slug saved)
     = Page (mkDetail saved (session_is_visitor request) (nome saved)).
Proof.
  assert (G : get_object db1 (slug saved) = Found saved).
  { unfold get_object.
    pose proof (Pet_save_store_ok _ _ _ _ _ _ _ Hok Hsave) as [_ [_ [NDs _]]].
    apply Pet_save_effects in Hsave. destruct Hsave as [_ [Hin _]].
    now rewrite (filter_unique_slug _ _ NDs Hin). }
  split; [exact G | ].
  unfold PetDetailView_get. rewrite G.
  destruct (is_authenticated (request_user request)),
           (session_is_visitor request); try reflexivity; discriminate.
Qed.

Lemma X3_saved_pet_found_by_slug_witness :
  exists db1 saved,
    Pet_save sample_slugify 4 40 three_pets_db rex_cat = Ok (db1, saved)
    /\ get_object db1 "rex-1" = Found saved
    /\ PetDetailView_get db1 (visitor_request []) "rex-1"
       = Page (mkDetail saved true "Rex").
Proof.
  eexists. eexists. split; [vm_compute; reflexivity | ].
  match goal with
  | |- get_object ?d _ = Found ?s /\ _ =>
      exact (X3_saved_pet_found_by_slug sample_slugify 4 40 three_pets_db d
               rex_cat s (visitor_request []) three_pets_db_ok eq_refl eq_refl)
  end.
Defined.

(* ================================================================== *)
(** ** The checks of the gallery files                                 *)
(* ================================================================== *)

Lemma validate_file_size_Ok (file_obj : UploadedFile) (max_size_mb : Z) :
  _validate_file_size file_obj max_size_mb = Ok tt
  <-> (size file_obj <= max_size_mb * 1024 * 1024)%Z.
Proof.
  unfold _validate_file_size.
  destruct (Z.gtb_spec (size file_obj) (max_size_mb * 1024 * 1024)) as [Gt | Le];
    split; intros H; try reflexivity; try discriminate; lia.
Qed.

Lemma validate_extra_files_Ok (K : Constants) (extra_files : list UploadedFile) :
  validate_extra_files K extra_files = Ok tt
  <-> Forall (extra_file_ok K) extra_files.
Proof.
  induction extra_files as [|f r IH]; cbn [validate_extra_files].
  - split; [constructor | reflexivity].
  - unfold extra_file_ok at 1. rewrite Forall_cons_iff, <- IH.
    unfold extra_file_ok.
    rewrite <- validate_file_extension_Ok, <- validate_file_size_Ok.
    destruct (_validate_file_extension (name f) (ALLOWED_IMAGE_EXTENSIONS K))
      as [[]| |]; cbn [bind];
      [ | split; [discriminate | intros [[H _] _]; discriminate]
        | split; [discriminate | intros [[H _] _]; discriminate]].
    destruct (_validate_file_size f (MAX_ADDITIONAL_IMAGE_SIZE_MB K))
      as [[]| |]; cbn [bind];
      [tauto
      | split; [discriminate | intros [[_ H] _]; discriminate]
      | split; [discriminate | intros [[_ H] _]; discriminate]].
Qed.

(** X4 (the loop over the gallery files).  The loop of [clean] accepts a
    batch exactly when every file has an allowed extension and a size of at
    most the ceiling in megabytes times 1024 * 1024 bytes, the ceiling
    included.  Otherwise it raises the error of the first file that fails,
    and for that file the extension is judged before the size. *)
Theorem X4_gallery_files_check
    (K : Constants) (good rest : list UploadedFile) (bad : UploadedFile) :
  (validate_extra_files K (good ++ rest) = Ok tt
   <-> Forall (extra_file_ok K) (good ++ rest))
  /\ (Forall (extra_file_ok K) good -> ~ extra_file_ok K bad ->
      validate_extra_files K (good ++ bad :: rest)
      = Raise (ValidationError
                 (if Py.str_in (file_extension (name bad))
                               (ALLOWED_IMAGE_EXTENSIONS K)
                  then FileTooLarge (name bad) (MAX_ADDITIONAL_IMAGE_SIZE_MB K)
                  else InvalidFormat (file_extension (name bad))))).
Proof.
  split; [apply validate_extra_files_Ok | ].
  intros Hgood Hbad. induction Hgood as [|f l Hf _ IH]; cbn [app].
  - cbn [validate_extra_files].
    unfold extra_file_ok in Hbad.
    unfold _validate_file_extension at 1.
    destruct (Py.str_in (file_extension (name bad))
                        (ALLOWED_IMAGE_EXTENSIONS K)) eqn:E;
      cbn [negb bind]; [ | reflexivity].
    apply str_in_In in E.
    destruct (_validate_file_size bad (MAX_ADDITIONAL_IMAGE_SIZE_MB K))
      as [[]| |] eqn:S.
    + exfalso. apply Hbad. split; [exact E | now apply validate_file_size_Ok].
    + unfold _validate_file_size in S.
      destruct (_ >? _)%Z; [ | discriminate]. now injection S as <-.
    + unfold _validate_file_size in S. destruct (_ >? _)%Z; discriminate.
  - cbn [validate_extra_files]. destruct Hf as [He Hs].
    apply validate_file_extension_Ok in He. rewrite He. cbn [bind].
    apply validate_file_size_Ok in Hs. rewrite Hs. cbn [bind]. exact IH.
Qed.

Lemma X4_gallery_files_check_witness :
  validate_extra_files site_constants
    [mkFile "a.png" 5242880; mkFile "b.JPG" 0] = Ok tt
  /\ validate_extra_files site_constants
       [mkFile "a.png" 5242880; mkFile "big.gif" 5242881; mkFile "c.exe" 1]
     = Raise (ValidationError (InvalidFormat "gif"))
  /\ validate_extra_files site_constants
       [mkFile "a.png" 5242880; mkFile "big.png" 5242881; mkFile "c.exe" 1]
     = Raise (ValidationError (FileTooLarge "big.png" 5)).
Proof.
  assert (Good : Forall (extra_file_ok site_constants) [mkFile "a.png" 5242880]).
  { constructor; [ | constructor]. split; [simpl; tauto | vm_compute; discriminate]. }
  split; [reflexivity | ]. split.
  - apply (proj2 (X4_gallery_files_check site_constants
                    [mkFile "a.png" 5242880] [mkFile "c.exe" 1]
                    (mkFile "big.gif" 5242881)) Good).
    intros [H _]. simpl in H. intuition discriminate.
  - apply (proj2 (X4_gallery_files_check site_constants
                    [mkFile "a.png" 5242880] [mkFile "c.exe" 1]
                    (mkFile "big.png" 5242881)) Good).
    intros [_ H]. vm_compute in H. now apply H.
Defined.

(** X5 (the count check, exactly).  [clean] raises the count error exactly
    when new gallery files were sent and their number plus the number of
    photos stored when the form was built exceeds the maximum; the reported
    maximum is the configured one.  The check comes before the checks of the
    files, and a submission without new files never meets it, however many
    photos are stored. *)
Theorem X5_count_check_exact (K : Constants) (self : PetForm) (m : nat) :
  (clean K self = Raise (ValidationError (TooManyPhotos m))
   <-> post_fotos_adicionais (data self) <> []
       /\ MAX_ADDITIONAL_PHOTOS K
          < List.length (post_fotos_adicionais (data self))
            + _existing_extra_photos self
       /\ m = MAX_ADDITIONAL_PHOTOS K)
  /\ (post_fotos_adicionais (data self) = [] ->
      clean K self <> Raise (ValidationError (TooManyPhotos m))).
Proof.
  split; [apply clean_count_rejection | ].
  intros Hnone H. apply clean_count_rejection in H. now destruct H.
Qed.

Lemma X5_count_check_exact_witness :
  clean site_constants
    (PetForm_init empty_db (Some owner) new_pet
       (mkPost "Mel" GATO None "" 2 "Doce" None None
               [mkFile "1.exe" 1; mkFile "2.exe" 1; mkFile "3.exe" 1;
                mkFile "4.exe" 1; mkFile "5.exe" 1; mkFile "6.exe" 1] []))
  = Raise (ValidationError (TooManyPhotos 5))
  /\ clean site_constants
       (PetForm_init luna_gallery_db (Some owner) rex plain_edit_post)
     <> Raise (ValidationError (TooManyPhotos 5)).
Proof.
  split.
  - apply (proj1 (X5_count_check_exact site_constants _ 5)).
    split; [discriminate | ]. split; [vm_compute; lia | reflexivity].
  - apply (proj2 (X5_count_check_exact site_constants
                    (PetForm_init luna_gallery_db (Some owner) rex
                       plain_edit_post) 5)).
    reflexivity.
Defined.

(* ================================================================== *)
(** ** What a commit does to the store                                 *)
(* ================================================================== *)

Lemma Model_save_fields (now : Z) (db db1 : Database) (p saved : Pet) :
  Model_save now db p = Ok (db1, saved) ->
  pk saved = Some (match pk p with Some k => k | None => next_pet_pk db end)
  /\ solicitante saved = solicitante p
  /\ nome saved = nome p /\ especie saved = especie p
  /\ forall q, In q (pets db) -> pk q <> pk saved -> In q (pets db1).
Proof.
  unfold Model_save. destruct (violates_unique db p); [discriminate | ].
  destruct (pk p) as [k|] eqn:Hpk.
  - destruct (existsb (has_pk k) (pets db)); intros H; injection H as <- <-;
      cbn [pets pk solicitante nome especie set_data_atualizacao];
      rewrite Hpk; repeat split.
    + intros q Hq Hne. apply in_map_iff. exists q. split; [ | exact Hq].
      destruct (has_pk k q) eqn:E; [ | reflexivity].
      apply has_pk_true in E. congruence.
    + intros q Hq _. apply in_or_app. now left.
  - intros H. injection H as <- <-. cbn. repeat split.
    intros q Hq _. apply in_or_app. now left.
Qed.

Lemma Pet_save_fields (slugify : string -> string) (fuel : nat) (now : Z)
      (db db1 : Database) (p saved : Pet) :
  Pet_save slugify fuel now db p = Ok (db1, saved) ->
  pk saved = Some (match pk p with Some k => k | None => next_pet_pk db end)
  /\ solicitante saved = solicitante p
  /\ nome saved = nome p /\ especie saved = especie p
  /\ forall q, In q (pets db) -> pk q <> pk saved -> In q (pets db1).
Proof.
  intros H. apply Pet_save_is_Model_save in H. destruct H as [s [H _]].
  apply Model_save_fields in H. exact H.
Qed.

Lemma prepared_pet_cases (self : PetForm) (u : User) :
  prepared_pet self u
  = match pk (instance self) with
    | None =>
        if negb (is_staff u)
        then set_status PENDENTE
               (set_solicitante (Some (user_pk u)) (construct_instance self))
        else set_solicitante (Some (user_pk u)) (construct_instance self)
    | Some _ => construct_instance self
    end.
Proof.
  unfold prepared_pet. cbv zeta.
  assert (E : pk (construct_instance self) = pk (instance self)) by reflexivity.
  destruct (pk (instance self)) as [k|] eqn:P; rewrite E.
  - rewrite E. now rewrite andb_false_r.
  - assert (E' : pk (set_solicitante (Some (user_pk u)) (construct_instance self))
                 = None) by exact P.
    rewrite E'. now rewrite andb_true_r.
Qed.

Lemma prepared_pet_fields (self : PetForm) (u : User) :
  pk (prepared_pet self u) = pk (instance self)
  /\ solicitante (prepared_pet self u)
     = match pk (instance self) with
       | None => Some (user_pk u)
       | Some _ => solicitante (instance self)
       end.
Proof.
  rewrite prepared_pet_cases.
  destruct (pk (instance self)) as [k|] eqn:P.
  - split; [exact P | reflexivity].
  - destruct (negb (is_staff u)); split; try reflexivity; exact P.
Qed.

Section CommitMore.

Variable K : Constants.
Variable slugify : string -> string.

(** The parts of a successful commit: the save of the prepared object, then
    the removal and the appended photos. *)
Lemma PetForm_save_commit (fuel : nat) (now : Z) (db db2 : Database)
      (self : PetForm) (saved : Pet) :
  PetForm_save K slugify fuel now db self true = Ok (db2, saved) ->
  exists (u : User) (db1 : Database) (added : list PetExtraPhoto),
    user self = Some u
    /\ is_valid K db self = true
    /\ Pet_save slugify fuel now db (prepared_pet self u) = Ok (db1, saved)
    /\ pets db2 = pets db1
    /\ fotos db2 = filter (kept (removal_selection self)) (fotos db) ++ added
    /\ List.length added = List.length (post_fotos_adicionais (data self))
    /\ forall k, pk saved = Some k ->
         Forall (fun f => foto_pet f = k) added
         /\ map ordem added
            = seq (List.length
                     (filter (of_pet k)
                        (filter (kept (removal_selection self)) (fotos db))) + 1)
                  (List.length (post_fotos_adicionais (data self))).
Proof.
  intros Hsave.
  assert (Huser : exists u, user self = Some u).
  { unfold PetForm_save in Hsave.
    destruct (ModelForm_save K db self); simpl in Hsave; try discriminate.
    destruct (user self) as [u|]; [now exists u | ].
    simpl in Hsave. destruct (pk a); discriminate. }
  destruct Huser as [u Hu]. exists u.
  rewrite (PetForm_save_with_user _ _ _ _ _ _ _ _ Hu) in Hsave.
  destruct (is_valid K db self) eqn:Valid; [ | discriminate].
  destruct (Pet_save slugify fuel now db (prepared_pet self u))
    as [[db1 q]| |] eqn:E; cbn [bind fst snd] in Hsave; try discriminate.
  destruct (_save_m2m_data K now db1 self q) as [d| |] eqn:E2;
    cbn [bind] in Hsave; try discriminate.
  injection Hsave as -> ->. exists db1.
  pose proof (save_m2m_data_pets _ _ _ _ _ _ E2) as P2.
  pose proof (Pet_save_effects _ _ _ _ _ _ _ E) as [_ [_ [F1 [k0 [Hk0 _]]]]].
  unfold _save_m2m_data in E2.
  destruct (cleaned_data_valid K db self Valid) as [CF CR].
  rewrite CF, CR, Hk0 in E2.
  set (sel := removal_selection self).
  set (db1' := match match remover_queryset self with
                     | Some _ => Some (post_fotos_extras_remover (data self))
                     | None => None
                     end with
               | Some (x :: xs) => delete_fotos db1 (x :: xs)
               | _ => db1
               end) in E2.
  assert (DF : fotos db1' = filter (kept sel) (fotos db)).
  { unfold db1', sel, removal_selection.
    destruct (remover_queryset self);
      [destruct (post_fotos_extras_remover (data self)) | ]; simpl;
      rewrite ?filter_kept_nil, ?F1; reflexivity. }
  destruct (post_fotos_adicionais (data self)) as [|f r] eqn:Files.
  - injection E2 as <-. exists [].
    split; [exact Hu | ]. split; [reflexivity | ]. split; [reflexivity | ].
    split; [exact P2 | ]. split; [rewrite app_nil_r; exact DF | ].
    split; [reflexivity | ]. intros k _. split; [constructor | reflexivity].
  - destruct (create_fotos_effects now k0 (f :: r) db1'
                (List.length (fotos_extras db1' k0) + 1))
      as [_ [_ [added [F [O [I A]]]]]].
    injection E2 as <-. exists added.
    split; [exact Hu | ]. split; [reflexivity | ]. split; [reflexivity | ].
    split; [exact P2 | ].
    split; [etransitivity; [exact F | now rewrite DF] | ].
    split; [rewrite <- (length_map ordem), O; apply length_seq | ].
    intros k Hk. rewrite Hk0 in Hk. injection Hk as <-.
    split; [exact A | ]. rewrite O. unfold fotos_extras, of_pet.
    now rewrite DF.
Qed.

(** [save] on a form without the removal field: with [commit] it is
    [Pet.save] on the prepared object and nothing more, for the gallery step
    finds neither a selection nor a file. *)
Lemma plain_form_save (fuel : nat) (now : Z) (db db2 : Database)
      (self : PetForm) (commit : bool) (saved : Pet) :
  remover_queryset self = None ->
  PetForm_save K slugify fuel now db self commit = Ok (db2, saved) ->
  exists u,
    user self = Some u
    /\ is_valid K db self = true
    /\ post_fotos_adicionais (data self) = []
    /\ if commit
       then Pet_save slugify fuel now db (prepared_pet self u) = Ok (db2, saved)
       else db2 = db /\ saved = prepared_pet self u.
Proof.
  intros R Hsave.
  destruct (PetForm_save_Ok_valid _ _ _ _ _ _ _ _ _ Hsave) as [Valid [u Hu]].
  exists u. split; [exact Hu | ]. split; [exact Valid | ].
  assert (Files : post_fotos_adicionais (data self) = []).
  { pose proof (is_valid_inv _ _ _ Valid) as [Fl _].
    now apply fields_valid_inv in Fl. }
  split; [exact Files | ].
  rewrite (PetForm_save_with_user _ _ _ _ _ _ _ _ Hu), Valid in Hsave.
  destruct commit; [ | injection Hsave as <- <-; split; reflexivity].
  destruct (Pet_save slugify fuel now db (prepared_pet self u))
    as [[db1 q]| |]; cbn [bind fst snd] in Hsave; try discriminate.
  unfold _save_m2m_data in Hsave.
  destruct (cleaned_data_valid K db self Valid) as [CF CR].
  rewrite CF, CR, Files, R in Hsave. cbn [bind] in Hsave.
  now injection Hsave as <- <-.
Qed.

(** The same for a form that the constructor returned. *)
Lemma built_form_save (fuel : nat) (now : Z) (db0 db db2 : Database)
      (uo : option User) (inst : Pet) (bound : PostData) (form : PetForm)
      (commit : bool) (saved : Pet) :
  PetForm_new db0 uo inst bound = Ok form ->
  PetForm_save K slugify fuel now db form commit = Ok (db2, saved) ->
  exists u,
    uo = Some u
    /\ form = PetForm_init db0 uo inst bound
    /\ is_valid K db form = true
    /\ post_fotos_adicionais bound = []
    /\ if commit
       then Pet_save slugify fuel now db (prepared_pet form u) = Ok (db2, saved)
       else db2 = db /\ saved = prepared_pet form u.
Proof.
  intros Hnew Hsave. apply PetForm_new_Ok in Hnew.
  destruct Hnew as [Hform [R _]].
  destruct (form_of_init db0 uo inst bound) as [Hu [_ Hd]].
  rewrite <- Hform in Hu, Hd.
  destruct (plain_form_save _ _ _ _ _ _ _ R Hsave)
    as [u [Hu' [Valid [Files Run]]]].
  exists u. split; [congruence | ]. split; [exact Hform | ].
  split; [exact Valid | ]. split; [now rewrite <- Hd | exact Run].
Qed.

End CommitMore.

Lemma Model_save_rows (now : Z) (db db1 : Database) (p saved : Pet) :
  Model_save now db p = Ok (db1, saved) ->
  fotos db1 = fotos db
  /\ foto_sequence db1 = foto_sequence db
  /\ forall q, In q (pets db1) -> q = saved \/ In q (pets db).
Proof.
  unfold Model_save. destruct (violates_unique db p); [discriminate | ].
  destruct (pk p) as [k|].
  - destruct (existsb (has_pk k) (pets db)); intros H; injection H as <- <-;
      cbn [pets fotos foto_sequence]; (split; [reflexivity | ]);
      (split; [reflexivity | ]); intros q Hq.
    + apply in_map_iff in Hq. destruct Hq as [r [Hr Hin]].
      destruct (has_pk k r); [now left | right; congruence].
    + apply in_app_or in Hq. destruct Hq as [Hq | [<- | []]];
        [now right | now left].
  - intros H. injection H as <- <-. cbn [pets fotos foto_sequence].
    split; [reflexivity | ]. split; [reflexivity | ]. intros q Hq.
    apply in_app_or in Hq. destruct Hq as [Hq | [<- | []]];
      [now right | now left].
Qed.

Lemma Pet_save_rows (slugify : string -> string) (fuel : nat) (now : Z)
      (db db1 : Database) (p saved : Pet) :
  Pet_save slugify fuel now db p = Ok (db1, saved) ->
  fotos db1 = fotos db
  /\ foto_sequence db1 = foto_sequence db
  /\ forall q, In q (pets db1) -> q = saved \/ In q (pets db).
Proof.
  intros H. apply Pet_save_is_Model_save in H. destruct H as [s [H _]].
  now apply Model_save_rows in H.
Qed.

(** X7 (a save of the form leaves every gallery as it was).  Whatever is
    submitted, a successful [save] of a form that the constructor returned
    neither adds nor removes a gallery photo, of the saved pet or of any
    other: the table of photos and its key sequence are as before, and the
    submission carried no gallery file. *)
Theorem X7_commit_leaves_galleries
    (K : Constants) (slugify : string -> string) (fuel : nat) (now : Z)
    (db0 db db2 : Database) (uo : option User) (inst : Pet) (bound : PostData)
    (form : PetForm) (commit : bool) (saved : Pet)
    (Hnew : PetForm_new db0 uo inst bound = Ok form)
    (Hsave : PetForm_save K slugify fuel now db form commit = Ok (db2, saved)) :
  fotos db2 = fotos db
  /\ foto_sequence db2 = foto_sequence db
  /\ (forall k, fotos_extras db2 k = fotos_extras db k)
  /\ post_fotos_adicionais bound = []
  /\ removal_selection form = [].
Proof.
  destruct (built_form_save K slugify _ _ _ _ _ _ _ _ _ _ _ Hnew Hsave)
    as [u [_ [_ [_ [Files Run]]]]].
  apply PetForm_new_Ok in Hnew. destruct Hnew as [_ [R _]].
  assert (F : fotos db2 = fotos db /\ foto_sequence db2 = foto_sequence db).
  { destruct commit.
    - apply Pet_save_rows in Run. tauto.
    - destruct Run as [-> _]. split; reflexivity. }
  destruct F as [F Sq].
  split; [exact F | ]. split; [exact Sq | ].
  split; [intros k; unfold fotos_extras; now rewrite F | ].
  split; [exact Files | ]. unfold removal_selection. now rewrite R.
Qed.

Lemma X7_commit_leaves_galleries_witness :
  exists form db2 saved,
    PetForm_new luna_gallery_db (Some staff_member) bob bob_approval_post
    = Ok form
    /\ PetForm_save site_constants sample_slugify 2 40 luna_gallery_db form true
       = Ok (db2, saved)
    /\ status saved = DISPONIVEL
    /\ fotos db2 = fotos luna_gallery_db
    /\ List.length (fotos_extras db2 2) = 2.
Proof.
  eexists. eexists. eexists.
  split; [vm_compute; reflexivity | ].
  split; [vm_compute; reflexivity | ].
  split; [reflexivity | ].
  match goal with
  | |- fotos ?d = _ /\ _ =>
      pose proof (X7_commit_leaves_galleries site_constants sample_slugify 2 40
                    luna_gallery_db luna_gallery_db d (Some staff_member) bob
                    bob_approval_post _ true _ eq_refl eq_refl)
        as [F [_ [G _]]]
  end.
  split; [exact F | ]. now rewrite G.
Defined.

(** X8 (a commit without gallery changes).  A successful commit that sends
    no new file and selects no photo for removal leaves the table of photos
    exactly as it was. *)
Theorem X8_commit_without_gallery_changes
    (K : Constants) (slugify : string -> string) (fuel : nat) (now : Z)
    (db db2 : Database) (self : PetForm) (saved : Pet)
    (Hsave : PetForm_save K slugify fuel now db self true = Ok (db2, saved))
    (Hfiles : post_fotos_adicionais (data self) = [])
    (Hkeep : removal_selection self = []) :
  fotos db2 = fotos db.
Proof.
  destruct (PetForm_save_commit K slugify _ _ _ _ _ _ Hsave)
    as [u [db1 [added [_ [_ [_ [_ [Hf [Hlen _]]]]]]]]].
  rewrite Hfiles in Hlen. destruct added; [ | discriminate].
  now rewrite Hf, Hkeep, filter_kept_nil, app_nil_r.
Qed.

Lemma X8_commit_without_gallery_changes_witness :
  exists db2 saved,
    PetForm_new luna_gallery_db (Some owner) rex plain_edit_post
    = Ok (PetForm_init luna_gallery_db (Some owner) rex plain_edit_post)
    /\ PetForm_save site_constants sample_slugify 2 40 luna_gallery_db
         (PetForm_init luna_gallery_db (Some owner) rex plain_edit_post) true
       = Ok (db2, saved)
    /\ idade saved = 6%Z
    /\ fotos db2 = fotos luna_gallery_db.
Proof.
  eexists. eexists. split; [reflexivity | ].
  split; [vm_compute; reflexivity | ].
  split; [reflexivity | ].
  match goal with
  | |- fotos ?d = _ =>
      exact (X8_commit_without_gallery_changes site_constants sample_slugify
               2 40 luna_gallery_db d
               (PetForm_init luna_gallery_db (Some owner) rex plain_edit_post)
               _ eq_refl eq_refl eq_refl)
  end.
Defined.

Lemma NoDup_map_inj_in {A B : Type} (f : A -> B) (l : list A) (a b : A) :
  NoDup (map f l) -> In a l -> In b l -> f a = f b -> a = b.
Proof.
  induction l as [|x r IH]; simpl; [tauto | ].
  intros ND Ha Hb E. inversion ND as [|? ? Hx ND']; subst.
  destruct Ha as [-> | Ha], Hb as [-> | Hb].
  - reflexivity.
  - exfalso. apply Hx. rewrite E. now apply in_map.
  - exfalso. apply Hx. rewrite <- E. now apply in_map.
  - now apply IH.
Qed.

(** X9 (a commit touches one pet only).  A successful commit of a form that
    the constructor returned writes one row: the rows of the other pets are
    in the table as they were, every row of the table is the saved one or a
    row that was there, and every photo is as it was. *)
Theorem X9_other_pets_untouched
    (K : Constants) (slugify : string -> string) (fuel : nat) (now : Z)
    (db0 db db2 : Database) (uo : option User) (inst : Pet) (bound : PostData)
    (form : PetForm) (saved : Pet)
    (Hnew : PetForm_new db0 uo inst bound = Ok form)
    (Hsave : PetForm_save K slugify fuel now db form true = Ok (db2, saved)) :
  (forall q, In q (pets db) -> pk q <> pk saved -> In q (pets db2))
  /\ (forall q, In q (pets db2) -> q = saved \/ In q (pets db))
  /\ In saved (pets db2)
  /\ fotos db2 = fotos db.
Proof.
  destruct (built_form_save K slugify _ _ _ _ _ _ _ _ _ _ _ Hnew Hsave)
    as [u [_ [_ [_ [_ Run]]]]].
  pose proof (Pet_save_fields _ _ _ _ _ _ _ Run) as [_ [_ [_ [_ Others]]]].
  pose proof (Pet_save_rows _ _ _ _ _ _ _ Run) as [F [_ Rows]].
  pose proof (Pet_save_effects _ _ _ _ _ _ _ Run) as [_ [Hin _]].
  split; [exact Others | ]. split; [exact Rows | ].
  split; [exact Hin | exact F].
Qed.

Lemma X9_other_pets_untouched_witness :
  exists form db2 saved,
    PetForm_new luna_gallery_db (Some owner) rex plain_edit_post = Ok form
    /\ PetForm_save site_constants sample_slugify 4 40 luna_gallery_db form true
       = Ok (db2, saved)
    /\ pk saved = Some 1%Z
    /\ In luna (pets db2) /\ In bob (pets db2)
    /\ ~ In rex (pets db2)
    /\ fotos db2 = fotos luna_gallery_db.
Proof.
  eexists. eexists. eexists.
  split; [vm_compute; reflexivity | ].
  split; [vm_compute; reflexivity | ].
  split; [reflexivity | ].
  match goal with
  | |- In luna (pets ?d) /\ _ =>
      pose proof (X9_other_pets_untouched site_constants sample_slugify 4 40
                    luna_gallery_db luna_gallery_db d (Some owner) rex
                    plain_edit_post _ _ eq_refl eq_refl)
        as [Rows [_ [_ Fotos]]]
  end.
  split; [apply Rows; [simpl; tauto | discriminate] | ].
  split; [apply Rows; [simpl; tauto | discriminate] | ].
  split; [ | exact Fotos].
  simpl. intros [H | [H | [H | H]]]; try discriminate H. exact H.
Defined.

(* ================================================================== *)
(** ** Ownership and visibility                                        *)
(* ================================================================== *)

Lemma PetForm_save_owner (K : Constants) (slugify : string -> string)
      (fuel : nat) (now : Z) (db db' : Database) (self : PetForm) (u : User)
      (commit : bool) (saved : Pet) :
  user self = Some u ->
  PetForm_save K slugify fuel now db self commit = Ok (db', saved) ->
  solicitante saved
  = match pk (instance self) with
    | None => Some (user_pk u)
    | Some _ => solicitante (instance self)
    end.
Proof.
  intros Hu. rewrite (PetForm_save_with_user _ _ _ _ _ _ _ _ Hu).
  destruct (is_valid K db self); [ | discriminate].
  destruct commit.
  - destruct (Pet_save slugify fuel now db (prepared_pet self u))
      as [[db1 q]| |] eqn:E; cbn [bind fst snd]; try discriminate.
    destruct (_save_m2m_data K now db1 self q); cbn [bind]; try discriminate.
    intros H. injection H as _ <-.
    apply Pet_save_fields in E. destruct E as [_ [S _]].
    rewrite S. apply prepared_pet_fields.
  - intros H. injection H as _ <-. apply prepared_pet_fields.
Qed.

(** X10 (who owns a pet).  A successful save of a form built for a user
    makes that user, staff or not, the owner of a pet that is created, and
    leaves the owner of a pet that is edited as it was, also when the editor
    is a staff member and not the owner. *)
Theorem X10_owner_assignment
    (K : Constants) (slugify : string -> string) (fuel : nat) (now : Z)
    (db db' : Database) (u : User) (inst : Pet) (bound : PostData)
    (commit : bool) (saved : Pet)
    (Hsave : PetForm_save K slugify fuel now db
               (PetForm_init db (Some u) inst bound) commit = Ok (db', saved)) :
  (pk inst = None -> solicitante saved = Some (user_pk u))
  /\ (pk inst <> None -> solicitante saved = solicitante inst).
Proof.
  destruct (form_of_init db (Some u) inst bound) as [Hu [Hi _]].
  pose proof (PetForm_save_owner _ _ _ _ _ _ _ u _ _ Hu Hsave) as S.
  rewrite Hi in S. split; intros H.
  - now rewrite H in S.
  - destruct (pk inst); [exact S | congruence].
Qed.

Lemma X10_owner_assignment_witness :
  (exists db' saved,
     PetForm_save site_constants sample_slugify 1 40 empty_db
       (PetForm_init empty_db (Some staff_member) new_pet rex_post) true
     = Ok (db', saved)
     /\ solicitante saved = Some (user_pk staff_member))
  /\ (exists db' saved,
        PetForm_save site_constants sample_slugify 4 40 three_pets_db
          (PetForm_init three_pets_db (Some staff_member) luna
             (mkPost "Luna" GATO (Some DISPONIVEL) "" 2 "Curiosa" None None [] []))
          true
        = Ok (db', saved)
        /\ status saved = DISPONIVEL
        /\ solicitante saved = solicitante luna).
Proof.
  split.
  - eexists. eexists. split; [vm_compute; reflexivity | ].
    match goal with
    | |- solicitante ?s = _ =>
        exact (proj1 (X10_owner_assignment site_constants sample_slugify 1 40
                        empty_db _ staff_member new_pet rex_post true s eq_refl)
                     eq_refl)
    end.
  - eexists. eexists. split; [vm_compute; reflexivity | ].
    split; [reflexivity | ].
    match goal with
    | |- solicitante ?s = _ =>
        refine (proj2 (X10_owner_assignment site_constants sample_slugify 4 40
                         three_pets_db _ staff_member luna
                         (mkPost "Luna" GATO (Some DISPONIVEL) "" 2 "Curiosa"
                                 None None [] [])
                         true s eq_refl) _)
    end.
    discriminate.
Defined.

Lemma aprovar_pets_In (db : Database) (queryset : QuerySet) (p : Pet) :
  In p (pets db) -> queryset p = true -> status p = PENDENTE ->
  In (set_status DISPONIVEL p) (pets (fst (aprovar_pets db queryset))).
Proof.
  intros Hin Hq Hs. rewrite aprovar_pets_rows. apply in_map_iff.
  exists p. split; [ | exact Hin]. unfold approved_row.
  rewrite Hq, Hs. reflexivity.
Qed.

Lemma gallery_condition_public (request : HttpRequest) (p : Pet) :
  GET request = [] -> gallery_condition request p = status_eqb (status p) DISPONIVEL.
Proof.
  intros H. unfold gallery_condition, mine_requested. rewrite H. simpl.
  now rewrite !andb_true_r.
Qed.

(** X11 (a new pet of a user who is not staff waits for approval).  After
    such a user creates a pet, the gallery lists it only under the mine
    filter and only to the user with the key of its owner; it is in no public
    listing.  Once a bulk approval selects it, the approved record is in the
    public listing of every request without query parameters. *)
Theorem X11_new_pet_hidden_until_approved
    (K : Constants) (slugify : string -> string) (fuel : nat) (now : Z)
    (db db2 : Database) (u : User) (inst : Pet) (bound : PostData)
    (saved : Pet)
    (Hstaff : is_staff u = false) (Hpk : pk inst = None)
    (Hsave : PetForm_save K slugify fuel now db
               (PetForm_init db (Some u) inst bound) true = Ok (db2, saved)) :
  (forall request,
     In saved (PetListView_get_queryset db2 request) ->
     mine_requested request = true /\ requester_is request (user_pk u))
  /\ (forall request,
        request_user request = LoggedIn u ->
        GET request = [("filtro", "meus")] ->
        In saved (PetListView_get_queryset db2 request))
  /\ (forall queryset request,
        queryset saved = true -> GET request = [] ->
        In (set_status DISPONIVEL saved)
           (PetListView_get_queryset (fst (aprovar_pets db2 queryset)) request)).
Proof.
  destruct (form_of_init db (Some u) inst bound) as [Hu [Hi _]].
  pose proof (PetForm_save_owner _ _ _ _ _ _ _ u _ _ Hu Hsave) as Own.
  rewrite Hi, Hpk in Own.
  destruct (PetForm_save_status _ _ _ _ _ _ _ u _ _ Hu Hsave)
    as [_ [St Stored]].
  unfold prepared_status in St. rewrite Hi, Hpk, Hstaff in St. simpl in St.
  specialize (Stored eq_refl).
  split; [ | split].
  - intros request Hin. apply PetListView_get_queryset_In in Hin.
    destruct Hin as [_ G]. unfold gallery_condition in G.
    destruct (mine_requested request
              && is_authenticated (request_user request)) eqn:M.
    + apply andb_prop in M. destruct M as [M _]. split; [exact M | ].
      apply andb_prop in G. destruct G as [G _].
      apply andb_prop in G. destruct G as [G _].
      unfold owned_by in G. rewrite Own in G. unfold requester_is.
      destruct (request_user request) as [|u']; [discriminate | ].
      apply Z.eqb_eq in G. exists u'. split; [reflexivity | now symmetry].
    + rewrite St in G. discriminate.
  - intros request Hreq Hget. apply PetListView_get_queryset_In.
    split; [exact Stored | ].
    unfold gallery_condition, mine_requested, owned_by.
    rewrite Hget, Hreq, Own. simpl. now rewrite Z.eqb_refl.
  - intros queryset request Hq Hget. apply PetListView_get_queryset_In.
    split; [now apply aprovar_pets_In | ].
    now rewrite (gallery_condition_public _ _ Hget).
Qed.

Lemma X11_new_pet_hidden_until_approved_witness :
  exists db2 saved,
    PetForm_save site_constants sample_slugify 4 40 three_pets_db
      (PetForm_init three_pets_db (Some owner) new_pet mel_post) true
    = Ok (db2, saved)
    /\ ~ In saved (PetListView_get_queryset db2 (visitor_request []))
    /\ ~ In saved (PetListView_get_queryset db2
                     (stranger_request [("filtro", "meus")]))
    /\ In saved (PetListView_get_queryset db2 (owner_request [("filtro", "meus")]))
    /\ In (set_status DISPONIVEL saved)
          (PetListView_get_queryset (fst (aprovar_pets db2 (fun _ => true)))
             (visitor_request [])).
Proof.
  eexists. eexists. split; [vm_compute; reflexivity | ].
  match goal with
  | |- ~ In ?s (PetListView_get_queryset ?d _) /\ _ =>
      pose proof (X11_new_pet_hidden_until_approved site_constants
                    sample_slugify 4 40 three_pets_db d owner new_pet
                    mel_post s eq_refl eq_refl eq_refl)
        as [Hidden [Mine Approved]]
  end.
  split; [ | split; [ | split]].
  - intros H. apply Hidden in H. destruct H as [H _]. discriminate H.
  - intros H. apply Hidden in H. destruct H as [_ [u' [Hu' Hk]]].
    injection Hu' as <-. discriminate Hk.
  - apply Mine; reflexivity.
  - apply Approved; reflexivity.
Defined.

(* ================================================================== *)
(** ** More on bulk approval                                           *)
(* ================================================================== *)

Lemma approved_row_twice (qa qb : QuerySet) (p : Pet) :
  approved_row qb (approved_row qa p) = approved_row (fun x => qa x || qb x) p.
Proof.
  unfold approved_row.
  destruct (qa p) eqn:A, (status_eqb (status p) PENDENTE) eqn:S;
    cbn [andb orb].
  - destruct (qb (set_status DISPONIVEL p)); reflexivity.
  - now rewrite S, !andb_false_r.
  - now rewrite S.
  - now rewrite S.
Qed.

Lemma approved_row_pending (qa qb : QuerySet) (p : Pet) :
  qb (approved_row qa p) && status_eqb (status (approved_row qa p)) PENDENTE
  = negb (qa p) && qb p && status_eqb (status p) PENDENTE.
Proof.
  unfold approved_row.
  destruct (qa p) eqn:A, (status_eqb (status p) PENDENTE) eqn:S;
    cbn [andb negb]; rewrite ?S, ?andb_false_r; reflexivity.
Qed.

Lemma approved_count_twice (qa qb : QuerySet) (l : list Pet) :
  List.length (filter (fun p => qa p && status_eqb (status p) PENDENTE) l)
  + List.length (filter (fun p => qb p && status_eqb (status p) PENDENTE)
                        (map (approved_row qa) l))
  = List.length (filter (fun p => (qa p || qb p)
                                  && status_eqb (status p) PENDENTE) l).
Proof.
  induction l as [|p r IH]; [reflexivity | ].
  cbn [map filter]. rewrite approved_row_pending.
  destruct (qa p), (qb p), (status_eqb (status p) PENDENTE);
    cbn [andb orb negb List.length]; lia.
Qed.

(** X12 (approvals compose).  Approving one selection and then another
    gives the same rows as approving their union at once, and the two
    reported counts add up to the count of the union; after an approval no
    record of the selection is pending, so the pending report lists none of
    them. *)
Theorem X12_approvals_compose (db : Database) (qa qb : QuerySet) :
  pets (fst (aprovar_pets (fst (aprovar_pets db qa)) qb))
  = pets (fst (aprovar_pets db (fun p => qa p || qb p)))
  /\ snd (aprovar_pets db qa)
     + snd (aprovar_pets (fst (aprovar_pets db qa)) qb)
     = snd (aprovar_pets db (fun p => qa p || qb p))
  /\ (forall p, In p (pets (fst (aprovar_pets db qa))) -> qa p = true ->
                status p <> PENDENTE)
  /\ (forall request p,
        report_status request = PENDENTE ->
        In p (RelatorioPetView_get_queryset (fst (aprovar_pets db qa)) request) ->
        qa p = false).
Proof.
  assert (After : forall p, In p (pets (fst (aprovar_pets db qa))) ->
            qa p = true -> status p <> PENDENTE).
  { intros p Hin Hq Hs. rewrite aprovar_pets_rows in Hin.
    apply in_map_iff in Hin. destruct Hin as [p0 [E _]].
    pose proof (approved_row_idempotent qa p0) as I.
    rewrite E, Hq, Hs in I. discriminate. }
  split; [ | split; [ | split; [exact After | ]]].
  - rewrite !aprovar_pets_rows, map_map. apply map_ext.
    intros p. apply approved_row_twice.
  - rewrite !aprovar_pets_count, aprovar_pets_rows.
    apply approved_count_twice.
  - intros request p Hr Hin.
    apply RelatorioPetView_get_queryset_by_status in Hin.
    destruct Hin as [Hin Hs]. rewrite Hr in Hs.
    destruct (qa p) eqn:Hq; [exfalso | reflexivity].
    exact (After p Hin Hq Hs).
Qed.

Lemma X12_approvals_compose_witness :
  pets (fst (aprovar_pets (fst (aprovar_pets three_pets_db (has_pk 2)))
                          (has_pk 3)))
  = [rex; set_status DISPONIVEL luna; set_status DISPONIVEL bob]
  /\ snd (aprovar_pets three_pets_db (has_pk 2)) = 1
  /\ snd (aprovar_pets three_pets_db (fun p => has_pk 2 p || has_pk 3 p)) = 2
  /\ RelatorioPetView_get_queryset (fst (aprovar_pets three_pets_db (has_pk 2)))
       (staff_request []) = [bob]
  /\ has_pk 2 bob = false.
Proof.
  pose proof (X12_approvals_compose three_pets_db (has_pk 2) (has_pk 3))
    as [Rows [Counts [_ Report]]].
  split; [rewrite Rows; reflexivity | ].
  split; [reflexivity | ].
  split; [rewrite <- Counts; reflexivity | ].
  split; [reflexivity | ].
  apply (Report (staff_request []) bob); [reflexivity | simpl; tauto].
Defined.

(* ================================================================== *)
(** ** More on the report and the listing                              *)
(* ================================================================== *)

Lemma report_status_of_param (request : HttpRequest) (s : StatusChoices) :
  status_param request = status_value s ->
  StatusChoices_of_value (status_param request) = Ok s
  /\ report_status request = s.
Proof.
  intros H. unfold report_status, StatusChoices_of_value. rewrite H.
  destruct s; split; reflexivity.
Qed.

Lemma status_counts_partition (l : list Pet) :
  list_sum (map (fun s => List.length
                            (filter (fun p => status_eqb (status p) s) l))
                StatusChoices_choices)
  = List.length l.
Proof.
  induction l as [|p r IH]; [reflexivity | ].
  cbn [map StatusChoices_choices list_sum fold_right] in IH |- *.
  cbn [filter]. destruct (status p); cbn [status_eqb status_value];
    cbn; cbn in IH; lia.
Qed.

(** X13 (the page of the report).  For a staff request whose status
    parameter, uppercased, is the value of a status (or is absent, which
    stands for pending), the report is rendered: it lists exactly the stored
    records with that status, latest update first; the title is the one of
    that status; the counts, one per status, add up to the number of stored
    records; and the count under the key of the listed status is the length
    of the listing. *)
Theorem X13_report_page
    (db : Database) (request : HttpRequest) (s : StatusChoices)
    (Hstaff : StaffRequiredMixin_test_func request = true)
    (Hs : status_param request = status_value s) :
  exists context,
    RelatorioPetView_get db request = Ok (Rendered context)
    /\ (forall p, In p (object_list context)
                  <-> In p (pets db) /\ status p = s)
    /\ sorted_desc data_atualizacao (object_list context)
    /\ page_title_status context = s
    /\ list_sum (map snd (counts context)) = List.length (pets db)
    /\ In (Py.lower (status_value s), List.length (object_list context))
          (counts context).
Proof.
  destruct (report_status_of_param request s Hs) as [V R].
  destruct (RelatorioPetView_get_queryset_by_status db request) as [E [Srt M]].
  rewrite R in E, M.
  unfold RelatorioPetView_get, StaffRequiredMixin_dispatch,
         RelatorioPetView_get_context_data.
  rewrite Hstaff, V. cbn [bind]. eexists. split; [reflexivity | ].
  cbn [object_list page_title_status counts].
  split; [exact M | ]. split; [exact Srt | ]. split; [reflexivity | ].
  split.
  - rewrite map_map. cbn [snd]. unfold qs_count, qs_list.
    apply status_counts_partition.
  - rewrite E.
    rewrite (Permutation_length (order_by_desc_perm data_atualizacao _)).
    unfold qs_count, qs_list.
    apply (in_map (fun s0 => (Py.lower (status_value s0),
                              List.length
                                (filter (fun p => status_eqb (status p) s0)
                                        (pets db))))
                  StatusChoices_choices s).
    destruct s; simpl; tauto.
Qed.

Lemma X13_report_page_witness :
  exists context,
    RelatorioPetView_get three_pets_db (staff_request [("status", "Disponivel")])
    = Ok (Rendered context)
    /\ object_list context = [rex]
    /\ page_title_status context = DISPONIVEL
    /\ counts context
       = [("pendente", 2); ("disponivel", 1); ("em_processo", 0); ("adotado", 0)]
    /\ list_sum (map snd (counts context)) = 3.
Proof.
  destruct (X13_report_page three_pets_db
              (staff_request [("status", "Disponivel")]) DISPONIVEL
              eq_refl eq_refl)
    as [context [Hget [_ [_ [_ [Hsum _]]]]]].
  exists context. split; [exact Hget | ].
  assert (C : RelatorioPetView_get three_pets_db
                (staff_request [("status", "Disponivel")])
              = Ok (Rendered (mkRelatorio [rex] StatusChoices_choices
                                "DISPONIVEL" DISPONIVEL
                                [("pendente", 2); ("disponivel", 1);
                                 ("em_processo", 0); ("adotado", 0)])))
    by (vm_compute; reflexivity).
  rewrite C in Hget. injection Hget as <-.
  split; [reflexivity | ]. split; [reflexivity | ].
  split; [reflexivity | exact Hsum].
Defined.

(** X14 (who gets the report).  The report is rendered to authenticated
    staff only.  A requester who is not authenticated is redirected to the
    landing page and an authenticated one who is not staff is refused; for
    both the status parameter is not even read, so that no value of it makes
    the view fail. *)
Theorem X14_report_staff_only (db : Database) (request : HttpRequest) :
  (forall context,
     RelatorioPetView_get db request = Ok (Rendered context) ->
     exists u, request_user request = LoggedIn u /\ is_staff u = true)
  /\ (request_user request = AnonymousUser ->
      RelatorioPetView_get db request = Ok (RedirectToLanding false))
  /\ (forall u, request_user request = LoggedIn u -> is_staff u = false ->
                RelatorioPetView_get db request = Ok Forbidden)
  /\ (StaffRequiredMixin_test_func request = false ->
      forall e, RelatorioPetView_get db request <> Raise e).
Proof.
  unfold RelatorioPetView_get, StaffRequiredMixin_dispatch,
         StaffRequiredMixin_test_func.
  destruct (request_user request) as [|u] eqn:R; cbn.
  - split; [intros c H; discriminate H | ].
    split; [reflexivity | ].
    split; [intros u H; discriminate H | intros _ e H; discriminate H].
  - destruct (is_staff u) eqn:St.
    + split; [intros _ _; now exists u | ].
      split; [intros H; discriminate H | ].
      split; [ | intros H; discriminate H].
      intros u' Hu' Hs. injection Hu' as <-. congruence.
    + split; [intros c H; discriminate H | ].
      split; [intros H; discriminate H | ].
      split; [intros u' _ _; reflexivity | intros _ e H; discriminate H].
Qed.

Lemma X14_report_staff_only_witness :
  RelatorioPetView_get three_pets_db (anonymous_request [("status", "foo")])
  = Ok (RedirectToLanding false)
  /\ RelatorioPetView_get three_pets_db (owner_request [("status", "foo")])
     = Ok Forbidden.
Proof.
  pose proof (X14_report_staff_only three_pets_db
                (anonymous_request [("status", "foo")])) as [_ [Anon _]].
  pose proof (X14_report_staff_only three_pets_db
                (owner_request [("status", "foo")])) as [_ [_ [NonStaff _]]].
  split; [exact (Anon eq_refl) | exact (NonStaff owner eq_refl eq_refl)].
Defined.

Lemma get_object_Found (db : Database) (slug_kw : string) (p : Pet) :
  get_object db slug_kw = Found p -> In p (pets db) /\ slug p = slug_kw.
Proof.
  unfold get_object.
  destruct (filter (fun p => String.eqb (slug p) slug_kw) (pets db))
    as [|a [|b r]] eqn:F; try discriminate.
  intros H. injection H as <-.
  assert (Hin : In a (filter (fun p => String.eqb (slug p) slug_kw) (pets db)))
    by (rewrite F; now left).
  apply filter_In in Hin. destruct Hin as [Hin E].
  split; [exact Hin | now apply String.eqb_eq].
Qed.

Lemma get_object_absent (db : Database) (slug_kw : string) :
  ~ In slug_kw (map slug (pets db)) -> get_object db slug_kw = Http404.
Proof.
  intros H. unfold get_object. now rewrite (filter_absent_slug _ _ H).
Qed.

(** X15 (the detail page).  A requester who is neither authenticated nor a
    visitor is sent to the landing page with a notice whatever the slug, so
    that the answer does not tell whether the slug exists.  Past the gate, a
    slug that no stored pet carries is not found, and a rendered page shows a
    stored pet with the slug of the URL, titled with its name. *)
Theorem X15_detail_page
    (db : Database) (request : HttpRequest) (slug_kw : string) :
  (is_authenticated (request_user request) = false ->
   session_is_visitor request = false ->
   PetDetailView_get db request slug_kw = ToLanding true)
  /\ (is_authenticated (request_user request) || session_is_visitor request
      = true ->
      ~ In slug_kw (map slug (pets db)) ->
      PetDetailView_get db request slug_kw = NotFound)
  /\ (forall context,
        PetDetailView_get db request slug_kw = Page context ->
        In (detail_object context) (pets db)
        /\ slug (detail_object context) = slug_kw
        /\ detail_page_title context = nome (detail_object context)
        /\ detail_is_visitor context = session_is_visitor request
        /\ is_authenticated (request_user request)
           || session_is_visitor request = true).
Proof.
  unfold PetDetailView_get. split; [ | split].
  - intros Ha Hv. now rewrite Ha, Hv.
  - intros Hg Habs. rewrite (get_object_absent _ _ Habs).
    destruct (is_authenticated (request_user request)),
             (session_is_visitor request); try reflexivity; discriminate.
  - intros context.
    destruct (is_authenticated (request_user request)) eqn:Ha,
             (session_is_visitor request) eqn:Hv; cbn [negb andb orb];
      try discriminate;
      destruct (get_object db slug_kw) as [p| |] eqn:G; try discriminate;
      intros H; injection H as <-; cbn;
      destruct (get_object_Found _ _ _ G) as [Hin Hs];
      repeat split; assumption.
Qed.

Lemma X15_detail_page_witness :
  PetDetailView_get three_pets_db (anonymous_request []) "rex" = ToLanding true
  /\ PetDetailView_get three_pets_db (anonymous_request []) "nenhum"
     = ToLanding true
  /\ PetDetailView_get three_pets_db (visitor_request []) "nenhum" = NotFound
  /\ PetDetailView_get three_pets_db (visitor_request []) "luna"
     = Page (mkDetail luna true "Luna").
Proof.
  pose proof (X15_detail_page three_pets_db (anonymous_request []) "rex")
    as [Gate1 _].
  pose proof (X15_detail_page three_pets_db (anonymous_request []) "nenhum")
    as [Gate2 _].
  pose proof (X15_detail_page three_pets_db (visitor_request []) "nenhum")
    as [_ [Missing _]].
  split; [exact (Gate1 eq_refl eq_refl) | ].
  split; [exact (Gate2 eq_refl eq_refl) | ].
  split; [ | reflexivity].
  apply (Missing eq_refl). simpl. intuition discriminate.
Defined.

Lemma gallery_condition_without (key : string) (request : HttpRequest) (p : Pet) :
  (key = "nome" \/ key = "especie") ->
  (QueryDict_get (GET request) key = None
   \/ QueryDict_get (GET request) key = Some "") ->
  gallery_condition (without_param key request) p = gallery_condition request p.
Proof.
  intros Hkey Hval. unfold gallery_condition, mine_requested, without_param.
  cbn [GET request_user].
  destruct Hkey as [-> | ->].
  - rewrite QueryDict_get_without_same.
    rewrite !QueryDict_get_without_other by discriminate.
    destruct Hval as [-> | ->]; reflexivity.
  - rewrite QueryDict_get_without_same.
    rewrite !QueryDict_get_without_other by discriminate.
    destruct Hval as [-> | ->]; reflexivity.
Qed.

(** X16 (the search parameters of the gallery).  A name or species
    parameter that is present but empty is ignored: the listing is the one of
    the request without it.  A name parameter only narrows the listing, and
    every listed pet has the parameter in its name, the case of ASCII letters
    apart.  A species parameter that is not the stored value of a species,
    such as a value in lower case, gives the empty listing and no error. *)
Theorem X16_search_parameters (db : Database) (request : HttpRequest) :
  (forall key, key = "nome" \/ key = "especie" ->
     QueryDict_get (GET request) key = Some "" ->
     PetListView_get_queryset db request
     = PetListView_get_queryset db (without_param key request))
  /\ (forall p, In p (PetListView_get_queryset db request) ->
                In p (PetListView_get_queryset db (without_param "nome" request)))
  /\ (forall v p, QueryDict_get (GET request) "nome" = Some v ->
                  Py.truthy v = true ->
                  In p (PetListView_get_queryset db request) ->
                  Py.contains (Py.lower v) (Py.lower (nome p)) = true)
  /\ (forall v, QueryDict_get (GET request) "especie" = Some v ->
                Py.truthy v = true ->
                (forall e, especie_value e <> v) ->
                PetListView_get_queryset db request = []).
Proof.
  split; [ | split; [ | split]].
  - intros key Hkey Hval. rewrite !PetListView_get_queryset_condition.
    f_equal. apply filter_ext. intros p. symmetry.
    apply gallery_condition_without; [exact Hkey | now right].
  - intros p Hin. apply PetListView_get_queryset_In in Hin.
    destruct Hin as [Hin G]. apply PetListView_get_queryset_In.
    split; [exact Hin | ].
    unfold gallery_condition, mine_requested, without_param in *.
    cbn [GET request_user].
    rewrite QueryDict_get_without_same.
    rewrite !QueryDict_get_without_other by discriminate.
    apply andb_prop in G. destruct G as [G Ge].
    apply andb_prop in G. destruct G as [G _].
    now rewrite G, Ge.
  - intros v p Hv Ht Hin. apply PetListView_get_queryset_In in Hin.
    destruct Hin as [_ G]. unfold gallery_condition in G.
    rewrite Hv, Ht in G.
    apply andb_prop in G. destruct G as [G _].
    apply andb_prop in G. destruct G as [_ G]. exact G.
  - intros v Hv Ht Hnone. rewrite PetListView_get_queryset_condition.
    assert (F : filter (gallery_condition request) (pets db) = []).
    { induction (pets db) as [|p r IH]; [reflexivity | ].
      cbn [filter]. rewrite IH.
      assert (G : gallery_condition request p = false).
      { unfold gallery_condition. rewrite Hv, Ht. unfold especie_is.
        destruct (String.eqb_spec (especie_value (especie p)) v) as [E | _];
          [exfalso; exact (Hnone _ E) | apply andb_false_r]. }
      now rewrite G. }
    now rewrite F.
Qed.

Lemma X16_search_parameters_witness :
  PetListView_get_queryset three_pets_db
    (visitor_request [("nome", ""); ("especie", "")])
  = PetListView_get_queryset three_pets_db (visitor_request [("especie", "")])
  /\ PetListView_get_queryset three_pets_db (visitor_request [("nome", "EX")])
     = [rex]
  /\ Py.contains (Py.lower "EX") (Py.lower (nome rex)) = true
  /\ PetListView_get_queryset three_pets_db
       (visitor_request [("especie", "cachorro")]) = []
  /\ PetListView_get_queryset three_pets_db
       (visitor_request [("especie", "CACHORRO")]) = [rex].
Proof.
  pose proof (X16_search_parameters three_pets_db
                (visitor_request [("nome", ""); ("especie", "")]))
    as [Empty _].
  pose proof (X16_search_parameters three_pets_db
                (visitor_request [("nome", "EX")])) as [_ [_ [Name _]]].
  pose proof (X16_search_parameters three_pets_db
                (visitor_request [("especie", "cachorro")]))
    as [_ [_ [_ Unknown]]].
  split; [exact (Empty "nome" (or_introl eq_refl) eq_refl) | ].
  split; [reflexivity | ].
  split; [apply (Name "EX" rex eq_refl eq_refl); simpl; tauto | ].
  split; [ | reflexivity].
  apply (Unknown "cachorro" eq_refl eq_refl). intros e. destruct e; discriminate.
Defined.

(** X17 (the title of the listing).  The filter mode and the title of the
    gallery page follow the filter parameter alone: with the value meus the
    page is titled as the requester's own pets also for a requester who is not
    authenticated, although the listing under that title then holds available
    pets only; with any other value, or none, the mode is public. *)
Theorem X17_listing_title (db : Database) (request : HttpRequest) :
  (QueryDict_get (GET request) "filtro" = Some "meus" ->
   filter_mode (PetListView_get_context_data request) = "meus"
   /\ list_page_title (PetListView_get_context_data request)
      = "Meus Pets Cadastrados"
   /\ (is_authenticated (request_user request) = false ->
       forall p, In p (PetListView_get_queryset db request) ->
                 status p = DISPONIVEL))
  /\ (QueryDict_get (GET request) "filtro" <> Some "meus" ->
      filter_mode (PetListView_get_context_data request) = "public"
      /\ list_page_title (PetListView_get_context_data request)
         = "Galeria de Pets").
Proof.
  unfold PetListView_get_context_data. split.
  - intros H. rewrite H. cbn. split; [reflexivity | ]. split; [reflexivity | ].
    intros Hanon p Hin. apply PetListView_get_queryset_In in Hin.
    destruct Hin as [_ G]. unfold gallery_condition in G.
    rewrite Hanon, andb_false_r in G.
    apply andb_prop in G. destruct G as [G _].
    apply andb_prop in G. destruct G as [G _]. now apply status_eqb_eq.
  - intros H. destruct (QueryDict_get (GET request) "filtro") as [v|].
    + destruct (String.eqb_spec v "meus") as [-> | Hne]; [congruence | ].
      cbn. split; reflexivity.
    + cbn. split; reflexivity.
Qed.

Lemma X17_listing_title_witness :
  list_page_title (PetListView_get_context_data
                     (visitor_request [("filtro", "meus")]))
  = "Meus Pets Cadastrados"
  /\ PetListView_get_queryset three_pets_db (visitor_request [("filtro", "meus")])
     = [rex]
  /\ solicitante rex = Some 7%Z
  /\ list_page_title (PetListView_get_context_data
                        (owner_request [("filtro", "todos")]))
     = "Galeria de Pets".
Proof.
  pose proof (X17_listing_title three_pets_db
                (visitor_request [("filtro", "meus")])) as [Mine _].
  pose proof (X17_listing_title three_pets_db
                (owner_request [("filtro", "todos")])) as [_ Other].
  split; [exact (proj1 (proj2 (Mine eq_refl))) | ].
  split; [reflexivity | ]. split; [reflexivity | ].
  apply Other. discriminate.
Defined.

(* ================================================================== *)
(** ** Deleting and editing one pet                                    *)
(* ================================================================== *)

Lemma owner_or_staff_test (request : HttpRequest) (pet : Pet) :
  PetOwnerOrStaffRequiredMixin_test_func request pet = true
  <-> exists u, request_user request = LoggedIn u
                /\ (is_staff u = true \/ solicitante pet = Some (user_pk u)).
Proof.
  unfold PetOwnerOrStaffRequiredMixin_test_func, owned_by.
  destruct (request_user request) as [|u]; cbn.
  - split; [discriminate | intros [u [H _]]; discriminate H].
  - split.
    + intros H. exists u. split; [reflexivity | ].
      apply orb_prop in H. destruct H as [H | H]; [now left | right].
      destruct (solicitante pet) as [k|]; [ | discriminate].
      apply Z.eqb_eq in H. now subst.
    + intros [u' [Hu [Hs | Ho]]]; injection Hu as <-.
      * now rewrite Hs.
      * rewrite Ho, Z.eqb_refl. apply orb_true_r.
Qed.

Lemma store_row_key (db : Database) (p : Pet) :
  store_ok db -> In p (pets db) -> exists k, pk p = Some k.
Proof.
  intros [Keys _] Hin. rewrite Forall_forall in Keys.
  specialize (Keys p Hin). destruct (pk p) as [k|]; [now exists k | congruence].
Qed.

(** X18 (deleting a pet).  On a well-formed store, a POST to the delete view
    that ends in the redirection to the gallery was made by an authenticated
    requester who is staff or the recorded owner of the pet with that slug;
    it removes that row and no other, removes the photos of that pet and no
    others, and leaves the slug unknown.  With any other answer the store is
    as it was. *)
Theorem X18_delete_view
    (db : Database) (request : HttpRequest) (slug_kw : string)
    (Hok : store_ok db) :
  (snd (PetDeleteView_post db request slug_kw) = RedirectTo ToGallery ->
   exists pet k u,
     get_object db slug_kw = Found pet /\ pk pet = Some k
     /\ request_user request = LoggedIn u
     /\ (is_staff u = true \/ solicitante pet = Some (user_pk u))
     /\ (forall q, In q (pets (fst (PetDeleteView_post db request slug_kw)))
                   <-> In q (pets db) /\ q <> pet)
     /\ (forall f, In f (fotos (fst (PetDeleteView_post db request slug_kw)))
                   <-> In f (fotos db) /\ foto_pet f <> k)
     /\ get_object (fst (PetDeleteView_post db request slug_kw)) slug_kw
        = Http404)
  /\ (snd (PetDeleteView_post db request slug_kw) <> RedirectTo ToGallery ->
      fst (PetDeleteView_post db request slug_kw) = db).
Proof.
  unfold PetDeleteView_post.
  destruct (get_object db slug_kw) as [pet| |] eqn:G; cbn [fst snd];
    try (split; [discriminate | reflexivity]).
  destruct (get_object_Found _ _ _ G) as [Hin Hslug].
  destruct (store_row_key db pet Hok Hin) as [k Hk].
  destruct (PetOwnerOrStaffRequiredMixin_test_func request pet) eqn:T;
    unfold Pet_delete; rewrite ?Hk; cbn [fst snd].
  - split; [intros _ | intros H; congruence].
    apply owner_or_staff_test in T. destruct T as [u [Hu Hauth]].
    exists pet, k, u. split; [reflexivity | ]. split; [exact Hk | ].
    split; [exact Hu | ]. split; [exact Hauth | ].
    destruct Hok as [_ [NDk [NDs _]]].
    cbn [pets fotos].
    assert (Rows : forall q, In q (filter (fun q => negb (has_pk k q)) (pets db))
                             <-> In q (pets db) /\ q <> pet).
    { intros q. rewrite filter_In. split; intros [Hq H]; split;
        try exact Hq.
      - intros ->. apply negb_true_iff in H.
        rewrite (proj2 (has_pk_true k pet) Hk) in H. discriminate.
      - apply negb_true_iff. destruct (has_pk k q) eqn:E; [exfalso | reflexivity].
        apply has_pk_true in E. apply H.
        apply (NoDup_map_inj_in pk (pets db)); try assumption. congruence. }
    split; [exact Rows | ]. split.
    + intros f. rewrite filter_In. rewrite negb_true_iff, Z.eqb_neq. tauto.
    + apply get_object_absent. cbn [pets]. intros Hs.
      apply in_map_iff in Hs. destruct Hs as [q [Eq Hq]].
      apply Rows in Hq. destruct Hq as [Hq Hne]. apply Hne.
      apply (NoDup_map_inj_in slug (pets db)); try assumption. congruence.
  - destruct (is_authenticated (request_user request)); cbn [fst snd];
      (split; [discriminate | reflexivity]).
Qed.

Lemma X18_delete_view_witness :
  PetDeleteView_post
    (mkDb [rex; luna; bob] [gallery_foto 1 1; mkFoto 2 2 "luna.png" 1 10] []
          3 2)
    (owner_request []) "rex"
  = (mkDb [luna; bob] [mkFoto 2 2 "luna.png" 1 10] [WDeleteFotos [1%Z]] 3 2,
     RedirectTo ToGallery)
  /\ PetDeleteView_post three_pets_db (owner_request []) "luna"
     = (three_pets_db, Denied)
  /\ PetDeleteView_post three_pets_db (anonymous_request []) "luna"
     = (three_pets_db, ToLanding false)
  /\ fst (PetDeleteView_post three_pets_db (stranger_request []) "rex")
     = three_pets_db.
Proof.
  split; [reflexivity | ]. split; [reflexivity | ]. split; [reflexivity | ].
  apply (proj2 (X18_delete_view three_pets_db (stranger_request []) "rex"
                  three_pets_db_ok)).
  discriminate.
Defined.

Section EditFacts.

Variable K : Constants.
Variable slugify : string -> string.

Lemma Pet_save_slug_kept (fuel : nat) (now : Z) (db db1 : Database)
      (p saved : Pet) :
  Pet_save slugify fuel now db p = Ok (db1, saved) ->
  slug p <> "" -> slug saved = slug p.
Proof.
  intros H Hs. rewrite (Pet_save_keeps_slug _ _ _ _ _ Hs) in H.
  now apply Model_save_Ok in H.
Qed.

Lemma prepared_pet_slug (self : PetForm) (u : User) :
  slug (prepared_pet self u) = slug (instance self).
Proof.
  rewrite prepared_pet_cases.
  destruct (pk (instance self)), (negb (is_staff u)); reflexivity.
Qed.

Lemma prepared_pet_nome (self : PetForm) (u : User) :
  nome (prepared_pet self u) = Py.strip (post_nome (data self)).
Proof.
  rewrite prepared_pet_cases.
  destruct (pk (instance self)), (negb (is_staff u)); reflexivity.
Qed.

(** X19 (editing a pet).  A pet that has a gallery photo cannot be edited:
    for its owner and for staff the update view leaves with the
    [AttributeError] of the form's constructor.  A POST that ends in a
    redirection was made by an authenticated requester who is staff or the
    recorded owner of the pet with that slug, and leads to the page of the
    saved pet.  On a well-formed store the saved row has the key and the
    owner of the pet that was found, the submitted name without the white
    space around it, its slug when that was not empty, even if the name
    changes, and, for an editor who is not staff, its status; no photo is
    written.  With any other answer the store is as it was. *)
Theorem X19_update_view
    (fuel : nat) (now : Z) (db : Database) (request : HttpRequest)
    (slug_kw : string) (bound : PostData)
    (Hok : store_ok db) :
  (forall pet u k,
     get_object db slug_kw = Found pet -> pk pet = Some k ->
     request_user request = LoggedIn u ->
     is_staff u = true \/ solicitante pet = Some (user_pk u) ->
     fotos_extras db k <> [] ->
     PetUpdateView_post K slugify fuel now db request slug_kw bound
     = Raise AttributeError)
  /\ (forall db' resp,
        PetUpdateView_post K slugify fuel now db request slug_kw bound
        = Ok (db', resp) ->
        (forall target, resp = RedirectTo target ->
           exists pet u saved,
             get_object db slug_kw = Found pet
             /\ request_user request = LoggedIn u
             /\ (is_staff u = true \/ solicitante pet = Some (user_pk u))
             /\ target = ToDetail (slug saved)
             /\ In saved (pets db')
             /\ pk saved = pk pet
             /\ solicitante saved = solicitante pet
             /\ nome saved = Py.strip (post_nome bound)
             /\ (slug pet <> "" -> slug saved = slug pet)
             /\ (is_staff u = false -> status saved = status pet)
             /\ fotos db' = fotos db)
        /\ ((forall target, resp <> RedirectTo target) -> db' = db)).
Proof.
  split.
  { intros pet u k G Hk Hu Hauth Hne. unfold PetUpdateView_post.
    rewrite G, (proj2 (owner_or_staff_test request pet)), Hu
      by (exists u; now split).
    now rewrite (PetForm_new_Raise db (Some u) pet bound k Hk Hne). }
  intros db' resp Hpost.
  unfold PetUpdateView_post in Hpost.
  destruct (get_object db slug_kw) as [pet| |] eqn:G;
    try (injection Hpost as <- <-; split; [discriminate | reflexivity]).
  destruct (PetOwnerOrStaffRequiredMixin_test_func request pet) eqn:T.
  2: { destruct (is_authenticated (request_user request));
         injection Hpost as <- <-; (split; [discriminate | reflexivity]). }
  apply owner_or_staff_test in T. destruct T as [u [Hu Hauth]].
  rewrite Hu in Hpost.
  destruct (PetForm_new db (Some u) pet bound) as [form| |] eqn:N;
    cbn [bind] in Hpost; try discriminate.
  destruct (is_valid K db form) eqn:Valid.
  2: { injection Hpost as <- <-. split; [discriminate | reflexivity]. }
  destruct (PetForm_save K slugify fuel now db form true)
    as [[db2 saved]| |] eqn:S; cbn [bind fst snd] in Hpost; try discriminate.
  injection Hpost as <- <-. split.
  2: { intros H. exfalso. exact (H _ eq_refl). }
  intros target Ht. injection Ht as <-.
  destruct (get_object_Found _ _ _ G) as [Hin _].
  destruct (store_row_key db pet Hok Hin) as [k Hk].
  destruct (built_form_save K slugify _ _ _ _ _ _ _ _ _ _ _ N S)
    as [u' [Eu [Hform [_ [_ Hps]]]]].
  injection Eu as <-.
  destruct (form_of_init db (Some u) pet bound) as [Hfu [Hi Hd]].
  rewrite <- Hform in Hfu, Hi, Hd.
  pose proof (PetForm_save_owner _ _ _ _ _ _ _ u _ _ Hfu S) as Own.
  rewrite Hi, Hk in Own.
  destruct (PetForm_save_status _ _ _ _ _ _ _ u _ _ Hfu S) as [_ [St Stored]].
  pose proof (Pet_save_fields _ _ _ _ _ _ _ Hps) as [Hpk [_ [Hn _]]].
  pose proof (Pet_save_rows _ _ _ _ _ _ _ Hps) as [F _].
  rewrite (proj1 (prepared_pet_fields form u)), Hi, Hk in Hpk.
  exists pet, u, saved. split; [reflexivity | ]. split; [exact Hu | ].
  split; [exact Hauth | ]. split; [reflexivity | ].
  split; [exact (Stored eq_refl) | ]. split; [now rewrite Hk | ].
  split; [exact Own | ].
  split; [now rewrite Hn, prepared_pet_nome, Hd | ].
  split; [ | split; [ | exact F]].
  - intros Hs. rewrite <- Hi, <- (prepared_pet_slug form u).
    apply (Pet_save_slug_kept _ _ _ _ _ _ Hps).
    now rewrite prepared_pet_slug, Hi.
  - intros Hns. rewrite St. unfold prepared_status, construct_instance.
    rewrite Hi, Hk, andb_false_r. cbn [status].
    rewrite Hform. now rewrite (fields_of_non_staff db u pet bound Hns).
Qed.

End EditFacts.

Lemma X19_update_view_witness :
  (exists db' saved,
     PetUpdateView_post site_constants sample_slugify 4 40 three_pets_db
       (owner_request []) "rex" max_post
     = Ok (db', RedirectTo (ToDetail (slug saved)))
     /\ In saved (pets db')
     /\ post_nome max_post = "  Max " /\ nome saved = "Max"
     /\ slug saved = "rex"
     /\ status saved = status rex /\ solicitante saved = solicitante rex)
  /\ PetUpdateView_post site_constants sample_slugify 4 40 luna_gallery_db
       (staff_request []) "luna" bob_approval_post
     = Raise AttributeError.
Proof.
  split.
  - assert (P : PetUpdateView_post site_constants sample_slugify 4 40
                  three_pets_db (owner_request []) "rex" max_post
                = Ok (mkDb [mkPet (Some 1%Z) (Some 7%Z) "Max" "rex" CACHORRO
                                  (Some "Vira-lata") 6 "Calmo" None None
                                  DISPONIVEL 10 40; luna; bob]
                           [] [WSavePet 1] 3 0,
                      RedirectTo (ToDetail "rex")))
      by (vm_compute; reflexivity).
    destruct (proj1 (proj2 (X19_update_view site_constants sample_slugify 4 40
                              three_pets_db (owner_request []) "rex" max_post
                              three_pets_db_ok) _ _ P) _ eq_refl)
      as [pet [u [saved [Hg [Hu [_ [Ht [Hin [_ [Ho [Hn [Hs [Hst _]]]]]]]]]]]]].
    injection Hg as <-. injection Hu as <-. injection Ht as Ht.
    eexists. exists saved. split; [rewrite <- Ht; exact P | ].
    split; [exact Hin | ]. split; [reflexivity | ]. split; [exact Hn | ].
    split; [now symmetry | ]. split; [now apply Hst | exact Ho].
  - assert (Hne : fotos_extras luna_gallery_db 2 <> []) by discriminate.
    exact (proj1 (X19_update_view site_constants sample_slugify 4 40
                    luna_gallery_db (staff_request []) "luna" bob_approval_post
                    luna_gallery_db_ok)
                 luna staff_member 2%Z eq_refl eq_refl eq_refl
                 (or_introl eq_refl) Hne).
Defined.

(* ================================================================== *)
(** ** Creating a pet through the view                                 *)
(* ================================================================== *)

(** The two ways of [Model.save]: the insertion of an object without a key,
    and the update of a row that is in the table. *)
Lemma Model_save_insert (now : Z) (db db1 : Database) (p saved : Pet) :
  pk p = None ->
  Model_save now db p = Ok (db1, saved) ->
  saved = set_pk (Some (next_pet_pk db))
            (set_data_cadastro now (set_data_atualizacao now p))
  /\ pets db1 = pets db ++ [saved]
  /\ journal db1 = journal db ++ [WSavePet (next_pet_pk db)]
  /\ pet_sequence db1 = next_pet_pk db.
Proof.
  intros Hpk. unfold Model_save.
  destruct (violates_unique db p); [discriminate | ]. rewrite Hpk.
  intros H. injection H as <- <-. repeat split.
Qed.

Lemma Model_save_update (now : Z) (db db1 : Database) (p saved : Pet) (k : Z) :
  pk p = Some k ->
  existsb (has_pk k) (pets db) = true ->
  Model_save now db p = Ok (db1, saved) ->
  saved = set_data_atualizacao now p
  /\ pets db1 = map (fun q => if has_pk k q then saved else q) (pets db)
  /\ journal db1 = journal db ++ [WSavePet k]
  /\ pet_sequence db1 = pet_sequence db.
Proof.
  intros Hpk Hex. unfold Model_save.
  destruct (violates_unique db p); [discriminate | ]. rewrite Hpk, Hex.
  intros H. injection H as <- <-. repeat split.
Qed.

Lemma has_pk_next (db : Database) (q : Pet) :
  In q (pets db) -> has_pk (next_pet_pk db) q = false.
Proof.
  intros Hin. unfold has_pk. destruct (pk q) as [j|] eqn:Hj; [ | reflexivity].
  pose proof (next_pet_pk_above db q j Hin Hj). apply Z.eqb_neq. lia.
Qed.

Section CreateFacts.

Variable K : Constants.
Variable slugify : string -> string.

(** The two saves of [form_valid] on a creation form, taken apart: the
    first inserts the pet, the second updates the row just inserted. *)
Lemma form_valid_twice (fuel : nat) (now later : Z) (db db2 : Database)
      (u : User) (inst : Pet) (bound : PostData) (obj : Pet) :
  pk inst = None ->
  PetCreateView_form_valid K slugify fuel now later db
    (PetForm_init db (Some u) inst bound) = Ok (db2, obj) ->
  exists db1 first,
    PetForm_save K slugify fuel now db (PetForm_init db (Some u) inst bound) true
    = Ok (db1, first)
    /\ PetForm_save K slugify fuel later db1
         (with_instance first (PetForm_init db (Some u) inst bound)) true
       = Ok (db2, obj)
    /\ pk first = Some (next_pet_pk db)
    /\ pk obj = Some (next_pet_pk db)
    /\ pets db1 = pets db ++ [first]
    /\ pets db2 = pets db ++ [obj]
    /\ journal db2
       = journal db ++ [WSavePet (next_pet_pk db); WSavePet (next_pet_pk db)]
    /\ fotos db2 = fotos db
    /\ data_cadastro first = now /\ data_atualizacao first = now
    /\ data_cadastro obj = now /\ data_atualizacao obj = later.
Proof.
  intros Hpk Hv. unfold PetCreateView_form_valid in Hv.
  set (form := PetForm_init db (Some u) inst bound) in *.
  destruct (PetForm_save K slugify fuel now db form true)
    as [[db1 first]| |] eqn:S1; cbn [bind fst snd] in Hv; try discriminate.
  exists db1, first.
  destruct (form_of_init db (Some u) inst bound) as [Hfu [Hi Hd]].
  fold form in Hfu, Hi, Hd.
  assert (R : remover_queryset form = None).
  { pose proof (PetForm_new_without_key db (Some u) inst bound Hpk) as N.
    apply PetForm_new_Ok in N. tauto. }
  destruct (plain_form_save K slugify _ _ _ _ _ _ _ R S1)
    as [u1 [Hu1 [_ [_ Run1]]]].
  rewrite Hfu in Hu1. injection Hu1 as <-.
  destruct (Pet_save_is_Model_save _ _ _ _ _ _ _ Run1) as [s1 [M1 _]].
  assert (P1 : pk (set_slug s1 (prepared_pet form u)) = None).
  { cbn [pk set_slug]. now rewrite (proj1 (prepared_pet_fields form u)), Hi. }
  destruct (Model_save_insert _ _ _ _ _ P1 M1) as [E1 [Rows1 [J1 _]]].
  pose proof (Model_save_rows _ _ _ _ _ M1) as [F1 _].
  assert (Hk1 : pk first = Some (next_pet_pk db)) by now rewrite E1.
  assert (R2 : remover_queryset (with_instance first form) = None) by exact R.
  destruct (plain_form_save K slugify _ _ _ _ _ _ _ R2 Hv)
    as [u2 [Hu2 [_ [_ Run2]]]].
  change (user (with_instance first form)) with (user form) in Hu2.
  rewrite Hfu in Hu2. injection Hu2 as <-.
  destruct (Pet_save_is_Model_save _ _ _ _ _ _ _ Run2) as [s2 [M2 _]].
  set (p2 := set_slug s2 (prepared_pet (with_instance first form) u)) in *.
  assert (P2 : pk p2 = Some (next_pet_pk db)).
  { unfold p2. cbn [pk set_slug].
    rewrite (proj1 (prepared_pet_fields (with_instance first form) u)).
    exact Hk1. }
  assert (Ex : existsb (has_pk (next_pet_pk db)) (pets db1) = true).
  { apply existsb_exists. exists first. split.
    - rewrite Rows1. apply in_or_app. right. now left.
    - now apply has_pk_true. }
  destruct (Model_save_update _ _ _ _ _ _ P2 Ex M2) as [E2 [Rows2 [J2 _]]].
  pose proof (Model_save_rows _ _ _ _ _ M2) as [F2 _].
  assert (D2 : data_cadastro p2 = data_cadastro first).
  { unfold p2. cbn [data_cadastro set_slug]. rewrite prepared_pet_cases.
    cbn [instance with_instance]. rewrite Hk1. reflexivity. }
  split; [reflexivity | ]. split; [exact Hv | ].
  split; [exact Hk1 | ]. split; [now rewrite E2 | ].
  split; [exact Rows1 | ]. split.
  { rewrite Rows2, Rows1, map_app. cbn [map].
    rewrite (proj2 (has_pk_true _ _) Hk1). f_equal.
    rewrite <- (map_id (pets db)) at 2. apply map_ext_in.
    intros q Hq. now rewrite (has_pk_next db q Hq). }
  split; [rewrite J2, J1, <- app_assoc; reflexivity | ].
  split; [now rewrite F2, F1 | ].
  split; [now rewrite E1 | ]. split; [now rewrite E1 | ].
  split; [rewrite E2; cbn [data_cadastro set_data_atualizacao];
          rewrite D2; now rewrite E1 | now rewrite E2].
Qed.

End CreateFacts.

(** X20 (a creation through the view saves the pet twice).
    [PetCreateView.form_valid] calls [form.save()] and then the
    [form_valid] of the framework, which calls it again.  When it returns
    for a new pet, the store has received two saves under the one new key:
    an insertion and an update of the same row.  One row was added, the one
    of the returned object; its creation time is the time of the first save
    and its update time the time of the second; no photo was written. *)
Theorem X20_creation_saves_twice
    (K : Constants) (slugify : string -> string) (fuel : nat) (now later : Z)
    (db db2 : Database) (u : User) (inst : Pet) (bound : PostData) (obj : Pet)
    (Hpk : pk inst = None)
    (Hv : PetCreateView_form_valid K slugify fuel now later db
            (PetForm_init db (Some u) inst bound) = Ok (db2, obj)) :
  pk obj = Some (next_pet_pk db)
  /\ journal db2
     = journal db ++ [WSavePet (next_pet_pk db); WSavePet (next_pet_pk db)]
  /\ pets db2 = pets db ++ [obj]
  /\ data_cadastro obj = now
  /\ data_atualizacao obj = later
  /\ fotos db2 = fotos db
  /\ post_fotos_adicionais bound = [].
Proof.
  destruct (form_valid_twice K slugify _ _ _ _ _ _ _ _ _ Hpk Hv)
    as [db1 [first [S1 [_ [_ [Hk [_ [Rows [J [F [_ [_ [Dc Da]]]]]]]]]]]]].
  split; [exact Hk | ]. split; [exact J | ]. split; [exact Rows | ].
  split; [exact Dc | ]. split; [exact Da | ]. split; [exact F | ].
  pose proof (PetForm_new_without_key db (Some u) inst bound Hpk) as N.
  destruct (built_form_save K slugify _ _ _ _ _ _ _ _ _ _ _ N S1)
    as [_ [_ [_ [_ [Files _]]]]].
  exact Files.
Qed.

Lemma X20_creation_saves_twice_witness :
  exists db2 obj,
    PetCreateView_form_valid site_constants sample_slugify 4 40 41 three_pets_db
      (PetForm_init three_pets_db (Some owner) new_pet mel_post)
    = Ok (db2, obj)
    /\ pk obj = Some 4%Z
    /\ journal db2 = [WSavePet 4; WSavePet 4]
    /\ pets db2 = [rex; luna; bob; obj]
    /\ data_cadastro obj = 40%Z /\ data_atualizacao obj = 41%Z.
Proof.
  eexists. eexists. split; [vm_compute; reflexivity | ].
  match goal with
  | |- pk ?o = _ /\ journal ?d = _ /\ _ =>
      pose proof (X20_creation_saves_twice site_constants sample_slugify 4 40
                    41 three_pets_db d owner new_pet mel_post o
                    eq_refl eq_refl)
        as [Hk [Hj [Hp [Hc [Ha _]]]]]
  end.
  split; [exact Hk | ]. split; [exact Hj | ]. split; [exact Hp | ].
  split; [exact Hc | exact Ha].
Defined.

(** When a save cannot raise. *)
Lemma slug_loop_not_Raise (fuel : nat) (db : Database) (base_slug s : string)
      (n : nat) (e : Exception) :
  slug_loop fuel db base_slug s n <> Raise e.
Proof.
  revert s n. induction fuel as [|fuel IH]; intros s n; simpl;
    [discriminate | ].
  destruct (slug_exists db s); [apply IH | discriminate].
Qed.

Lemma violates_unique_intro (db : Database) (p : Pet) :
  (forall q, In q (pets db) -> same_row p q = false ->
     slug q <> slug p /\ ~ (nome q = nome p /\ especie q = especie p)) ->
  violates_unique db p = false.
Proof.
  intros H. unfold violates_unique.
  destruct (existsb _ (pets db)) eqn:E; [exfalso | reflexivity].
  apply existsb_exists in E. destruct E as [q [Hq C]].
  apply andb_prop in C. destruct C as [R C]. apply negb_true_iff in R.
  destruct (H q Hq R) as [Hs Hn]. apply orb_prop in C. destruct C as [C | C].
  - apply String.eqb_eq in C. contradiction.
  - apply andb_prop in C. destruct C as [C1 C2].
    apply String.eqb_eq in C1. apply especie_eqb_eq in C2. now apply Hn.
Qed.

Lemma validate_unique_spec (db : Database) (p : Pet) :
  validate_unique db p = true
  <-> forall q, In q (pets db) -> same_row p q = false ->
        ~ (nome q = nome p /\ especie q = especie p).
Proof.
  unfold validate_unique. rewrite negb_true_iff. split.
  - intros E q Hq R [Hn He].
    assert (X : existsb (fun r => negb (same_row p r)
                                  && String.eqb (nome r) (nome p)
                                  && especie_eqb (especie r) (especie p))
                        (pets db) = true).
    { apply existsb_exists. exists q. split; [exact Hq | ].
      rewrite R, Hn, He, String.eqb_refl. now apply especie_eqb_eq. }
    congruence.
  - intros H. destruct (existsb _ (pets db)) eqn:E; [exfalso | reflexivity].
    apply existsb_exists in E. destruct E as [q [Hq C]].
    apply andb_prop in C. destruct C as [C C2].
    apply andb_prop in C. destruct C as [R C1].
    apply negb_true_iff in R. apply String.eqb_eq in C1.
    apply especie_eqb_eq in C2. now apply (H q Hq R).
Qed.

Lemma Model_save_not_Raise (now : Z) (db : Database) (p : Pet) (e : Exception) :
  violates_unique db p = false -> Model_save now db p <> Raise e.
Proof.
  intros V. unfold Model_save. rewrite V.
  destruct (pk p); [destruct (existsb _ (pets db)) | ]; discriminate.
Qed.

Lemma Pet_save_not_Raise (slugify : string -> string) (fuel : nat) (now : Z)
      (db : Database) (p : Pet) (e : Exception) :
  (forall q, In q (pets db) -> same_row p q = false ->
     ~ (nome q = nome p /\ especie q = especie p)) ->
  (slug p <> "" ->
   forall q, In q (pets db) -> same_row p q = false -> slug q <> slug p) ->
  Pet_save slugify fuel now db p <> Raise e.
Proof.
  intros Hn Hs. destruct (String.eqb_spec (slug p) "") as [Empty | Given].
  - rewrite (Pet_save_empty_slug _ _ _ _ _ Empty).
    destruct (slug_loop fuel db (slugify (nome p))
                (slug_candidate (slugify (nome p)) 0) 1) as [s|e'|] eqn:L;
      cbn [bind]; [ | | discriminate].
    + apply Model_save_not_Raise, violates_unique_intro.
      intros q Hq R. split; [ | exact (Hn q Hq R)].
      apply slug_loop_Ok_inv in L. destruct L as [k [_ [-> [Free _]]]].
      cbn [slug set_slug]. intros E.
      assert (T : slug_exists db (slug_candidate (slugify (nome p)) k) = true).
      { apply slug_exists_In. rewrite <- E. now apply in_map. }
      congruence.
    + exfalso. exact (slug_loop_not_Raise _ _ _ _ _ _ L).
  - rewrite (Pet_save_keeps_slug _ _ _ _ _ Given).
    apply Model_save_not_Raise, violates_unique_intro.
    intros q Hq R. split; [exact (Hs Given q Hq R) | exact (Hn q Hq R)].
Qed.

Lemma prepared_pet_constraint (self : PetForm) (u : User) :
  nome (prepared_pet self u) = nome (construct_instance self)
  /\ especie (prepared_pet self u) = especie (construct_instance self).
Proof.
  rewrite prepared_pet_cases.
  destruct (pk (instance self)), (negb (is_staff u)); split; reflexivity.
Qed.

Lemma same_row_pk (p p' q : Pet) :
  pk p = pk p' -> same_row p q = same_row p' q.
Proof. intros E. unfold same_row. now rewrite E. Qed.

(** A valid form without the removal field is saved without an exception,
    provided the slug of its instance, when it has one, is the slug of no
    other row. *)
Lemma valid_form_save_not_Raise (K : Constants) (slugify : string -> string)
      (fuel : nat) (now : Z) (db : Database) (self : PetForm) (u : User)
      (e : Exception) :
  user self = Some u ->
  remover_queryset self = None ->
  is_valid K db self = true ->
  (slug (instance self) <> "" ->
   forall q, In q (pets db) -> same_row (instance self) q = false ->
             slug q <> slug (instance self)) ->
  PetForm_save K slugify fuel now db self true <> Raise e.
Proof.
  intros Hu R Valid Hs.
  rewrite (PetForm_save_with_user _ _ _ _ _ _ _ _ Hu), Valid.
  destruct (Pet_save slugify fuel now db (prepared_pet self u))
    as [[db1 q]|e'|] eqn:E; cbn [bind fst snd]; [ | | discriminate].
  - unfold _save_m2m_data.
    destruct (cleaned_data_valid K db self Valid) as [CF CR].
    pose proof (is_valid_inv _ _ _ Valid) as [Fl _].
    apply fields_valid_inv in Fl. destruct Fl as [_ [_ [_ [_ [_ Files]]]]].
    rewrite CF, CR, Files, R. discriminate.
  - exfalso. revert E. apply Pet_save_not_Raise.
    + destruct (is_valid_inv _ _ _ Valid) as [_ [_ [_ [_ Vu]]]].
      intros q Hq Row. rewrite (proj1 (prepared_pet_constraint self u)).
      rewrite (proj2 (prepared_pet_constraint self u)).
      apply (proj1 (validate_unique_spec db (construct_instance self)) Vu q Hq).
      rewrite <- Row. apply same_row_pk.
      now rewrite (proj1 (prepared_pet_fields self u)).
    + rewrite prepared_pet_slug. intros Given q Hq Row.
      apply (Hs Given q Hq). rewrite <- Row. apply same_row_pk.
      now rewrite (proj1 (prepared_pet_fields self u)).
Qed.

Section CreateNoRaise.

Variable K : Constants.
Variable slugify : string -> string.

(** The creation view raises nothing: what could make the store refuse the
    row, a name and species already stored, is found by the form. *)
Lemma PetCreateView_post_not_Raise (fuel : nat) (now later : Z)
      (db : Database) (request : HttpRequest) (bound : PostData)
      (e : Exception) :
  PetCreateView_post K slugify fuel now later db request bound <> Raise e.
Proof.
  unfold PetCreateView_post.
  destruct (request_user request) as [|u]; [discriminate | ].
  rewrite (PetForm_new_without_key db (Some u) new_pet bound eq_refl).
  cbn [bind].
  set (form := PetForm_init db (Some u) new_pet bound).
  destruct (form_of_init db (Some u) new_pet bound) as [Hfu [Hi Hd]].
  fold form in Hfu, Hi, Hd.
  assert (R : remover_queryset form = None).
  { pose proof (PetForm_new_without_key db (Some u) new_pet bound eq_refl) as N.
    apply PetForm_new_Ok in N. tauto. }
  destruct (is_valid K db form) eqn:Valid; [ | discriminate].
  unfold PetCreateView_form_valid.
  destruct (PetForm_save K slugify fuel now db form true)
    as [[db1 first]|e1|] eqn:S1; cbn [bind fst snd]; [ | | discriminate].
  2: { exfalso. revert S1.
       apply (valid_form_save_not_Raise K slugify _ _ _ _ u _ Hfu R Valid).
       rewrite Hi. intros H. now contradiction H. }
  destruct (PetForm_save K slugify fuel later db1 (with_instance first form) true)
    as [[db2 obj]|e2|] eqn:S2; cbn [bind fst snd]; try discriminate.
  exfalso. revert S2.
  destruct (plain_form_save K slugify _ _ _ _ _ _ _ R S1)
    as [u1 [Hu1 [_ [_ Run1]]]].
  rewrite Hfu in Hu1. injection Hu1 as <-.
  set (p := prepared_pet form u) in *.
  assert (Ps : slug p = "")
    by (unfold p; now rewrite prepared_pet_slug, Hi).
  assert (Pk : pk p = None)
    by (unfold p; now rewrite (proj1 (prepared_pet_fields form u)), Hi).
  rewrite (Pet_save_empty_slug _ _ _ _ _ Ps) in Run1.
  destruct (slug_loop fuel db (slugify (nome p))
              (slug_candidate (slugify (nome p)) 0) 1) as [s1| |] eqn:L;
    cbn [bind] in Run1; try discriminate.
  apply slug_loop_Ok_inv in L. destruct L as [k1 [_ [Es1 [Free1 _]]]].
  assert (P1 : pk (set_slug s1 p) = None) by exact Pk.
  destruct (Model_save_insert _ _ _ _ _ P1 Run1) as [E1 [Rows1 _]].
  assert (Hk1 : pk first = Some (next_pet_pk db)) by now rewrite E1.
  assert (Hs1 : slug first = s1) by now rewrite E1.
  assert (Hf1 : foto_principal first = foto_principal (construct_instance form)
                /\ video first = video (construct_instance form)).
  { rewrite E1. unfold p. rewrite prepared_pet_cases, Hi.
    cbn [pk new_pet]. destruct (negb (is_staff u)); split; reflexivity. }
  destruct (is_valid_inv _ _ _ Valid) as [Vf [[n Vn] [[cd Vc] [Vfiles Vu]]]].
  assert (Old : forall q, In q (pets db) ->
                  has_pk (next_pet_pk db) q = false) by apply has_pk_next.
  assert (Valid2 : is_valid K db1 (with_instance first form) = true).
  { unfold is_valid.
    change (fields_valid (with_instance first form)) with (fields_valid form).
    change (clean_nome (with_instance first form)) with (clean_nome form).
    change (clean K (with_instance first form)) with (clean K form).
    rewrite Vf, Vn, Vc. cbn [andb].
    apply andb_true_intro. split.
    - unfold file_fields_valid in *.
      cbn [foto_principal video construct_instance instance with_instance
           data] in *.
      destruct Hf1 as [Hp Hv].
      cbn [foto_principal video construct_instance] in Hp, Hv.
      destruct (post_foto_principal (data form)),
               (post_video (data form));
        rewrite ?Hp, ?Hv; exact Vfiles.
    - apply validate_unique_spec. intros q Hq Row.
      rewrite Rows1 in Hq. apply in_app_or in Hq.
      destruct Hq as [Hq | [<- | []]].
      + apply (proj1 (validate_unique_spec db (construct_instance form)) Vu
                 q Hq).
        unfold same_row. cbn [pk construct_instance]. now rewrite Hi.
      + exfalso. unfold same_row in Row.
        cbn [pk construct_instance instance with_instance] in Row.
        rewrite Hk1, Z.eqb_refl in Row. discriminate. }
  apply (valid_form_save_not_Raise K slugify fuel later db1
           (with_instance first form) u e2 Hfu R Valid2).
  cbn [instance with_instance]. intros Given q Hq Row.
  rewrite Rows1 in Hq. apply in_app_or in Hq.
  destruct Hq as [Hq | [<- | []]].
  - rewrite Hs1, Es1. intros E.
    assert (T : slug_exists db (slug_candidate (slugify (nome p)) k1) = true).
    { apply slug_exists_In. rewrite <- E. now apply in_map. }
    congruence.
  - exfalso. unfold same_row in Row. rewrite Hk1, Z.eqb_refl in Row.
    discriminate.
Qed.

End CreateNoRaise.

(** A stored pet with the cleaned name and the species of the submission
    makes the form invalid. *)
Lemma duplicate_invalid (K : Constants) (db : Database) (self : PetForm)
      (q : Pet) :
  In q (pets db) -> same_row (instance self) q = false ->
  nome q = Py.strip (post_nome (data self)) ->
  especie q = post_especie (data self) ->
  is_valid K db self = false.
Proof.
  intros Hin Hrow Hn He.
  destruct (is_valid K db self) eqn:V; [exfalso | reflexivity].
  apply is_valid_inv in V. destruct V as [_ [_ [_ [_ U]]]].
  unfold validate_unique in U. apply negb_true_iff in U.
  assert (X : existsb (fun r => negb (same_row (construct_instance self) r)
                                && String.eqb (nome r) (nome (construct_instance self))
                                && especie_eqb (especie r)
                                     (especie (construct_instance self)))
                      (pets db) = true).
  { apply existsb_exists. exists q. split; [exact Hin | ].
    assert (Row : same_row (construct_instance self) q = false) by exact Hrow.
    rewrite Row. cbn [negb andb nome especie construct_instance].
    unfold cleaned_nome. rewrite Hn, He, String.eqb_refl.
    now apply especie_eqb_eq. }
  congruence.
Qed.

(** X21 (creating a pet through the view).  A requester who is not
    authenticated is sent to the landing page.  A submission whose name,
    stripped of the white space around it, and species are those of a stored
    pet is answered with the form again, as every form with errors is, the
    store being as it was: the constraint of the model is not reached.  A
    redirection, always to the gallery, means that one row was added, under
    a key larger than every key in the table and every key given before,
    with the stripped name, owned by the requester and, for a requester who
    is not staff, pending, also after the second save of the form; no photo
    was written.  The view raises no exception. *)
Theorem X21_create_view
    (K : Constants) (slugify : string -> string) (fuel : nat) (now later : Z)
    (db : Database) (request : HttpRequest) (bound : PostData) :
  (request_user request = AnonymousUser ->
   PetCreateView_post K slugify fuel now later db request bound
   = Ok (db, ToLanding false))
  /\ (forall u q,
        request_user request = LoggedIn u -> In q (pets db) ->
        nome q = Py.strip (post_nome bound) -> especie q = post_especie bound ->
        PetCreateView_post K slugify fuel now later db request bound
        = Ok (db, Page (PetForm_init db (Some u) new_pet bound)))
  /\ (forall db' resp,
        PetCreateView_post K slugify fuel now later db request bound
        = Ok (db', resp) ->
        (forall form, resp = Page form ->
           db' = db /\ is_valid K db form = false)
        /\ (forall target, resp = RedirectTo target ->
              target = ToGallery
              /\ exists u obj,
                   request_user request = LoggedIn u
                   /\ pets db' = pets db ++ [obj]
                   /\ pk obj = Some (next_pet_pk db)
                   /\ (forall q j, In q (pets db) -> pk q = Some j ->
                         (j < next_pet_pk db)%Z)
                   /\ (pet_sequence db < next_pet_pk db)%Z
                   /\ nome obj = Py.strip (post_nome bound)
                   /\ solicitante obj = Some (user_pk u)
                   /\ (is_staff u = false -> status obj = PENDENTE)
                   /\ fotos db' = fotos db))
  /\ (forall e,
        PetCreateView_post K slugify fuel now later db request bound
        <> Raise e).
Proof.
  split; [ | split; [ | split]].
  4: { intros e. apply PetCreateView_post_not_Raise. }
  - intros R. unfold PetCreateView_post. now rewrite R.
  - intros u q R Hin Hn He. unfold PetCreateView_post. rewrite R.
    rewrite (PetForm_new_without_key db (Some u) new_pet bound eq_refl).
    cbn [bind].
    destruct (form_of_init db (Some u) new_pet bound) as [_ [Hi Hd]].
    rewrite (duplicate_invalid K db _ q Hin); [reflexivity | | | ].
    + now rewrite Hi.
    + now rewrite Hd.
    + now rewrite Hd.
  - intros db' resp Hpost. unfold PetCreateView_post in Hpost.
    destruct (request_user request) as [|u] eqn:R.
    { injection Hpost as <- <-. split; intros x H; discriminate H. }
    rewrite (PetForm_new_without_key db (Some u) new_pet bound eq_refl) in Hpost.
    cbn [bind] in Hpost.
    set (form := PetForm_init db (Some u) new_pet bound) in *.
    destruct (is_valid K db form) eqn:Valid.
    2: { injection Hpost as <- <-. split; [ | intros t H; discriminate H].
         intros f H. injection H as <-. now split. }
    destruct (PetCreateView_form_valid K slugify fuel now later db form)
      as [[db2 obj]| |] eqn:V; cbn [bind fst snd] in Hpost; try discriminate.
    injection Hpost as <- <-.
    split; [intros f H; discriminate H | ].
    intros target Ht. injection Ht as <-. split; [reflexivity | ].
    exists u, obj. split; [reflexivity | ].
    destruct (form_valid_twice K slugify fuel now later db db2 u new_pet bound
                obj eq_refl V)
      as [db1 [first [S1 [S2 [Hk1 [Hk [_ [Rows [_ [F _]]]]]]]]]].
    fold form in S1, S2.
    destruct (form_of_init db (Some u) new_pet bound) as [Hfu [Hi Hd]].
    fold form in Hfu, Hi, Hd.
    assert (Hfu2 : user (with_instance first form) = Some u) by exact Hfu.
    destruct (PetForm_save_status _ _ _ _ _ _ _ u _ _ Hfu2 S2)
      as [_ [St2 _]].
    destruct (PetForm_save_status _ _ _ _ _ _ _ u _ _ Hfu S1) as [_ [St1 _]].
    pose proof (PetForm_save_owner _ _ _ _ _ _ _ u _ _ Hfu2 S2) as Own2.
    pose proof (PetForm_save_owner _ _ _ _ _ _ _ u _ _ Hfu S1) as Own1.
    cbn [instance with_instance] in Own2. rewrite Hk1 in Own2.
    rewrite Hi in Own1. cbn [pk new_pet] in Own1.
    destruct (PetForm_save_commit K slugify _ _ _ _ _ _ S2)
      as [u2 [dbB [_ [Hu2 [_ [Hps2 _]]]]]].
    pose proof (Pet_save_fields _ _ _ _ _ _ _ Hps2) as [_ [_ [Hn _]]].
    split; [exact Rows | ]. split; [exact Hk | ].
    split; [intros q j; apply next_pet_pk_above | ].
    split; [unfold next_pet_pk; lia | ].
    split.
    { rewrite Hn, prepared_pet_nome. cbn [data with_instance].
      now rewrite Hd. }
    split; [now rewrite Own2, Own1 | ].
    split; [ | exact F].
    intros Hns. rewrite St2. unfold prepared_status, construct_instance.
    cbn [instance with_instance fields]. rewrite Hk1, andb_false_r.
    cbn [status]. unfold form at 1.
    rewrite (fields_of_non_staff db u new_pet bound Hns).
    rewrite St1. unfold prepared_status. rewrite Hi, Hns. reflexivity.
Qed.

Lemma X21_create_view_witness :
  PetCreateView_post site_constants sample_slugify 4 40 41 three_pets_db
    (anonymous_request []) mel_post
  = Ok (three_pets_db, ToLanding false)
  /\ PetCreateView_post site_constants sample_slugify 4 40 41 three_pets_db
       (owner_request []) rex_again_post
     = Ok (three_pets_db,
           Page (PetForm_init three_pets_db (Some owner) new_pet
                   rex_again_post))
  /\ (exists db' obj,
        PetCreateView_post site_constants sample_slugify 4 40 41 three_pets_db
          (owner_request [])
          (mkPost "Mel " GATO (Some ADOTADO) "" 2 "Doce" None None [] [])
        = Ok (db', RedirectTo ToGallery)
        /\ pets db' = [rex; luna; bob; obj] /\ pk obj = Some 4%Z
        /\ nome obj = "Mel"
        /\ solicitante obj = Some 7%Z /\ status obj = PENDENTE).
Proof.
  split; [ | split].
  - exact (proj1 (X21_create_view site_constants sample_slugify 4 40 41
                    three_pets_db (anonymous_request []) mel_post) eq_refl).
  - refine (proj1 (proj2 (X21_create_view site_constants sample_slugify 4 40 41
                            three_pets_db (owner_request []) rex_again_post))
                  owner rex eq_refl _ eq_refl eq_refl).
    simpl. tauto.
  - assert (P : exists d,
              PetCreateView_post site_constants sample_slugify 4 40 41
                three_pets_db (owner_request [])
                (mkPost "Mel " GATO (Some ADOTADO) "" 2 "Doce" None None [] [])
              = Ok (d, RedirectTo ToGallery))
      by (eexists; vm_compute; reflexivity).
    destruct P as [d P].
    destruct (proj2 (proj1 (proj2 (proj2 (X21_create_view site_constants
                                             sample_slugify 4 40 41
                                             three_pets_db
                                             (owner_request []) _))) _ _ P)
                    ToGallery eq_refl)
      as [_ [u [obj [Hu [Rows [Hk [_ [_ [Hn [Ho [Hs _]]]]]]]]]]].
    injection Hu as <-.
    exists d, obj. split; [exact P | ]. split; [exact Rows | ].
    split; [exact Hk | ]. split; [exact Hn | ].
    split; [exact Ho | now apply Hs].
Defined.

(* ================================================================== *)
(** ** What an accepted submission guarantees                          *)
(* ================================================================== *)

Lemma Model_save_payload (now : Z) (db db1 : Database) (p saved : Pet) :
  Model_save now db p = Ok (db1, saved) ->
  idade saved = idade p /\ raca saved = raca p /\ descricao saved = descricao p.
Proof.
  unfold Model_save. destruct (violates_unique db p); [discriminate | ].
  destruct (pk p) as [k|].
  - destruct (existsb (has_pk k) (pets db)); intros H; injection H as <- <-;
      repeat split.
  - intros H. injection H as <- <-. repeat split.
Qed.

Lemma Pet_save_payload (slugify : string -> string) (fuel : nat) (now : Z)
      (db db1 : Database) (p saved : Pet) :
  Pet_save slugify fuel now db p = Ok (db1, saved) ->
  idade saved = idade p /\ raca saved = raca p /\ descricao saved = descricao p.
Proof.
  intros H. apply Pet_save_is_Model_save in H. destruct H as [s [H _]].
  apply Model_save_payload in H. exact H.
Qed.

Lemma prepared_pet_payload (self : PetForm) (u : User) :
  nome (prepared_pet self u) = cleaned_nome self
  /\ especie (prepared_pet self u) = post_especie (data self)
  /\ idade (prepared_pet self u) = post_idade (data self)
  /\ descricao (prepared_pet self u) = cleaned_descricao self
  /\ raca (prepared_pet self u)
     = (if Py.truthy (cleaned_raca self) then Some (cleaned_raca self)
        else None).
Proof.
  rewrite prepared_pet_cases.
  destruct (pk (instance self)), (negb (is_staff u)); repeat split.
Qed.

Lemma lower_upper_char (c : ascii) :
  Py.lower_char (Py.upper_char c) = Py.lower_char c.
Proof.
  destruct c as [[] [] [] [] [] [] [] []]; reflexivity.
Qed.

Lemma lower_upper (s : string) : Py.lower (Py.upper s) = Py.lower s.
Proof.
  induction s as [|c r IH]; [reflexivity | ].
  unfold Py.lower, Py.upper in *. cbn [Py.map_chars].
  now rewrite lower_upper_char, IH.
Qed.

Lemma clean_nome_Raise (self : PetForm) :
  clean_nome self = Raise (ValidationError GenericName)
  <-> In (Py.lower (cleaned_nome self)) nomes_proibidos.
Proof.
  unfold clean_nome. rewrite <- str_in_In.
  destruct (cleaned_nome self) as [|c r] eqn:N; cbn [Py.truthy andb].
  - split; [discriminate | intros H; discriminate H].
  - destruct (Py.str_in (Py.lower (String c r)) nomes_proibidos);
      split; congruence.
Qed.

Lemma CharField_clean_Some (required : bool) (max_length : option nat)
      (value w : string) :
  CharField_clean required max_length value = Some w ->
  w = Py.strip value
  /\ (required = true -> w <> "")
  /\ (forall m, max_length = Some m -> String.length w <= m).
Proof.
  unfold CharField_clean.
  destruct (required && negb (Py.truthy (Py.strip value))) eqn:R;
    [discriminate | ].
  destruct (match max_length with
            | Some m => Nat.ltb m (String.length (Py.strip value))
            | None => false
            end) eqn:L; [discriminate | ].
  cbn [orb]. destruct (Py.has_char Ascii.zero (Py.strip value));
    [discriminate | ].
  intros H. injection H as <-. split; [reflexivity | ]. split.
  - intros ->. cbn [andb] in R. apply negb_false_iff in R.
    intros E. rewrite E in R. discriminate.
  - intros m ->. now apply Nat.ltb_ge in L.
Qed.

(** X6 (what every saved submission satisfies).  The pet that a successful
    [save] returns, with or without commit, carries the submitted name and
    description without the white space around them, and the submitted
    species and age.  The name is not empty, has at most 100 characters and
    is none of the five generic names, in any case of the letters; the
    description is not empty; the age lies between 0 and 30; a pet of the
    species other has a breed; no other stored pet has the same name and
    species; and the submission carried no gallery file.  So a submission
    that fails one of these is never saved. *)
Theorem X6_saved_submission
    (K : Constants) (slugify : string -> string) (fuel : nat) (now : Z)
    (db db' : Database) (self : PetForm) (commit : bool) (saved : Pet)
    (Hsave : PetForm_save K slugify fuel now db self commit = Ok (db', saved)) :
  nome saved = Py.strip (post_nome (data self))
  /\ descricao saved = Py.strip (post_descricao (data self))
  /\ especie saved = post_especie (data self)
  /\ idade saved = post_idade (data self)
  /\ nome saved <> "" /\ String.length (nome saved) <= 100
  /\ descricao saved <> ""
  /\ (0 <= idade saved <= 30)%Z
  /\ ~ In (Py.lower (nome saved)) nomes_proibidos
  /\ ~ In (Py.lower (Py.upper (nome saved))) nomes_proibidos
  /\ (especie saved = OUTRO -> exists r, raca saved = Some r /\ r <> "")
  /\ (forall q, In q (pets db) -> same_row (instance self) q = false ->
        ~ (nome q = nome saved /\ especie q = especie saved))
  /\ post_fotos_adicionais (data self) = [].
Proof.
  destruct (PetForm_save_Ok_valid _ _ _ _ _ _ _ _ _ Hsave) as [Valid [u Hu]].
  rewrite (PetForm_save_with_user _ _ _ _ _ _ _ _ Hu), Valid in Hsave.
  destruct (prepared_pet_payload self u) as [Pn [Pe [Pi [Pd Pr]]]].
  assert (Fields : nome saved = cleaned_nome self
                   /\ especie saved = post_especie (data self)
                   /\ idade saved = post_idade (data self)
                   /\ descricao saved = cleaned_descricao self
                   /\ raca saved
                      = (if Py.truthy (cleaned_raca self)
                         then Some (cleaned_raca self) else None)).
  { destruct commit.
    - destruct (Pet_save slugify fuel now db (prepared_pet self u))
        as [[db1 q]| |] eqn:E; cbn [bind fst snd] in Hsave; try discriminate.
      destruct (_save_m2m_data K now db1 self q); cbn [bind] in Hsave;
        try discriminate.
      injection Hsave as _ <-.
      pose proof (Pet_save_fields _ _ _ _ _ _ _ E) as [_ [_ [Hn [He _]]]].
      pose proof (Pet_save_payload _ _ _ _ _ _ _ E) as [Hi [Hr Hd]].
      rewrite Hn, He, Hi, Hr, Hd. repeat split; assumption.
    - injection Hsave as _ <-. repeat split; assumption. }
  destruct Fields as [Fn [Fe [Fi [Fd Fr]]]].
  destruct (is_valid_inv _ _ _ Valid) as [Vf [[n Vn] [[cd Vc] [_ Vu]]]].
  destruct (fields_valid_inv _ Vf) as [Cn [_ [Cd [Age [_ Files]]]]].
  destruct (CharField_clean_Some _ _ _ _ Cn) as [_ [Nn Ln]].
  destruct (CharField_clean_Some _ _ _ _ Cd) as [_ [Nd _]].
  assert (NotGeneric : ~ In (Py.lower (nome saved)) nomes_proibidos).
  { rewrite Fn. intros Hin. apply clean_nome_Raise in Hin. congruence. }
  split; [exact Fn | ]. split; [exact Fd | ]. split; [exact Fe | ].
  split; [exact Fi | ].
  split; [rewrite Fn; now apply Nn | ].
  split; [rewrite Fn; now apply Ln | ].
  split; [rewrite Fd; now apply Nd | ].
  split; [now rewrite Fi | ].
  split; [exact NotGeneric | ].
  split; [now rewrite lower_upper | ].
  split; [ | split; [ | exact Files]].
  - intros Ho. rewrite Fe in Ho. rewrite Fr.
    unfold clean in Vc. rewrite Files in Vc. cbn [bind] in Vc.
    destruct (match post_video (data self) with
              | Some v => _ | None => Ok tt end); cbn [bind] in Vc;
      try discriminate.
    rewrite Ho in Vc. cbn [especie_eqb especie_value] in Vc.
    destruct (Py.truthy (cleaned_raca self)) eqn:T;
      [ | cbn in Vc; discriminate].
    exists (cleaned_raca self). split; [reflexivity | ].
    intros E. rewrite E in T. discriminate.
  - intros q Hin Hrow [Hn He].
    unfold validate_unique in Vu. apply negb_true_iff in Vu.
    assert (X : existsb (fun r => negb (same_row (construct_instance self) r)
                                  && String.eqb (nome r)
                                       (nome (construct_instance self))
                                  && especie_eqb (especie r)
                                       (especie (construct_instance self)))
                        (pets db) = true).
    { apply existsb_exists. exists q. split; [exact Hin | ].
      assert (Row : same_row (construct_instance self) q = false) by exact Hrow.
      rewrite Row. cbn [negb andb nome especie construct_instance].
      rewrite Hn, He, Fn, Fe, String.eqb_refl.
      now apply especie_eqb_eq. }
    congruence.
Qed.

Lemma X6_saved_submission_witness :
  (exists db' saved,
     PetForm_save site_constants sample_slugify 4 40 three_pets_db
       (PetForm_init three_pets_db (Some owner) new_pet
          (mkPost " Mel " GATO None "" 2 "Doce " None None [] [])) true
     = Ok (db', saved)
     /\ nome saved = "Mel" /\ descricao saved = "Doce"
     /\ (0 <= idade saved <= 30)%Z)
  /\ Forall (fun bound =>
               PetForm_save site_constants sample_slugify 4 40 three_pets_db
                 (PetForm_init three_pets_db (Some owner) new_pet bound) true
               = Raise ValueError)
            [mkPost "GATO" GATO None "" 2 "Doce" None None [] [];
             mkPost "   " GATO None "" 2 "Doce" None None [] [];
             mkPost "Mel" GATO None "" 31 "Doce" None None [] [];
             mkPost "Mel" OUTRO None " " 3 "Doce" None None [] [];
             mkPost "Rex" CACHORRO None "" 3 "Doce" None None [] [];
             mkPost "Mel" GATO None "" 3 "Doce" (Some (mkFile "mel.gif" 10))
                    None [] [];
             mkPost "Mel" GATO None "" 3 "Doce" None (Some (mkFile "mp4" 10))
                    [] [];
             one_file_post].
Proof.
  split; [ | repeat constructor].
  eexists. eexists. split; [vm_compute; reflexivity | ].
  match goal with
  | |- nome ?s = _ /\ _ =>
      pose proof (X6_saved_submission site_constants sample_slugify 4 40
                    three_pets_db _
                    (PetForm_init three_pets_db (Some owner) new_pet
                       (mkPost " Mel " GATO None "" 2 "Doce " None None [] []))
                    true s eq_refl)
        as [Hn [Hd [_ [_ [_ [_ [_ [Hi _]]]]]]]]
  end.
  split; [exact Hn | ]. split; [exact Hd | exact Hi].
Defined.

(* ================================================================== *)
(** ** The static build                                                *)
(* ================================================================== *)

(** The path of a pet resolves to the detail view of its slug, unless the
    slug is the word of the creation path. *)
Lemma resolve_pet_path (s : string) :
  slug_converter s = true -> s <> "adicionar" ->
  resolve ["pet"; s] = Some (detalhe_pet s).
Proof.
  intros Hc Hne. unfold resolve.
  apply String.eqb_neq in Hne. rewrite String.eqb_refl, Hne, Hc. reflexivity.
Qed.

Lemma static_detail_page (db : Database) (p : Pet) :
  NoDup (map slug (pets db)) -> In p (pets db) ->
  slug_converter (slug p) = true -> slug p <> "adicionar" ->
  static_detail db p = Some (mkDetail p true (nome p)).
Proof.
  intros ND Hin Hc Hne. unfold static_detail, Pet_get_absolute_url.
  rewrite Hc, (resolve_pet_path _ Hc Hne).
  unfold PetDetailView_get, get_object.
  cbn [client_request request_user session_is_visitor is_authenticated
       negb andb].
  now rewrite (filter_unique_slug _ _ ND Hin).
Qed.

Lemma static_detail_fails (db : Database) (p : Pet) :
  slug_converter (slug p) = false \/ slug p = "adicionar" ->
  static_detail db p = None.
Proof.
  unfold static_detail, Pet_get_absolute_url.
  destruct (slug_converter (slug p)) eqn:Hc; [ | reflexivity].
  intros [H | H]; [discriminate | ]. rewrite H. reflexivity.
Qed.

Lemma static_details_rows (db : Database) (rows : list Pet) :
  NoDup (map slug (pets db)) ->
  (forall p, In p rows ->
     In p (pets db) /\ slug_converter (slug p) = true
     /\ slug p <> "adicionar") ->
  static_details db rows
  = Some (map (fun p => (slug p, mkDetail p true (nome p))) rows).
Proof.
  intros ND. induction rows as [|p r IH]; intros Hsub; [reflexivity | ].
  cbn [static_details map].
  destruct (Hsub p (or_introl eq_refl)) as [Hin [Hc Hne]].
  rewrite (static_detail_page db p ND Hin Hc Hne).
  rewrite IH; [reflexivity | ]. intros q Hq. apply Hsub. now right.
Qed.

Lemma static_details_fail (db : Database) (rows : list Pet) (p : Pet) :
  In p rows -> static_detail db p = None -> static_details db rows = None.
Proof.
  intros Hin Hp. induction rows as [|q r IH]; [destruct Hin | ].
  cbn [static_details]. destruct Hin as [-> | Hin].
  - now rewrite Hp.
  - destruct (static_detail db q); [ | reflexivity].
    now rewrite (IH Hin).
Qed.

(** X22 (what the static build writes).  On a well-formed store, when every
    slug is one that the paths of the site accept (letters, digits, hyphens
    and underscores, at least one) and none is the word of the creation
    path, the loop of the build completes and writes one detail page for
    every stored pet, whatever its status, the pending ones included.  One
    pet with an empty or otherwise unroutable slug, or with the slug
    [adicionar], whose path belongs to the creation view, stops the build.
    The gallery page lists the available pets only; it holds the whole
    listing unless the process inherited an empty STATIC_BUILD variable,
    which [setdefault] leaves in place: then it holds the first eight pets
    only. *)
Theorem X22_static_build (inherited : option string) (db : Database)
    (Hok : store_ok db) :
  ((forall p, In p (pets db) ->
      slug_converter (slug p) = true /\ slug p <> "adicionar") ->
   static_build_details db
   = Some (map (fun p => (slug p, mkDetail p true (nome p)))
               (order_by_desc data_cadastro (pets db))))
  /\ (forall p, In p (pets db) ->
        slug_converter (slug p) = false \/ slug p = "adicionar" ->
        static_build_details db = None)
  /\ (forall p, In p (pets db) ->
        In p (order_by_desc data_cadastro (pets db)))
  /\ (inherited <> Some "" ->
      static_gallery inherited db
      = Some (PetListView_get_queryset db client_request))
  /\ (inherited = Some "" ->
      static_gallery inherited db
      = Some (firstn 8 (PetListView_get_queryset db client_request)))
  /\ (forall p, In p (PetListView_get_queryset db client_request)
                <-> In p (pets db) /\ status p = DISPONIVEL).
Proof.
  destruct Hok as [_ [_ [NDs _]]].
  assert (Sorted : forall p, In p (order_by_desc data_cadastro (pets db))
                             <-> In p (pets db)).
  { intros p. split; apply Permutation_in;
      [ | apply Permutation_sym]; apply order_by_desc_perm. }
  split.
  { intros Routes. apply static_details_rows; [exact NDs | ].
    intros p Hp. apply Sorted in Hp. split; [exact Hp | now apply Routes]. }
  split.
  { intros p Hin Bad. apply (static_details_fail db _ p).
    - now apply Sorted.
    - now apply static_detail_fails. }
  split; [intros p; apply Sorted | ].
  split; [ | split].
  - intros Hne. unfold static_gallery, PetListView_get,
                       VisitorOrUserRequiredMixin_dispatch.
    cbn [client_request request_user session_is_visitor is_authenticated
         negb andb page_number].
    assert (T : opt_truthy (static_build_env inherited) = true).
    { destruct inherited as [[|c r]|]; try reflexivity. congruence. }
    unfold PetListView_get_paginate_by. now rewrite T.
  - intros ->. unfold static_gallery, PetListView_get,
                      VisitorOrUserRequiredMixin_dispatch.
    cbn [client_request request_user session_is_visitor is_authenticated
         negb andb page_number].
    change (PetListView_get_paginate_by (static_build_env (Some "")))
      with (Some 8).
    now rewrite paginate_first_page.
  - intros p. rewrite PetListView_get_queryset_In.
    rewrite (gallery_condition_public client_request p eq_refl).
    now rewrite status_eqb_eq.
Qed.

Lemma X22_static_build_witness :
  static_build_details three_pets_db
  = Some [("bob", mkDetail bob true "Bob"); ("luna", mkDetail luna true "Luna");
          ("rex", mkDetail rex true "Rex")]
  /\ status luna = PENDENTE
  /\ static_gallery None three_pets_db = Some [rex]
  /\ static_gallery (Some "") three_pets_db = Some [rex]
  /\ static_build_details adicionar_db = None
  /\ PetDetailView_get adicionar_db client_request "adicionar"
     = Page (mkDetail adicionar true "Adicionar").
Proof.
  pose proof (X22_static_build None three_pets_db three_pets_db_ok)
    as [Details [_ [_ [Whole _]]]].
  pose proof (X22_static_build (Some "") three_pets_db three_pets_db_ok)
    as [_ [_ [_ [_ [Paged _]]]]].
  pose proof (X22_static_build None adicionar_db adicionar_db_ok)
    as [_ [Stops _]].
  split.
  { apply Details. intros p [<- | [<- | [<- | []]]];
      (split; [reflexivity | discriminate]). }
  split; [reflexivity | ].
  split; [apply Whole; discriminate | ].
  split; [exact (Paged eq_refl) | ].
  split; [ | reflexivity].
  apply (Stops adicionar); [simpl; tauto | now right].
Defined.
